(** * Self-hosted gateway client of the Moltbot worker

    A shallow embedding of [src/gateway/selfhosted.ts], of the public
    routes ([selfhosted/routes/public.selfhosted.ts]) and of the worker
    entry point (environment validation and the catch-all proxy route),
    followed by the properties of the proxy/relay layer.

    Platform objects (strings, [URL], [Headers], [JSON], [fetch],
    [WebSocket]) are modelled by the small modules at the top; everything
    below [Module Gateway] follows the TypeScript source line by line. *)

From Stdlib Require Import String Ascii List ZArith Bool Lia.
From Stdlib Require Import Numbers.DecimalString.
Import ListNotations.

Set Warnings "-register-all".

Local Open Scope Z_scope.
Local Open Scope string_scope.

(* ================================================================== *)
(** ** JavaScript strings *)
(* ================================================================== *)

Module JS.

(** An optional string of the environment or of a header lookup:
    [None] is [undefined] / [null]. *)
Definition ostring := option string.

(** JavaScript truthiness of [string | undefined]: the empty string and
    [undefined] are falsy. *)
Definition truthy (o : ostring) : bool :=
  match o with
  | Some s => negb (s =? "")
  | None => false
  end.

Definition lower_ascii (c : ascii) : ascii :=
  let n := nat_of_ascii c in
  if (Nat.leb 65 n && Nat.leb n 90)%bool then ascii_of_nat (n + 32) else c.

(** [s.toLowerCase()] on ASCII text. *)
Fixpoint toLowerCase (s : string) : string :=
  match s with
  | EmptyString => EmptyString
  | String c t => String (lower_ascii c) (toLowerCase t)
  end.

(** The double-quote character. *)
Definition dquote : ascii := ascii_of_nat 34.

(** [s.startsWith(p)] *)
Definition startsWith (s p : string) : bool := String.prefix p s.

(** [s.includes(sub)] *)
Fixpoint includes (s sub : string) : bool :=
  if String.prefix sub s then true
  else match s with
       | EmptyString => false
       | String _ t => includes t sub
       end.

(** [s.replace(/\/$/, '')]: drops one slash at the very end. *)
Fixpoint strip_trailing_slash (s : string) : string :=
  match s with
  | EmptyString => EmptyString
  | String c EmptyString => if Ascii.eqb c "/" then EmptyString else s
  | String c t => String c (strip_trailing_slash t)
  end.

Fixpoint drop (n : nat) (s : string) : string :=
  match n, s with
  | O, _ => s
  | S n', String _ t => drop n' t
  | S _, EmptyString => EmptyString
  end.

(** [s.replace(pat, rep)] with a string pattern: first occurrence only. *)
Fixpoint replace_first (s pat rep : string) : string :=
  if String.prefix pat s then rep ++ drop (String.length pat) s
  else match s with
       | EmptyString => EmptyString
       | String c t => String c (replace_first t pat rep)
       end.

(** [l.join(sep)] *)
Fixpoint join (sep : string) (l : list string) : string :=
  match l with
  | [] => ""
  | [x] => x
  | x :: t => x ++ sep ++ join sep t
  end.

(** Decimal rendering of an integer, as in a template literal. *)
Definition Z_to_string (z : Z) : string :=
  NilEmpty.string_of_int (Z.to_int z).

(** Splits at the first character satisfying [p]; that character stays
    at the head of the second part. *)
Fixpoint span_until (p : ascii -> bool) (s : string) : string * string :=
  match s with
  | EmptyString => (EmptyString, EmptyString)
  | String c t =>
      if p c then (EmptyString, s)
      else let (a, b) := span_until p t in (String c a, b)
  end.

Fixpoint forallb_str (p : ascii -> bool) (s : string) : bool :=
  match s with
  | EmptyString => true
  | String c t => p c && forallb_str p t
  end.

End JS.

(* ================================================================== *)
(** ** The URL class

    The URL record and the parser, the serialiser and the [protocol]
    setter of the URL standard, on strings of bytes: removal of
    surrounding white space, tabs and line breaks, lower-casing of the
    scheme and of the host, credentials, IPv4 and IPv6 hosts, elision of
    the default port, dot segments, backslashes after a special scheme,
    percent-encoding of the path, the query and the fragment, paths
    without a host and opaque paths.  A string stands for the UTF-8
    bytes of the JavaScript string.  Not modelled: the processing of
    internationalised names, which the standard applies to a domain with
    a byte outside ASCII or with a label that starts with [xn--]; the
    parser here refuses such a domain, and [ascii_names] tells the
    inputs that have none. *)
(* ================================================================== *)

Module Url.

Record URL := make {
  protocol : string;          (* the scheme with its colon, e.g. "https:" *)
  username : string;
  password : string;
  hostname : option string;   (* the serialised host; [None] is a null host *)
  port : option Z;            (* [None] is a null port *)
  pathname : string;          (* the serialised path *)
  query : option string;      (* without the question mark *)
  fragment : option string    (* without the hash sign *)
}.

(** A URL with a host and neither credentials nor port. *)
Definition mkURL (protocol host pathname : string) (query fragment : option string) : URL :=
  make protocol "" "" (Some host) None pathname query fragment.

(** *** Characters *)

Definition code (c : ascii) : Z := Z.of_nat (nat_of_ascii c).

Definition one_of (codes : list Z) (c : ascii) : bool :=
  existsb (Z.eqb (code c)) codes.

Definition is_digit (c : ascii) : bool :=
  ((48 <=? code c)%Z && (code c <=? 57)%Z)%bool.

Definition is_alpha (c : ascii) : bool :=
  let n := nat_of_ascii (JS.lower_ascii c) in (Nat.leb 97 n && Nat.leb n 122)%bool.

Definition is_hex (c : ascii) : bool :=
  let n := code (JS.lower_ascii c) in
  (is_digit c || ((97 <=? n)%Z && (n <=? 102)%Z))%bool.

Definition is_scheme_char (c : ascii) : bool :=
  (is_alpha c || is_digit c
   || Ascii.eqb c "+" || Ascii.eqb c "-" || Ascii.eqb c ".")%bool.

Definition valid_scheme (s : string) : bool :=
  match s with
  | EmptyString => false
  | String c _ => (is_alpha c && JS.forallb_str is_scheme_char s)%bool
  end.

(** The special schemes of the URL standard, with their colon. *)
Definition is_special (proto : string) : bool :=
  ((proto =? "http:") || (proto =? "https:") || (proto =? "ws:")
   || (proto =? "wss:") || (proto =? "ftp:") || (proto =? "file:"))%bool.

Definition default_port (proto : string) : option Z :=
  if ((proto =? "http:") || (proto =? "ws:"))%bool then Some 80%Z
  else if ((proto =? "https:") || (proto =? "wss:"))%bool then Some 443%Z
  else if proto =? "ftp:" then Some 21%Z
  else None.

Definition same_port (a b : option Z) : bool :=
  match a, b with
  | Some x, Some y => (x =? y)%Z
  | None, None => true
  | _, _ => false
  end.

Definition exists_str (p : ascii -> bool) (s : string) : bool :=
  negb (JS.forallb_str (fun c => negb (p c)) s).

(** *** Numbers *)

(** The value of a decimal or hexadecimal digit. *)
Definition digit_value (c : ascii) : Z :=
  let n := code (JS.lower_ascii c) in
  if (n <=? 57)%Z then (n - 48)%Z else (n - 87)%Z.

Fixpoint number_in (radix acc : Z) (digits : string) : Z :=
  match digits with
  | EmptyString => acc
  | String c t => number_in radix (acc * radix + digit_value c)%Z t
  end.

Definition char_of (n : Z) : ascii := ascii_of_nat (Z.to_nat n).

Definition hex_char (upper : bool) (n : Z) : ascii :=
  if (n <? 10)%Z then char_of (48 + n)
  else char_of ((if upper then 55 else 87) + n).

(** *** Percent-encoding *)

Definition percent_byte (c : ascii) : string :=
  String "%" (String (hex_char true (code c / 16))
                     (String (hex_char true (code c mod 16)) EmptyString)).

(** Each byte of the set is replaced by its escape; the others, and the
    escapes already there, stay. *)
Fixpoint encode (in_set : ascii -> bool) (s : string) : string :=
  match s with
  | EmptyString => EmptyString
  | String c t => (if in_set c then percent_byte c else String c EmptyString)
                    ++ encode in_set t
  end.

Fixpoint percent_decode (s : string) : string :=
  match s with
  | EmptyString => EmptyString
  | String c t =>
      match t with
      | String a (String b t2) =>
          if (Ascii.eqb c "%" && is_hex a && is_hex b)%bool
          then String (char_of (16 * digit_value a + digit_value b))
                      (percent_decode t2)
          else String c (percent_decode t)
      | _ => String c (percent_decode t)
      end
  end.

(** The percent-encode sets: C0 control, fragment, query, special
    query, path and userinfo. *)
Definition in_c0_set (c : ascii) : bool :=
  ((code c <? 32)%Z || (126 <? code c)%Z)%bool.

Definition in_fragment_set (c : ascii) : bool :=
  (in_c0_set c || one_of [32; 34; 60; 62; 96] c)%bool.

Definition in_query_set (c : ascii) : bool :=
  (in_c0_set c || one_of [32; 34; 35; 60; 62] c)%bool.

Definition in_special_query_set (c : ascii) : bool :=
  (in_query_set c || one_of [39] c)%bool.

Definition in_path_set (c : ascii) : bool :=
  (in_query_set c || one_of [63; 94; 96; 123; 125] c)%bool.

Definition in_userinfo_set (c : ascii) : bool :=
  (in_path_set c || one_of [47; 58; 59; 61; 64; 91; 92; 93; 124] c)%bool.

(** *** The input *)

Definition is_c0_or_space (c : ascii) : bool := (code c <=? 32)%Z.

Definition is_tab_or_newline (c : ascii) : bool := one_of [9; 10; 13] c.

Fixpoint strip_start (p : ascii -> bool) (s : string) : string :=
  match s with
  | String c t => if p c then strip_start p t else s
  | EmptyString => EmptyString
  end.

Fixpoint strip_end (p : ascii -> bool) (s : string) : string :=
  match s with
  | EmptyString => EmptyString
  | String c t =>
      match strip_end p t with
      | EmptyString => if p c then EmptyString else String c EmptyString
      | t' => String c t'
      end
  end.

Fixpoint remove (p : ascii -> bool) (s : string) : string :=
  match s with
  | EmptyString => EmptyString
  | String c t => if p c then remove p t else String c (remove p t)
  end.

(** White space around the input goes, then every tab and line break. *)
Definition clean (input : string) : string :=
  remove is_tab_or_newline (strip_end is_c0_or_space (strip_start is_c0_or_space input)).

(** The pieces of [s] between the characters that satisfy [p]. *)
Fixpoint split_on (p : ascii -> bool) (s : string) : list string :=
  match s with
  | EmptyString => [EmptyString]
  | String c t =>
      if p c then EmptyString :: split_on p t
      else match split_on p t with
           | x :: r => String c x :: r
           | [] => [String c EmptyString]
           end
  end.

(** Splits at the last occurrence of [c]. *)
Fixpoint rsplit (c : ascii) (s : string) : option (string * string) :=
  match s with
  | EmptyString => None
  | String a t =>
      match rsplit c t with
      | Some (x, y) => Some (String a x, y)
      | None => if Ascii.eqb a c then Some (EmptyString, t) else None
      end
  end.

Definition is_path_end (c : ascii) : bool :=
  (Ascii.eqb c "?" || Ascii.eqb c "#")%bool.

Definition is_slash (special : bool) (c : ascii) : bool :=
  (Ascii.eqb c "/" || (special && Ascii.eqb c "\"))%bool.

Definition is_authority_end (special : bool) (c : ascii) : bool :=
  (is_slash special c || is_path_end c)%bool.

(** Path, query and fragment of the tail of a URL string, as written. *)
Definition parse_tail (s : string) : string * option string * option string :=
  let (path, r1) := JS.span_until is_path_end s in
  let (q, r2) :=
    match r1 with
    | String "?" t => let (q, r) := JS.span_until (Ascii.eqb "#") t in (Some q, r)
    | _ => (None, r1)
    end in
  let f := match r2 with
           | String "#" t => Some t
           | _ => None
           end in
  (path, q, f).

(** *** Hosts *)

Definition forbidden_host_char (c : ascii) : bool :=
  one_of [0; 9; 10; 13; 32; 35; 47; 58; 60; 62; 63; 64; 91; 92; 93; 94; 124] c.

Definition forbidden_domain_char (c : ascii) : bool :=
  (forbidden_host_char c || (code c <? 32)%Z || one_of [37; 127] c)%bool.

(** The host of a URL whose scheme is not special: kept as written. *)
Definition opaque_host (input : string) : option string :=
  if exists_str forbidden_host_char input then None
  else Some (encode in_c0_set input).

Definition is_radix_digit (radix : Z) (c : ascii) : bool :=
  if (radix =? 16)%Z then is_hex c
  else (is_digit c && (digit_value c <? radix)%Z)%bool.

(** One part of an IPv4 address: decimal, octal after [0], hexadecimal
    after [0x]. *)
Definition ipv4_number (s : string) : option Z :=
  if s =? "" then None
  else
    let '(radix, digits) :=
      if (Nat.leb 2 (String.length s) && String.prefix "0x" (JS.toLowerCase s))%bool
      then (16%Z, JS.drop 2 s)
      else if (Nat.leb 2 (String.length s) && String.prefix "0" s)%bool
           then (8%Z, JS.drop 1 s)
           else (10%Z, s) in
    if digits =? "" then Some 0%Z
    else if JS.forallb_str (is_radix_digit radix) digits
         then Some (number_in radix 0 digits)
         else None.

Definition dot_parts (s : string) : list string := split_on (Ascii.eqb ".") s.

Definition ends_in_number (s : string) : bool :=
  match rev (dot_parts s) with
  | [] => false
  | last :: before =>
      let tested := if last =? "" then hd_error before else Some last in
      match tested with
      | None => false
      | Some l =>
          ((negb (l =? "") && JS.forallb_str is_digit l)
           || match ipv4_number l with Some _ => true | None => false end)%bool
      end
  end.

Fixpoint all_some {A} (l : list (option A)) : option (list A) :=
  match l with
  | [] => Some []
  | Some a :: t => option_map (cons a) (all_some t)
  | None :: _ => None
  end.

(** The numbers before the last one, each in its place. *)
Fixpoint ipv4_sum (counter : nat) (numbers : list Z) : Z :=
  match numbers with
  | [] => 0
  | n :: t => (n * 256 ^ (3 - Z.of_nat counter) + ipv4_sum (S counter) t)%Z
  end.

Definition ipv4_text (n : Z) : string :=
  JS.Z_to_string (n / 16777216) ++ "." ++ JS.Z_to_string (n / 65536 mod 256)
    ++ "." ++ JS.Z_to_string (n / 256 mod 256) ++ "." ++ JS.Z_to_string (n mod 256).

Definition parse_ipv4 (s : string) : option string :=
  let parts := dot_parts s in
  let parts := match rev parts with
               | EmptyString :: ((_ :: _) as before) => rev before
               | _ => parts
               end in
  if Nat.ltb 4 (List.length parts) then None
  else
    match all_some (map ipv4_number parts) with
    | None => None
    | Some numbers =>
        match rev numbers with
        | [] => None
        | last :: before =>
            if existsb (fun n => (255 <? n)%Z) before then None
            else if (256 ^ (5 - Z.of_nat (List.length numbers)) <=? last)%Z then None
            else Some (ipv4_text (last + ipv4_sum 0 (rev before)))
        end
    end.

(** Up to [n] hexadecimal digits: their value, how many, and the rest. *)
Fixpoint read_hex (n : nat) (value : Z) (len : nat) (s : string) : Z * nat * string :=
  match n, s with
  | S n', String c t =>
      if is_hex c then read_hex n' (value * 16 + digit_value c)%Z (S len) t
      else (value, len, s)
  | _, _ => (value, len, s)
  end.

(** One decimal number of an IPv4 address inside an IPv6 one: no
    leading zero, at most 255. *)
Fixpoint read_piece (piece : option Z) (s : string) : option (option Z * string) :=
  match s with
  | String c t =>
      if is_digit c then
        match piece with
        | None => read_piece (Some (digit_value c)) t
        | Some p =>
            if (p =? 0)%Z then None
            else if (255 <? p * 10 + digit_value c)%Z then None
                 else read_piece (Some (p * 10 + digit_value c)%Z) t
        end
      else Some (piece, s)
  | EmptyString => Some (piece, s)
  end.

Definition read_number (s : string) : option (Z * string) :=
  match read_piece None s with
  | Some (Some n, rest) => Some (n, rest)
  | _ => None
  end.

Definition after_dot (s : string) : option string :=
  match s with
  | String "." t => Some t
  | _ => None
  end.

Definition embedded_ipv4 (s : string) : option (Z * Z) :=
  match read_number s with
  | None => None
  | Some (a, r1) =>
      match option_map read_number (after_dot r1) with
      | Some (Some (b, r2)) =>
          match option_map read_number (after_dot r2) with
          | Some (Some (c, r3)) =>
              match option_map read_number (after_dot r3) with
              | Some (Some (d, EmptyString)) => Some (a * 256 + b, c * 256 + d)%Z
              | _ => None
              end
          | _ => None
          end
      | _ => None
      end
  end.

(** The pieces of an IPv6 address, and where the double colon stood. *)
Fixpoint ipv6_pieces (fuel : nat) (s : string) (pieces : list Z) (compress : option nat)
  : option (list Z * option nat) :=
  match fuel with
  | O => None
  | S fuel' =>
      match s with
      | EmptyString => Some (pieces, compress)
      | String c t =>
          if Nat.eqb (List.length pieces) 8 then None
          else if Ascii.eqb c ":" then
            match compress with
            | Some _ => None
            | None => ipv6_pieces fuel' t (pieces ++ [0%Z])%list (Some (S (List.length pieces)))
            end
          else
            let '(value, len, rest) := read_hex 4 0 O s in
            match rest with
            | EmptyString => Some ((pieces ++ [value])%list, compress)
            | String "." _ =>
                if (Nat.eqb len O || Nat.ltb 6 (List.length pieces))%bool then None
                else match embedded_ipv4 s with
                     | Some (a, b) => Some ((pieces ++ [a; b])%list, compress)
                     | None => None
                     end
            | String ":" rest' =>
                if rest' =? "" then None
                else ipv6_pieces fuel' rest' (pieces ++ [value])%list compress
            | _ => None
            end
      end
  end.

Definition parse_ipv6 (s : string) : option (list Z) :=
  let start :=
    match s with
    | String ":" (String ":" t) => Some (t, [0%Z], Some 1%nat)
    | String ":" _ => None
    | _ => Some (s, [], None)
    end in
  match start with
  | None => None
  | Some (s', pieces, compress) =>
      match ipv6_pieces (S (String.length s')) s' pieces compress with
      | None => None
      | Some (pieces, Some k) =>
          Some (firstn k pieces ++ repeat 0%Z (Nat.sub 8 (List.length pieces)) ++ skipn k pieces)%list
      | Some (pieces, None) =>
          if Nat.eqb (List.length pieces) 8 then Some pieces else None
      end
  end.

(** The first longest run of zero pieces: where it starts and how long
    it is. *)
Fixpoint longest_zeros (idx cur_start cur_len best_start best_len : nat)
         (pieces : list Z) : nat * nat :=
  match pieces with
  | [] => (best_start, best_len)
  | p :: t =>
      if (p =? 0)%Z then
        let cur_start := if Nat.eqb cur_len O then idx else cur_start in
        let cur_len := S cur_len in
        if Nat.ltb best_len cur_len
        then longest_zeros (S idx) cur_start cur_len cur_start cur_len t
        else longest_zeros (S idx) cur_start cur_len best_start best_len t
      else longest_zeros (S idx) O O best_start best_len t
  end.

Definition hex_text (n : Z) : string :=
  let d (k : Z) := hex_char false (n / k mod 16) in
  strip_start (Ascii.eqb "0")
    (String (d 4096%Z) (String (d 256%Z) (String (d 16%Z) EmptyString)))
    ++ String (d 1%Z) EmptyString.

Fixpoint ipv6_out (idx : nat) (ignore0 : bool) (compress : option nat) (pieces : list Z)
  : string :=
  match pieces with
  | [] => EmptyString
  | p :: t =>
      if (ignore0 && (p =? 0)%Z)%bool then ipv6_out (S idx) true compress t
      else if match compress with Some k => Nat.eqb k idx | None => false end
           then (if Nat.eqb idx O then "::" else ":") ++ ipv6_out (S idx) true compress t
           else hex_text p ++ (if Nat.eqb idx 7 then "" else ":")
                  ++ ipv6_out (S idx) false compress t
  end.

Definition ipv6_text (pieces : list Z) : string :=
  let (start, len) := longest_zeros O O O O O pieces in
  ipv6_out O false (if Nat.ltb 1 len then Some start else None) pieces.

Fixpoint without_last (s : string) : option string :=
  match s with
  | EmptyString => None
  | String c EmptyString => if Ascii.eqb c "]" then Some EmptyString else None
  | String c t => option_map (String c) (without_last t)
  end.

(** The host parser.  A domain is percent-decoded and lower-cased; it
    may hold no forbidden character, and it is read as an IPv4 address
    when its last label is a number.  A domain that needs the processing
    of internationalised names is outside the model and refused. *)
Definition parse_host (special : bool) (input : string) : option string :=
  match input with
  | String "[" t =>
      match without_last t with
      | Some inner => option_map (fun a => "[" ++ ipv6_text a ++ "]") (parse_ipv6 inner)
      | None => None
      end
  | _ =>
      if negb special then opaque_host input
      else
        let domain := percent_decode input in
        let ascii := JS.toLowerCase domain in
        if (exists_str (fun c => (127 <? code c)%Z) domain
            || existsb (String.prefix "xn--") (dot_parts ascii))%bool then None
        else
          if ((ascii =? "") || exists_str forbidden_domain_char ascii)%bool then None
          else if ends_in_number ascii then parse_ipv4 ascii
               else Some ascii
  end.

(** Digits only, at most 65535; the default port of the scheme is not
    kept. *)
Definition parse_port (proto text : string) : option (option Z) :=
  if JS.forallb_str is_digit text then
    if text =? "" then Some None
    else
      let n := number_in 10 0 text in
      if (65535 <? n)%Z then None
      else Some (if same_port (Some n) (default_port proto) then None else Some n)
  else None.

(** Splits host and port at the first colon outside brackets. *)
Fixpoint split_host (inside : bool) (s : string) : string * option string :=
  match s with
  | EmptyString => (EmptyString, None)
  | String c t =>
      if (Ascii.eqb c ":" && negb inside)%bool then (EmptyString, Some t)
      else
        let inside := if Ascii.eqb c "[" then true
                      else if Ascii.eqb c "]" then false else inside in
        let (h, p) := split_host inside t in (String c h, p)
  end.

(** *** Paths *)

Definition is_single_dot (segment : string) : bool :=
  let l := JS.toLowerCase segment in ((l =? ".") || (l =? "%2e"))%bool.

Definition is_double_dot (segment : string) : bool :=
  let l := JS.toLowerCase segment in
  ((l =? "..") || (l =? ".%2e") || (l =? "%2e.") || (l =? "%2e%2e"))%bool.

Definition is_drive_letter (normalized : bool) (segment : string) : bool :=
  match segment with
  | String a (String c EmptyString) =>
      (is_alpha a && (Ascii.eqb c ":" || (negb normalized && Ascii.eqb c "|")))%bool
  | _ => false
  end.

Definition shorten (file : bool) (path : list string) : list string :=
  match path with
  | [segment] => if (file && is_drive_letter true segment)%bool then path else []
  | _ => removelast path
  end.

Definition push (file : bool) (path : list string) (segment : string) : list string :=
  match path, segment with
  | [], String a (String _ EmptyString) =>
      if (file && is_drive_letter false segment)%bool
      then [String a ":"] else [segment]
  | _, _ => (path ++ [segment])%list
  end.

(** The path state, one segment after the other; the last segment is
    the one that no slash follows. *)
Fixpoint walk (file : bool) (path : list string) (segments : list string) : list string :=
  match segments with
  | [] => path
  | [last] =>
      if is_double_dot last then (shorten file path ++ [EmptyString])%list
      else if is_single_dot last then (path ++ [EmptyString])%list
      else push file path last
  | segment :: rest =>
      walk file (if is_double_dot segment then shorten file path
                 else if is_single_dot segment then path
                 else push file path segment) rest
  end.

Definition path_text (path : list string) : string :=
  fold_right (fun segment acc => "/" ++ segment ++ acc) "" path.

(** The serialised path of the text of a path, its first slash taken
    off. *)
Definition parse_path (special file : bool) (text : string) : string :=
  path_text (walk file [] (split_on (is_slash special) (encode in_path_set text))).

Definition drop_slash (special : bool) (text : string) : string :=
  match text with
  | String c t => if is_slash special c then t else text
  | EmptyString => EmptyString
  end.

Definition encode_query (special : bool) (q : option string) : option string :=
  option_map (encode (if special then in_special_query_set else in_query_set)) q.

Definition encode_fragment (f : option string) : option string :=
  option_map (encode in_fragment_set) f.

(** What follows the authority: path, query and fragment.  After a
    special scheme the path is never empty. *)
Definition after_authority (proto : string) (tail : string)
  : string * option string * option string :=
  let special := is_special proto in
  let '(text, q, f) := parse_tail tail in
  let path := if (special || negb (text =? ""))%bool
              then parse_path special (proto =? "file:") (drop_slash special text)
              else EmptyString in
  (path, encode_query special q, encode_fragment f).

(** *** The parser *)

Fixpoint skip_slashes (s : string) : string :=
  match s with
  | String c t => if is_slash true c then skip_slashes t else s
  | EmptyString => EmptyString
  end.

(** The authority state and what follows it. *)
Definition parse_authority (proto rest : string) : option URL :=
  let special := is_special proto in
  let (authority, tail) := JS.span_until (is_authority_end special) rest in
  let '(userinfo, hostport) :=
    match rsplit "@" authority with
    | Some (u, h) => (Some u, h)
    | None => (None, authority)
    end in
  let (user, pass) :=
    match userinfo with
    | Some u =>
        let (name, r) := JS.span_until (Ascii.eqb ":") u in
        (encode in_userinfo_set name, encode in_userinfo_set (JS.drop 1 r))
    | None => (EmptyString, EmptyString)
    end in
  let (h, p) := split_host false hostport in
  if (match userinfo with Some _ => hostport =? "" | None => false end
      || match p with Some _ => h =? "" | None => (special && (h =? ""))%bool end)%bool
  then None
  else
    match parse_host special h,
          parse_port proto match p with Some t => t | None => EmptyString end with
    | Some host, Some port =>
        let '(path, q, f) := after_authority proto tail in
        Some (make proto user pass (Some host) port path q f)
    | _, _ => None
    end.

(** A file URL: no credentials, no port, and a host that may be empty. *)
Definition parse_file (rest : string) : option URL :=
  let file_url (host path_and_rest : string) (at_path_start : bool) :=
    let '(text, q, f) := parse_tail path_and_rest in
    make "file:" "" "" (Some host) None
         (parse_path true true (if at_path_start then drop_slash true text else text))
         (encode_query true q) (encode_fragment f) in
  match rest with
  | String a (String b r) =>
      if (is_slash true a && is_slash true b)%bool then
        let (buffer, tail) := JS.span_until (is_authority_end true) r in
        if is_drive_letter false buffer then Some (file_url "" r false)
        else if buffer =? "" then Some (file_url "" tail true)
        else match parse_host true buffer with
             | Some host => Some (file_url (if host =? "localhost" then "" else host) tail true)
             | None => None
             end
      else if is_slash true a then Some (file_url "" (String b r) false)
      else Some (file_url "" rest false)
  | String a r =>
      if is_slash true a then Some (file_url "" r false) else Some (file_url "" rest false)
  | EmptyString => Some (file_url "" rest false)
  end.

(** A URL whose scheme is not special and that has no authority: a
    path without a host after a slash, an opaque path otherwise. *)
Definition parse_hostless (proto rest : string) : URL :=
  let '(text, q, f) := parse_tail rest in
  make proto "" "" None None
       match text with
       | String "/" t => parse_path false false t
       | _ => encode in_c0_set text
       end
       (encode_query false q) (encode_fragment f).

(** What follows the scheme and its colon. *)
Definition parse_with_scheme (proto rest : string) : option URL :=
  if proto =? "file:" then parse_file rest
  else if is_special proto then parse_authority proto (skip_slashes rest)
  else
    match rest with
    | String "/" (String "/" r) => parse_authority proto r
    | _ => Some (parse_hostless proto rest)
    end.

(** The scheme: letters, digits, plus, minus and dot after a letter, up
    to a colon. *)
Definition split_scheme (s : string) : option (string * string) :=
  let (scheme, r) := JS.span_until (fun c => negb (is_scheme_char c)) s in
  match r with
  | String ":" rest =>
      if valid_scheme scheme then Some (JS.toLowerCase scheme ++ ":", rest) else None
  | _ => None
  end.

(** [new URL(s)]; [None] is the TypeError "Invalid URL". *)
Definition basic_parse (s : string) : option URL :=
  match split_scheme (clean s) with
  | Some (proto, rest) => parse_with_scheme proto rest
  | None => None
  end.

(** A URL has an opaque path when it has no host and its path does not
    start with a slash. *)
Definition has_opaque_path (u : URL) : bool :=
  match hostname u with
  | None => negb (JS.startsWith (pathname u) "/")
  | Some _ => false
  end.

(** The inputs in which no name needs the processing of
    internationalised names: percent-decoded, they hold no byte outside
    ASCII and no [xn--]. *)
Definition ascii_names (s : string) : bool :=
  let decoded := JS.toLowerCase (percent_decode s) in
  (JS.forallb_str (fun c => (code c <? 128)%Z) decoded
   && negb (JS.includes decoded "xn--"))%bool.

(** [s] as the base of a relative reference: [new URL(s)] when that
    has no opaque path.  Against a base with an opaque path a reference
    that has a path is refused. *)
Definition parse (s : string) : option URL :=
  match basic_parse s with
  | Some u => if has_opaque_path u then None else Some u
  | None => None
  end.

(** *** Getters, the serialiser and the [protocol] setter *)

(** The [host] getter: the host and, when there is one, the port. *)
Definition host (u : URL) : string :=
  match hostname u with
  | Some h => h ++ match port u with
                   | Some p => ":" ++ JS.Z_to_string p
                   | None => ""
                   end
  | None => ""
  end.

(** The [search] getter: empty for an absent or empty query. *)
Definition search (u : URL) : string :=
  match query u with
  | Some q => if q =? "" then "" else "?" ++ q
  | None => ""
  end.

Definition has_credentials (u : URL) : bool :=
  negb ((username u =? "") && (password u =? ""))%bool.

(** [u.toString()] / [u.href] *)
Definition href (u : URL) : string :=
  protocol u
    ++ match hostname u with
       | Some _ =>
           "//" ++ (if has_credentials u
                    then username u
                           ++ (if password u =? "" then "" else ":" ++ password u) ++ "@"
                    else "")
                ++ host u
       | None => if JS.startsWith (pathname u) "//" then "/." else ""
       end
    ++ pathname u
    ++ match query u with Some q => "?" ++ q | None => "" end
    ++ match fragment u with Some f => "#" ++ f | None => "" end.

(** The [protocol] setter.  The assignment is ignored when the value is
    no scheme, when it would turn a special scheme into one that is not
    or the reverse, and where [file] is involved with credentials, a
    port or an empty host; a port that is the default of the new scheme
    goes. *)
Definition set_protocol (u : URL) (v : string) : URL :=
  match split_scheme (remove is_tab_or_newline (v ++ ":")) with
  | None => u
  | Some (proto, _) =>
      if (negb (Bool.eqb (is_special (protocol u)) (is_special proto))
          || ((has_credentials u || match port u with Some _ => true | None => false end)
              && (proto =? "file:"))
          || ((protocol u =? "file:")
              && match hostname u with Some h => h =? "" | None => false end))%bool
      then u
      else make proto (username u) (password u) (hostname u)
                (if same_port (port u) (default_port proto) then None else port u)
                (pathname u) (query u) (fragment u)
  end.

(** The segments of a serialised path. *)
Definition segments (pathname : string) : list string :=
  match pathname with
  | String "/" t => split_on (Ascii.eqb "/") t
  | _ => []
  end.

Definition starts_with_drive_letter (s : string) : bool :=
  match s with
  | String a (String c t) =>
      (is_drive_letter false (String a (String c EmptyString))
       && match t with
          | EmptyString => true
          | String d _ => is_authority_end true d
          end)%bool
  | _ => false
  end.

(** [new URL(rel, base)] for the references the relays build: the
    [pathname] and [search] of a parsed request URL, one after the
    other.  Such a reference has no scheme, no backslash, no white space
    at its ends and no tab or line break.  The base must be a URL
    without an opaque path.  A reference that starts with two slashes is
    scheme-relative and brings its own authority; any other keeps the
    scheme, the credentials, the host and the port of the base: after one
    slash its path replaces the path of the base, an empty path keeps
    the path of the base (and its query, unless the reference has one),
    and any other path replaces the last segment of the path of the
    base. *)
Definition resolve (rel base : string) : option URL :=
  match parse base with
  | None => None
  | Some b =>
      if JS.startsWith rel "//" then parse_with_scheme (protocol b) rel
      else
        let special := is_special (protocol b) in
        let file := protocol b =? "file:" in
        let '(text, q, f) := parse_tail rel in
        let on_base (path : string) (query : option string) :=
          Some (make (protocol b) (username b) (password b) (hostname b) (port b)
                     path query (encode_fragment f)) in
        let path_from (start : list string) (text : string) :=
          path_text (walk file start
                          (split_on (is_slash special) (encode in_path_set text))) in
        match text with
        | EmptyString =>
            on_base (pathname b)
                    match q with
                    | Some _ => encode_query special q
                    | None => query b
                    end
        | String c t =>
            if Ascii.eqb c "/" then
              on_base (path_from (if (file && negb (starts_with_drive_letter t))%bool
                                  then filter (is_drive_letter true)
                                              (firstn 1 (segments (pathname b)))
                                  else []) t)
                      (encode_query special q)
            else
              on_base (path_from (if (file && starts_with_drive_letter rel)%bool then []
                                  else shorten file (segments (pathname b))) text)
                      (encode_query special q)
        end
  end.

End Url.

(* ================================================================== *)
(** ** The Headers class

    An ordered list of name/value pairs; names are compared without
    regard to ASCII case, as the Fetch standard prescribes. *)
(* ================================================================== *)

Module Headers.

Definition t := list (string * string).

Definition named (name : string) (e : string * string) : bool :=
  JS.toLowerCase (fst e) =? JS.toLowerCase name.

(** [h.get(name)]: the values carried under [name], joined by a comma
    and a space; [None] is [null]. *)
Definition get (h : t) (name : string) : option string :=
  match filter (named name) h with
  | [] => None
  | l => Some (JS.join ", " (map snd l))
  end.

(** [h.delete(name)] *)
Definition delete (h : t) (name : string) : t :=
  filter (fun e => negb (named name e)) h.

(** [h.set(name, value)]: overwrites the first entry called [name] and
    drops the others, or appends a new entry. *)
Fixpoint set (h : t) (name value : string) : t :=
  match h with
  | [] => [(JS.toLowerCase name, value)]
  | e :: rest =>
      if named name e then (fst e, value) :: delete rest name
      else e :: set rest name value
  end.

(** [new Headers(init)] copies its argument. *)
Definition copy (h : t) : t := h.

End Headers.

(* ================================================================== *)
(** ** JSON values and [JSON.stringify] *)
(* ================================================================== *)

Module Json.

Inductive t :=
| JNull
| JBool (b : bool)
| JNum (z : Z)
| JStr (s : string)
| JArr (items : list t)
| JObj (fields : list (string * t)).

Definition hex_digit (n : nat) : ascii :=
  if Nat.ltb n 10 then ascii_of_nat (48 + n) else ascii_of_nat (87 + n).

(** Escape of one character inside a JSON string literal. *)
Definition escape_char (c : ascii) : string :=
  let n := nat_of_ascii c in
  if Ascii.eqb c JS.dquote then String "\" (String JS.dquote "")
  else if Ascii.eqb c "\" then "\\"
  else if Nat.eqb n 8 then "\b"
  else if Nat.eqb n 9 then "\t"
  else if Nat.eqb n 10 then "\n"
  else if Nat.eqb n 12 then "\f"
  else if Nat.eqb n 13 then "\r"
  else if Nat.ltb n 32
       then "\u00" ++ String (hex_digit (Nat.div n 16))
                             (String (hex_digit (Nat.modulo n 16)) "")
  else String c "".

Fixpoint escape (s : string) : string :=
  match s with
  | EmptyString => ""
  | String c t => escape_char c ++ escape t
  end.

Definition quote (s : string) : string :=
String JS.dquote (escape s ++ String JS.dquote "").

(** [JSON.stringify(j)] *)
Fixpoint stringify (j : t) : string :=
  match j with
  | JNull => "null"
  | JBool true => "true"
  | JBool false => "false"
  | JNum z => JS.Z_to_string z
  | JStr s => quote s
  | JArr items =>
      "[" ++ (fix elems (l : list t) : string :=
                match l with
                | [] => ""
                | x :: r => stringify x
                            ++ match r with [] => "" | _ => "," ++ elems r end
                end) items ++ "]"
  | JObj fields =>
      "{" ++ (fix members (l : list (string * t)) : string :=
                match l with
                | [] => ""
                | (k, v) :: r => quote k ++ ":" ++ stringify v
                                 ++ match r with [] => "" | _ => "," ++ members r end
                end) fields ++ "}"
  end.

(** Property read [o[k]] on an object's field list. *)
Fixpoint lookup (k : string) (fields : list (string * t)) : option t :=
  match fields with
  | [] => None
  | (k', v) :: r => if k' =? k then Some v else lookup k r
  end.

(** Property write [o[k] = v] on an existing key. *)
Fixpoint update (k : string) (v : t) (fields : list (string * t)) : list (string * t) :=
  match fields with
  | [] => [(k, v)]
  | (k', v') :: r => if k' =? k then (k', v) :: r else (k', v') :: update k v r
  end.

End Json.
Import Json(JNull, JBool, JNum, JStr, JArr, JObj).

(* ================================================================== *)
(** ** The worker runtime: exceptions, requests, sockets, [fetch] *)
(* ================================================================== *)

Module Runtime.

(** A thrown [Error]: its class name and its [message]. *)
Record Exn := mkExn { exn_name : string; exn_message : string }.

(** Outcome of evaluating an expression or awaiting a promise: a value,
    an exception (a rejection), or a promise that never settles. *)
Inductive Res (A : Type) : Type :=
| Ok (a : A)
| Threw (e : Exn)
| Pending.
Arguments Ok {A} a.
Arguments Threw {A} e.
Arguments Pending {A}.

Definition res_bind {A B} (r : Res A) (k : A -> Res B) : Res B :=
  match r with
  | Ok a => k a
  | Threw e => Threw e
  | Pending => Pending
  end.

(** The three sockets of a relay session: the two ends of the
    [WebSocketPair] and the socket of the backend connection. *)
Inductive Sock := ClientWs | ServerWs | BackendWs.

Definition sock_eqb (a b : Sock) : bool :=
  match a, b with
  | ClientWs, ClientWs | ServerWs, ServerWs | BackendWs, BackendWs => true
  | _, _ => false
  end.

Module Request.
Record t := mk {
  method : string;
  url : Url.URL;              (* the parsed [request.url] *)
  headers : Headers.t;
  body : option string        (* [None] is a null body *)
}.
End Request.

Module Response.
Record t := mk {
  status : Z;
  statusText : string;
  headers : Headers.t;
  body : option string;
  webSocket : option Sock     (* the Workers extension *)
}.

(** [response.ok] *)
Definition ok (r : t) : bool := ((200 <=? status r)%Z && (status r <=? 299)%Z)%bool.

(** [await response.text()] *)
Definition text (r : t) : string :=
  match body r with Some s => s | None => "" end.
End Response.

Inductive Redirect := Follow | Manual.

(** The arguments of one [fetch] call.  [f_signal] is the delay, in
    milliseconds, of [AbortSignal.timeout], when one is passed. *)
Record FetchInit := mkFetch {
  f_url : string;
  f_method : string;
  f_headers : Headers.t;
  f_body : option string;
  f_redirect : Redirect;
  f_signal : option Z
}.

(** What the network does with a request: the connection fails, a
    response arrives after [delay] milliseconds, or nothing ever comes
    back. *)
Inductive Behaviour :=
| Refuses (reason : string)
| Replies (delay : Z) (r : Response.t)
| Silent.

(** The network, as seen by the worker: it may answer the n-th fetch of
    a run in its own way. *)
Definition Network := nat -> FetchInit -> Behaviour.

Inductive ReadyState := CONNECTING | OPEN | CLOSING | CLOSED.

Inductive Data := Text (s : string) | Binary (bytes : list Byte.byte).

Inductive Event :=
| MessageEvent (data : Data)
| CloseEvent (code : Z) (reason : string)
| ErrorEvent.

Inductive EventType := OnMessage | OnClose | OnError.

Definition event_type (e : Event) : EventType :=
  match e with
  | MessageEvent _ => OnMessage
  | CloseEvent _ _ => OnClose
  | ErrorEvent => OnError
  end.

Definition event_type_eqb (a b : EventType) : bool :=
  match a, b with
  | OnMessage, OnMessage | OnClose, OnClose | OnError, OnError => true
  | _, _ => false
  end.

(** A message-rewrite callback [(data, host) => string]. *)
Definition Transform := string -> string -> Res string.

(** The six closures that [proxySelfHostedWebSocket] registers, with
    what each captures ([serverWs] is always the inner end of the
    pair). *)
Inductive Listener :=
| ClientMessage (backendWs : Sock)
| BackendMessage (transformMessage : option Transform) (host : string)
| ClientClose (backendWs : Sock)
| BackendClose
| ClientError (backendWs : Sock)
| BackendError.

(** Method calls received by a socket. *)
Inductive Call :=
| Accept
| Send (data : Data)
| Close (code : Z) (reason : string).

Record Socket := mkSocket {
  readyState : ReadyState;
  listeners : list (EventType * Listener);
  calls : list Call
}.

Definition fresh_socket : Socket :=
  {| readyState := CONNECTING; listeners := []; calls := [] |}.

Inductive Level := LogLevel | ErrorLevel.

(** The observable state of one run. *)
Record St := mkSt {
  console : list (Level * list string);
  fetched : list FetchInit;
  clientWs : Socket;
  serverWs : Socket;
  backendWs : Socket
}.

Definition socket (st : St) (s : Sock) : Socket :=
  match s with
  | ClientWs => clientWs st
  | ServerWs => serverWs st
  | BackendWs => backendWs st
  end.

Definition with_socket (st : St) (s : Sock) (v : Socket) : St :=
  match s with
  | ClientWs => {| console := console st; fetched := fetched st;
                   clientWs := v; serverWs := serverWs st; backendWs := backendWs st |}
  | ServerWs => {| console := console st; fetched := fetched st;
                   clientWs := clientWs st; serverWs := v; backendWs := backendWs st |}
  | BackendWs => {| console := console st; fetched := fetched st;
                    clientWs := clientWs st; serverWs := serverWs st; backendWs := v |}
  end.

(** Computations of the worker: they read the network, update the
    state, and end like an awaited promise. *)
Definition M (A : Type) : Type := Network -> St -> Res A * St.

Definition ret {A} (a : A) : M A := fun _ st => (Ok a, st).

Definition bind {A B} (m : M A) (k : A -> M B) : M B :=
  fun net st =>
    match m net st with
    | (Ok a, st') => k a net st'
    | (Threw e, st') => (Threw e, st')
    | (Pending, st') => (Pending, st')
    end.

Definition throw {A} (e : Exn) : M A := fun _ st => (Threw e, st).

Definition lift {A} (r : Res A) : M A := fun _ st => (r, st).

(** [try { m } catch (err) { h err }] *)
Definition try_catch {A} (m : M A) (h : Exn -> M A) : M A :=
  fun net st =>
    match m net st with
    | (Threw e, st') => h e net st'
    | other => other
    end.

(** The state after one more console line, and after one more fetch. *)
Definition logged (st : St) (lvl : Level) (args : list string) : St :=
  {| console := (console st ++ [(lvl, args)])%list; fetched := fetched st;
     clientWs := clientWs st; serverWs := serverWs st; backendWs := backendWs st |}.

Definition requested (st : St) (init : FetchInit) : St :=
  {| console := console st; fetched := (fetched st ++ [init])%list;
     clientWs := clientWs st; serverWs := serverWs st; backendWs := backendWs st |}.

Definition write_console (lvl : Level) (args : list string) : M unit :=
  fun _ st => (Ok tt, logged st lvl args).

Definition console_log := write_console LogLevel.
Definition console_error := write_console ErrorLevel.

Definition TimeoutError : Exn := mkExn "TimeoutError" "The operation was aborted due to timeout".

(** [await fetch(url, init)].  The call is recorded; a refused
    connection rejects with a TypeError; with an abort signal of [t]
    milliseconds the promise rejects with a TimeoutError unless the
    response arrives before [t]; without a signal it waits for as long
    as the network takes. *)
Definition fetch (init : FetchInit) : M Response.t :=
  fun net st =>
    let st' := requested st init in
    match net (List.length (fetched st)) init, f_signal init with
    | Refuses reason, _ => (Threw (mkExn "TypeError" reason), st')
    | Replies delay r, Some t =>
        if (delay <? t)%Z then (Ok r, st') else (Threw TimeoutError, st')
    | Replies _ r, None => (Ok r, st')
    | Silent, Some _ => (Threw TimeoutError, st')
    | Silent, None => (Pending, st')
    end.

(** [new WebSocketPair()]: two fresh, linked sockets. *)
Definition new_WebSocketPair : M unit :=
  fun _ st =>
    (Ok tt, {| console := console st; fetched := fetched st;
               clientWs := fresh_socket; serverWs := fresh_socket;
               backendWs := backendWs st |}).

Definition on_socket (s : Sock) (f : Socket -> Socket) : M unit :=
  fun _ st => (Ok tt, with_socket st s (f (socket st s))).

(** [ws.accept()] *)
Definition accept (s : Sock) : M unit :=
  on_socket s (fun w => {| readyState := OPEN; listeners := listeners w;
                           calls := (calls w ++ [Accept])%list |}).

(** [ws.addEventListener(type, listener)] *)
Definition addEventListener (s : Sock) (ty : EventType) (l : Listener) : M unit :=
  on_socket s (fun w => {| readyState := readyState w;
                           listeners := (listeners w ++ [(ty, l)])%list;
                           calls := calls w |}).

(** [ws.send(data)] *)
Definition send (s : Sock) (d : Data) : M unit :=
  on_socket s (fun w => {| readyState := readyState w; listeners := listeners w;
                           calls := (calls w ++ [Send d])%list |}).

(** The close codes that [close] takes from a caller in the Workers
    runtime: 1000 to 4999 without the reserved codes 1004, 1005, 1006
    and 1015, which only the protocol itself may report.  (The rule of
    the WebSocket standard is narrower: 1000, and 3000 to 4999.) *)
Definition close_code_accepted (code : Z) : bool :=
  ((1000 <=? code)%Z && (code <? 5000)%Z
   && negb (code =? 1004)%Z && negb (code =? 1005)%Z
   && negb (code =? 1006)%Z && negb (code =? 1015)%Z)%bool.

Definition InvalidCloseCode (code : Z) : Exn :=
  mkExn "TypeError" ("Invalid WebSocket close code: " ++ JS.Z_to_string code ++ ".").

(** [ws.close(code, reason)] on an accepted socket: a code that a caller
    may not send is refused with a TypeError and the socket stays as it
    was; otherwise the call is recorded and the closing handshake
    starts.  (A reason of more than 123 bytes is refused as well; the
    reason of a close event is never that long.) *)
Definition close (s : Sock) (code : Z) (reason : string) : M unit :=
  if close_code_accepted code then
    on_socket s (fun w => {| readyState := CLOSING; listeners := listeners w;
                             calls := (calls w ++ [Close code reason])%list |})
  else throw (InvalidCloseCode code).

(** [ws.readyState === WebSocket.OPEN] *)
Definition is_open (s : Sock) : M bool :=
  fun _ st => (Ok match readyState (socket st s) with OPEN => true | _ => false end, st).

(** [c.json(value, status)] and [c.html(text, status)] of the router. *)
Definition c_json (value : Json.t) (status : Z) : Response.t :=
  Response.mk status "" [("content-type", "application/json")]
              (Some (Json.stringify value)) None.

Definition c_html (html : string) (status : Z) : Response.t :=
  Response.mk status "" [("content-type", "text/html; charset=UTF-8")]
              (Some html) None.

End Runtime.
Import Runtime.

Declare Scope js_scope.
Delimit Scope js_scope with js.
Notation "x <- m ;; k" := (bind m (fun x => k))
  (at level 61, m at next level, right associativity) : js_scope.
Notation "m ;; k" := (bind m (fun _ => k))
  (at level 61, right associativity) : js_scope.
Local Open Scope js_scope.

(* ================================================================== *)
(** ** [src/types.ts] and [src/gateway/selfhosted.ts] *)
(* ================================================================== *)

(** The bindings of [MoltbotEnv] that the self-hosted worker reads. *)
Record MoltbotEnv := mkEnv {
  MOLTBOT_GATEWAY_TOKEN : JS.ostring;
  DEV_MODE : JS.ostring;
  DEBUG_ROUTES : JS.ostring;
  CF_ACCESS_TEAM_DOMAIN : JS.ostring;
  CF_ACCESS_AUD : JS.ostring;
  DEPLOYMENT_MODE : JS.ostring;
  SELFHOSTED_URL : JS.ostring;
  SELFHOSTED_AUTH_TOKEN : JS.ostring;
  SELFHOSTED_WS_URL : JS.ostring
}.

Record SelfHostedConfig := mkConfig {
  baseUrl : string;
  wsUrl : string;
  authToken : JS.ostring
}.

(** [o === s] for an optional string. *)
Definition strict_eq (o : JS.ostring) (s : string) : bool :=
  match o with
  | Some x => x =? s
  | None => false
  end.

(** The string behind an optional value that was tested truthy. *)
Definition value (o : JS.ostring) : string :=
  match o with
  | Some s => s
  | None => ""
  end.

Definition InvalidURL : Exn := mkExn "TypeError" "Invalid URL".

(** [new URL(s)]: the parsed URL, or the TypeError of an input that is
    no valid URL. *)
Definition new_URL (s : string) : Res Url.URL :=
  match Url.basic_parse s with
  | Some u => Ok u
  | None => Threw InvalidURL
  end.

(** [new URL(rel, base)] *)
Definition new_URL_base (rel base : string) : Res Url.URL :=
  match Url.resolve rel base with
  | Some u => Ok u
  | None => Threw InvalidURL
  end.

(** Headers built from an object literal. *)
Definition headers_of_object (o : list (string * string)) : Headers.t :=
  map (fun e => (JS.toLowerCase (fst e), snd e)) o.

Definition buildSelfHostedConfig (env : MoltbotEnv) : Res (option SelfHostedConfig) :=
  if (negb (strict_eq (DEPLOYMENT_MODE env) "selfhosted")
      || negb (JS.truthy (SELFHOSTED_URL env)))%bool
  then Ok None
  else
    let baseUrl := JS.strip_trailing_slash (value (SELFHOSTED_URL env)) in
    res_bind
      (if negb (JS.truthy (SELFHOSTED_WS_URL env)) then
         res_bind (new_URL baseUrl) (fun url =>
           let url := Url.set_protocol url
                        (if Url.protocol url =? "https:" then "wss:" else "ws:") in
           Ok (JS.strip_trailing_slash (Url.href url)))
       else Ok (value (SELFHOSTED_WS_URL env)))
      (fun wsUrl =>
         Ok (Some {| baseUrl := baseUrl;
                     wsUrl := wsUrl;
                     authToken := SELFHOSTED_AUTH_TOKEN env |})).

Definition buildAuthHeaders (config : SelfHostedConfig) : Headers.t :=
  let headers : Headers.t := [] in
  if JS.truthy (authToken config)
  then Headers.set headers "X-Internal-Auth" (value (authToken config))
  else headers.

(** The probe request of [checkSelfHostedHealth]. *)
Definition healthFetch (config : SelfHostedConfig) : FetchInit :=
  {| f_url := baseUrl config ++ "/health";
     f_method := "GET";
     f_headers := buildAuthHeaders config;
     f_body := None;
     f_redirect := Follow;
     f_signal := Some 5000 |}.

Definition checkSelfHostedHealth (config : SelfHostedConfig) : M bool :=
  try_catch
    (response <- fetch (healthFetch config) ;;
     ret (Response.ok response))
    (fun err =>
       console_error ["[SelfHosted] Health check failed:"; exn_message err] ;;
       ret false).

(** The headers that [proxySelfHostedRequest] sends upstream. *)
Definition proxyHeaders (config : SelfHostedConfig) (request : Request.t) : Headers.t :=
  let headers := Headers.copy (Request.headers request) in
  let headers :=
    if JS.truthy (authToken config)
    then Headers.set headers "X-Internal-Auth" (value (authToken config))
    else headers in
  let headers := Headers.delete headers "host" in
  let cookies := Headers.get (Request.headers request) "Cookie" in
  if JS.truthy cookies then Headers.set headers "Cookie" (value cookies) else headers.

(** The upstream call of [proxySelfHostedRequest]. *)
Definition proxyFetch (config : SelfHostedConfig) (request : Request.t)
           (targetUrl : Url.URL) : FetchInit :=
  {| f_url := Url.href targetUrl;
     f_method := Request.method request;
     f_headers := proxyHeaders config request;
     f_body := Request.body request;
     f_redirect := Manual;
     f_signal := None |}.

Definition connectionFailed (what : string) (err : Exn) : Response.t :=
  Response.mk 502 ""
    (headers_of_object [("Content-Type", "application/json")])
    (Some (Json.stringify (JObj [("error", JStr what);
                                 ("details", JStr (exn_message err))])))
    None.

Definition proxySelfHostedRequest (config : SelfHostedConfig) (request : Request.t)
  : M Response.t :=
  let url := Request.url request in
  targetUrl <- lift (new_URL_base (Url.pathname url ++ Url.search url) (baseUrl config)) ;;
  console_log ["[SelfHosted] Proxying HTTP:"; Request.method request;
               Url.pathname targetUrl] ;;
  try_catch
    (response <- fetch (proxyFetch config request targetUrl) ;;
     console_log ["[SelfHosted] Response status:"; JS.Z_to_string (Response.status response)] ;;
     let newHeaders := Headers.copy (Response.headers response) in
     let newHeaders := Headers.set newHeaders "X-Worker-Debug" "proxy-to-selfhosted" in
     let newHeaders := Headers.set newHeaders "X-Debug-Path" (Url.pathname url) in
     ret (Response.mk (Response.status response) (Response.statusText response)
                      newHeaders (Response.body response) None))
    (fun err =>
       console_error ["[SelfHosted] Proxy error:"; exn_message err] ;;
       ret (connectionFailed "Failed to connect to self-hosted server" err)).

Definition typeof (d : Data) : string :=
  match d with
  | Text _ => "string"
  | Binary _ => "object"
  end.

(** The bodies of the six listeners of a relay session. *)
Definition fire (l : Listener) (event : Event) : M unit :=
  match l, event with
  | ClientMessage backendWs, MessageEvent data =>
      console_log ["[SelfHosted WS] Client -> Backend:"; typeof data] ;;
      open <- is_open backendWs ;;
      if open then send backendWs data else ret tt
  | BackendMessage transformMessage host, MessageEvent data0 =>
      console_log ["[SelfHosted WS] Backend -> Client:"; typeof data0] ;;
      data <- match data0, transformMessage with
              | Text s, Some f => s' <- lift (f s host) ;; ret (Text s')
              | _, _ => ret data0
              end ;;
      open <- is_open ServerWs ;;
      if open then send ServerWs data else ret tt
  | ClientClose backendWs, CloseEvent code reason =>
      console_log ["[SelfHosted WS] Client closed:"; JS.Z_to_string code; reason] ;;
      close backendWs code reason
  | BackendClose, CloseEvent code reason =>
      console_log ["[SelfHosted WS] Backend closed:"; JS.Z_to_string code; reason] ;;
      close ServerWs code reason
  | ClientError backendWs, ErrorEvent =>
      console_error ["[SelfHosted WS] Client error:"] ;;
      close backendWs 1011 "Client error"
  | BackendError, ErrorEvent =>
      console_error ["[SelfHosted WS] Backend error:"] ;;
      close ServerWs 1011 "Backend error"
  | _, _ => ret tt
  end.

(** Event delivery by the runtime: the listeners registered for the type
    of the event run in registration order; an exception that escapes a
    listener is reported on the console and goes no further. *)
Fixpoint run_listeners (ls : list (EventType * Listener)) (event : Event) : M unit :=
  match ls with
  | [] => ret tt
  | (ty, l) :: rest =>
      (if event_type_eqb ty (event_type event)
       then try_catch (fire l event)
                      (fun err => console_error ["Uncaught"; exn_message err])
       else ret tt) ;;
      run_listeners rest event
  end.

Definition dispatch (s : Sock) (event : Event) : M unit :=
  fun net st => run_listeners (listeners (socket st s)) event net st.

(** The headers of the upgrade request of [proxySelfHostedWebSocket]. *)
Definition upgradeHeaders (config : SelfHostedConfig) (request : Request.t) : Headers.t :=
  let upgradeHeaders := Headers.copy (Request.headers request) in
  if JS.truthy (authToken config)
  then Headers.set upgradeHeaders "X-Internal-Auth" (value (authToken config))
  else upgradeHeaders.

Definition upgradeFetch (config : SelfHostedConfig) (request : Request.t)
           (targetUrl : Url.URL) : FetchInit :=
  {| f_url := Url.href targetUrl;
     f_method := "GET";
     f_headers := upgradeHeaders config request;
     f_body := None;
     f_redirect := Follow;
     f_signal := None |}.

Definition plainText (status : Z) (text : string) : Response.t :=
  Response.mk status "" [("content-type", "text/plain;charset=UTF-8")] (Some text) None.

(** The six [addEventListener] calls of [proxySelfHostedWebSocket]. *)
Definition registerListeners (backendWs : Sock) (transformMessage : option Transform)
           (host : string) : M unit :=
  addEventListener ServerWs OnMessage (ClientMessage backendWs) ;;
  addEventListener backendWs OnMessage (BackendMessage transformMessage host) ;;
  addEventListener ServerWs OnClose (ClientClose backendWs) ;;
  addEventListener backendWs OnClose BackendClose ;;
  addEventListener ServerWs OnError (ClientError backendWs) ;;
  addEventListener backendWs OnError BackendError.

(** [proxySelfHostedWebSocket] from "Accept both WebSockets" to its
    [return]. *)
Definition establishRelay (backendWs : Sock) (transformMessage : option Transform)
           (host : string) : M Response.t :=
  accept ServerWs ;;
  accept backendWs ;;
  console_log ["[SelfHosted] WebSocket connections established"] ;;
  registerListeners backendWs transformMessage host ;;
  ret (Response.mk 101 "" [] None (Some ClientWs)).

(** [proxySelfHostedWebSocket] after the [await fetch]: the two checks on
    the answer of the backend, then the relay. *)
Definition answerUpgrade (backendResponse : Response.t)
           (transformMessage : option Transform) (host : string) : M Response.t :=
  if negb (Response.status backendResponse =? 101)%Z then
    console_error ["[SelfHosted] WebSocket upgrade failed:";
                   JS.Z_to_string (Response.status backendResponse)] ;;
    ret (plainText 502 "WebSocket upgrade failed")
  else
    match Response.webSocket backendResponse with
    | None =>
        console_error ["[SelfHosted] No WebSocket in backend response"] ;;
        ret (plainText 502 "WebSocket not available")
    | Some backendWs => establishRelay backendWs transformMessage host
    end.

Definition proxySelfHostedWebSocket (config : SelfHostedConfig) (request : Request.t)
           (transformMessage : option Transform) : M Response.t :=
  let url := Request.url request in
  targetUrl <- lift (new_URL_base (Url.pathname url ++ Url.search url) (wsUrl config)) ;;
  console_log ["[SelfHosted] Proxying WebSocket:"; Url.pathname targetUrl] ;;
  try_catch
    (new_WebSocketPair ;;
     backendResponse <- fetch (upgradeFetch config request targetUrl) ;;
     answerUpgrade backendResponse transformMessage (Url.host url))
    (fun err =>
       console_error ["[SelfHosted] WebSocket proxy error:"; exn_message err] ;;
       ret (connectionFailed "Failed to establish WebSocket connection" err)).

Section Exec.

(** [JSON.parse]; [None] is the SyntaxError it throws. *)
Variable JSON_parse : string -> option Json.t.

Definition SyntaxError : Exn := mkExn "SyntaxError" "Unexpected token in JSON".

(** [await response.json()] *)
Definition response_json (response : Response.t) : M Json.t :=
  match JSON_parse (Response.text response) with
  | Some j => ret j
  | None => throw SyntaxError
  end.

(** The request of [executeSelfHostedCommand]. *)
Definition execFetch (config : SelfHostedConfig) (command : string) (timeoutMs : Z)
  : FetchInit :=
  {| f_url := baseUrl config ++ "/api/internal/exec";
     f_method := "POST";
     f_headers :=
       headers_of_object
         (("Content-Type", "application/json")
            :: (if JS.truthy (authToken config)
                then [("X-Internal-Auth", value (authToken config))]
                else []));
     f_body := Some (Json.stringify (JObj [("command", JStr command);
                                           ("timeout", JNum timeoutMs)]));
     f_redirect := Follow;
     f_signal := Some (timeoutMs + 5000)%Z |}.

Definition commandFailed (response : Response.t) : Exn :=
  mkExn "Error" ("Command execution failed: "
                   ++ JS.Z_to_string (Response.status response) ++ " "
                   ++ Response.text response).

(** [timeout] is [None] when the caller leaves the third argument out. *)
Definition executeSelfHostedCommand (config : SelfHostedConfig) (command : string)
           (timeout : option Z) : M Json.t :=
  let timeoutMs := match timeout with Some t => t | None => 20000%Z end in
  console_log ["[SelfHosted] Executing command:"; command] ;;
  try_catch
    (response <- fetch (execFetch config command timeoutMs) ;;
     if negb (Response.ok response) then
       throw (commandFailed response)
     else
       response_json response)
    (fun err =>
       console_error ["[SelfHosted] Command execution error:"; exn_message err] ;;
       throw err).

End Exec.

(* ================================================================== *)
(** ** The worker entry point and the public routes *)
(* ================================================================== *)

(** The hint that replaces a gateway error, if one applies; [has] tells
    whether the message includes a given phrase. *)
Definition errorHint (has : string -> bool) (host : string) : option string :=
  if (has "gateway token missing" || has "gateway token mismatch")%bool then
    Some ("Invalid or missing token. Visit https://" ++ host
            ++ "?token={REPLACE_WITH_YOUR_TOKEN}")
  else if has "pairing required" then
    Some ("Pairing required. Visit https://" ++ host ++ "/_admin/")
  else None.

Definition transformErrorMessage (message host : string) : string :=
  match errorHint (JS.includes message) host with
  | Some hint => hint
  | None => message
  end.

Definition validateRequiredEnv (env : MoltbotEnv) : list string :=
  let missing : list string := [] in
  let missing := if negb (JS.truthy (SELFHOSTED_URL env))
                 then (missing ++ ["SELFHOSTED_URL"])%list else missing in
  let missing := if negb (JS.truthy (MOLTBOT_GATEWAY_TOKEN env))
                 then (missing ++ ["MOLTBOT_GATEWAY_TOKEN"])%list else missing in
  let missing := if negb (JS.truthy (CF_ACCESS_TEAM_DOMAIN env))
                 then (missing ++ ["CF_ACCESS_TEAM_DOMAIN"])%list else missing in
  let missing := if negb (JS.truthy (CF_ACCESS_AUD env))
                 then (missing ++ ["CF_ACCESS_AUD"])%list else missing in
  missing.

(** [request.headers.get('Accept')?.includes('text/html')] *)
Definition acceptsHtml (request : Request.t) : bool :=
  match Headers.get (Request.headers request) "Accept" with
  | Some a => JS.includes a "text/html"
  | None => false
  end.

(** [request.headers.get('Upgrade')?.toLowerCase() === 'websocket'] *)
Definition isWebSocketRequest (request : Request.t) : bool :=
  match Headers.get (Request.headers request) "Upgrade" with
  | Some u => JS.toLowerCase u =? "websocket"
  | None => false
  end.

Definition notConfiguredStatus : Response.t :=
  c_json (JObj [("ok", JBool false); ("status", JStr "not_configured")]) 200.

(** [GET /api/status] of the public routes. *)
Definition api_status (env : MoltbotEnv) : M Response.t :=
  config <- lift (buildSelfHostedConfig env) ;;
  match config with
  | None => ret notConfiguredStatus
  | Some config =>
      try_catch
        (isHealthy <- checkSelfHostedHealth config ;;
         if isHealthy then
           ret (c_json (JObj [("ok", JBool true); ("status", JStr "running");
                              ("mode", JStr "selfhosted");
                              ("url", JStr (baseUrl config))]) 200)
         else
           ret (c_json (JObj [("ok", JBool false); ("status", JStr "not_responding");
                              ("mode", JStr "selfhosted");
                              ("url", JStr (baseUrl config))]) 200))
        (fun err =>
           ret (c_json (JObj [("ok", JBool false); ("status", JStr "error");
                              ("error", JStr (exn_message err))]) 200))
  end.

Definition missingConfiguration : Response.t :=
  c_json (JObj [("error", JStr "Self-hosted configuration missing");
                ("hint", JStr "Set SELFHOSTED_URL via wrangler secret put")]) 503.

Definition notResponding : Response.t :=
  c_json (JObj [("error", JStr "Self-hosted Moltbot gateway is not responding");
                ("hint", JStr "Check that your server is running")]) 503.

Definition configurationNotFound : Response.t :=
  c_json (JObj [("status", JStr "error");
                ("service", JStr "moltbot-selfhosted");
                ("error", JStr "Self-hosted configuration not found")]) 503.

Section Worker.

Variable JSON_parse : string -> option Json.t.

(** The imported assets and the gateway port of [src/config]. *)
Variable loadingPageHtml : string.
Variable configErrorHtml : string.
Variable MOLTBOT_PORT : Z.

(** [GET /sandbox-health] of the public routes. *)
Definition sandbox_health (env : MoltbotEnv) : M Response.t :=
  config <- lift (buildSelfHostedConfig env) ;;
  match config with
  | Some config =>
      isHealthy <- checkSelfHostedHealth config ;;
      ret (c_json (JObj [("status", JStr (if isHealthy : bool then "ok" else "unhealthy"));
                         ("service", JStr "moltbot-selfhosted");
                         ("gateway_port", JNum MOLTBOT_PORT);
                         ("selfhosted_url", JStr (baseUrl config))]) 200)
  | None => ret configurationNotFound
  end.

(** The middleware that validates the environment; [None] stands for
    the call of [next()]. *)
Definition envMiddleware (env : MoltbotEnv) (request : Request.t)
  : M (option Response.t) :=
  let url := Request.url request in
  if JS.startsWith (Url.pathname url) "/debug" then ret None
  else if strict_eq (DEV_MODE env) "true" then ret None
  else
    let missingVars := validateRequiredEnv env in
    if Nat.ltb 0 (List.length missingVars) then
      console_error ["[CONFIG] Missing:"; JS.join ", " missingVars] ;;
      if acceptsHtml request then
        let html := JS.replace_first configErrorHtml "{{MISSING_VARS}}"
                                     (JS.join ", " missingVars) in
        ret (Some (c_html html 503))
      else
        ret (Some (c_json (JObj [("error", JStr "Configuration error");
                                 ("missing", JArr (map JStr missingVars))]) 503))
    else ret None.

Definition js_truthy (j : Json.t) : bool :=
  match j with
  | JNull => false
  | JBool b => b
  | JNum z => negb (z =? 0)%Z
  | JStr s => negb (s =? "")
  | JArr _ | JObj _ => true
  end.

Definition is_string (s : string) (j : Json.t) : bool :=
  match j with
  | JStr x => x =? s
  | _ => false
  end.

Definition NotAFunction : Exn := mkExn "TypeError" "message.includes is not a function".

(** [transformErrorMessage] on a value that [JSON.parse] produced: a
    string and an array both have [includes]; no other value has. *)
Definition transformErrorValue (message : Json.t) (host : string) : Res Json.t :=
  match message with
  | JStr s => Ok (JStr (transformErrorMessage s host))
  | JArr items =>
      Ok match errorHint (fun phrase => existsb (is_string phrase) items) host with
         | Some hint => JStr hint
         | None => message
         end
  | _ => Threw NotAFunction
  end.

(** The rewrite callback that the catch-all route hands to the relay.
    Every exception inside its [try] block ends in [return message]. *)
Definition rewriteGatewayError : Transform :=
  fun message host =>
    match JSON_parse message with
    | None => Ok message
    | Some JNull => Ok message
    | Some (JObj fields) =>
        match Json.lookup "error" fields with
        | Some (JObj efields) =>
            match Json.lookup "message" efields with
            | Some m =>
                if js_truthy m then
                  match transformErrorValue m host with
                  | Ok m' =>
                      Ok (Json.stringify
                            (JObj (Json.update "error"
                                     (JObj (Json.update "message" m' efields)) fields)))
                  | _ => Ok message
                  end
                else Ok message
            | None => Ok message
            end
        | _ => Ok message
        end
    | Some _ => Ok message
    end.

(** [app.all('*', ...)] *)
Definition catch_all (env : MoltbotEnv) (request : Request.t) : M Response.t :=
  config <- lift (buildSelfHostedConfig env) ;;
  match config with
  | None => ret missingConfiguration
  | Some config =>
      isGatewayReady <- checkSelfHostedHealth config ;;
      let isWebSocketRequest := isWebSocketRequest request in
      let acceptsHtml := acceptsHtml request in
      if (negb isGatewayReady && negb isWebSocketRequest && acceptsHtml)%bool then
        ret (c_html loadingPageHtml 200)
      else if negb isGatewayReady then
        ret notResponding
      else if isWebSocketRequest then
        proxySelfHostedWebSocket config request (Some rewriteGatewayError)
      else
        proxySelfHostedRequest config request
  end.

(** The Cloudflare Access middleware of [src/auth], an external gate:
    it answers by itself ([Some]) or lets the request through ([None]). *)
Variable accessMiddleware : MoltbotEnv -> Request.t -> M (option Response.t).


End Worker.

(** An empty run state, and a request with no body. *)
Definition idle : St :=
  {| console := []; fetched := []; clientWs := fresh_socket;
     serverWs := fresh_socket; backendWs := fresh_socket |}.

Definition get_request (url : string) (headers : Headers.t) : Request.t :=
  Request.mk "GET"
    match Url.parse url with
    | Some u => u
    | None => Url.mkURL "" "" "" None None
    end
    headers None.


Definition selfhostedEnv (url : string) : MoltbotEnv :=
  mkEnv (Some "gw-token") None None (Some "team.example") (Some "aud")
        (Some "selfhosted") (Some url) None None.

(* ================================================================== *)
(** ** Vocabulary of the properties and sample inputs *)
(* ================================================================== *)

(** The resolver is configured when the mode is the self-hosted one and
    the backend URL is present and not empty. *)
Definition configured (env : MoltbotEnv) : bool :=
  (strict_eq (DEPLOYMENT_MODE env) "selfhosted" && JS.truthy (SELFHOSTED_URL env))%bool.

Definition healthFailed (st : St) (reason : string) : St :=
  logged st ErrorLevel ["[SelfHosted] Health check failed:"; reason].


Definition statusOnly (status : Z) : Response.t := Response.mk status "" [] None None.

(** The environment-validation middleware, when it is in force. *)
Definition configurationError (configErrorHtml : string) (env : MoltbotEnv)
           (request : Request.t) : Response.t :=
  if acceptsHtml request then
    c_html (JS.replace_first configErrorHtml "{{MISSING_VARS}}"
                             (JS.join ", " (validateRequiredEnv env))) 503
  else
    c_json (JObj [("error", JStr "Configuration error");
                  ("missing", JArr (map JStr (validateRequiredEnv env)))]) 503.

(** Console lines written on entry to one of the two relays. *)
Definition relayLine (line : Level * list string) : bool :=
  match snd line with
  | tag :: _ => JS.startsWith tag "[SelfHosted] Proxying"
  | [] => false
  end.

(** A relay session is established when the two sockets carry the
    listeners that [proxySelfHostedWebSocket] registers. *)
Definition established (tr : option Transform) (host : string) (st : St) : Prop :=
  listeners (serverWs st)
  = [(OnMessage, ClientMessage BackendWs); (OnClose, ClientClose BackendWs);
     (OnError, ClientError BackendWs)]
  /\ listeners (backendWs st)
     = [(OnMessage, BackendMessage tr host); (OnClose, BackendClose);
        (OnError, BackendError)].

Definition relayTarget (base : string) (request : Request.t) : Res Url.URL :=
  new_URL_base (Url.pathname (Request.url request) ++ Url.search (Request.url request)) base.

(** A session on which to try the relay: the backend answers the upgrade
    with status 101 and its socket. *)
Definition upgradingNet : Network :=
  fun _ _ => Replies 5 (Response.mk 101 "Switching Protocols" [] None (Some BackendWs)).

Definition relayConfig : SelfHostedConfig :=
  mkConfig "https://x.example.com" "wss://x.example.com" None.

Definition upgradeRequest : Request.t :=
  get_request "https://worker.example/ws" [("host", "worker.example"); ("upgrade", "websocket")].

Definition sessionWith (tr : option Transform) : St :=
  snd (proxySelfHostedWebSocket relayConfig upgradeRequest tr upgradingNet idle).

Definition throwingTransform : Transform :=
  fun _ _ => Threw (mkExn "SyntaxError" "malformed content").

(** Scenario D: the body of the backend and what [JSON.parse] makes of it. *)
Definition echoResult : Json.t :=
  JObj [("stdout", JStr ("hi" ++ String (ascii_of_nat 10) ""));
        ("stderr", JStr ""); ("exitCode", JNum 0)].

Definition echoBody : string := Json.stringify echoResult.

Definition parseEcho : string -> option Json.t :=
  fun s => if s =? echoBody then Some echoResult else None.

Definition echoNet : Network :=
  fun _ _ => Replies 40 (Response.mk 200 "OK" [] (Some echoBody) None).

(** An inbound request that brings its own [X-Internal-Auth]. *)
Definition spoofingRequest : Request.t :=
  get_request "https://worker.example/foo?x=1"
              [("host", "worker.example"); ("x-internal-auth", "from-client")].

Definition okNet : Network :=
  fun _ _ => Replies 20 (Response.mk 200 "OK" [] (Some "hello") None).

(** A request whose path starts with two slashes. *)
Definition doubleSlashRequest : Request.t :=
  get_request "https://worker.example//evil.example/x"
              [("host", "worker.example"); ("cookie", "session=1")].

Definition tokenConfig : SelfHostedConfig :=
  mkConfig "https://x.example.com" "wss://x.example.com" (Some "s3cret").

Definition refusingNet : Network := fun _ _ => Refuses "connection refused".

Definition plainNet : Network := fun _ _ => Replies 5 (statusOnly 200).

Definition rootRequest : Request.t :=
  get_request "https://worker.example/" [("host", "worker.example"); ("accept", "text/html")].

Definition prefixedConfig : SelfHostedConfig :=
  mkConfig "https://x.example.com/moltbot" "wss://x.example.com/moltbot" None.

(* ================================================================== *)
(** ** Event sequences on a relay session *)
(* ================================================================== *)

(** Events as the runtime delivers them, one after the other. *)
Fixpoint deliver (events : list (Sock * Event)) : M unit :=
  match events with
  | [] => ret tt
  | (s, e) :: rest => dispatch s e ;; deliver rest
  end.

Definition is_send (c : Call) : bool :=
  match c with
  | Send _ => true
  | _ => false
  end.

Definition is_OPEN (r : ReadyState) : bool :=
  match r with
  | OPEN => true
  | _ => false
  end.

(** [parsed.error?.message] when it yields a property of an object. *)
Definition errorMessageOf (parsed : Json.t) : option Json.t :=
  match parsed with
  | JObj fields =>
      match Json.lookup "error" fields with
      | Some (JObj efields) => Json.lookup "message" efields
      | _ => None
      end
  | _ => None
  end.

(* ================================================================== *)
(** ** [selfhosted/routes/api.selfhosted.ts]: values read out of parsed JSON *)
(* ================================================================== *)

(** A JavaScript value that is a JSON value or [undefined] ([None]). *)
Definition JsVal := option Json.t.

Definition NullProperty (k : string) : Exn :=
  mkExn "TypeError" ("Cannot read properties of null (reading '" ++ k ++ "')").

Definition NoSuchMethod (what : string) : Exn :=
  mkExn "TypeError" (what ++ " is not a function").

Definition NotIterable (what : string) : Exn :=
  mkExn "TypeError" (what ++ " is not iterable").

(** [v.k] for one of the keys the routes read ([stdout], [exitCode],
    [pending], [requestId], ...): reading a property of [null] throws, an
    object yields its member, and no other JSON value has such a
    property. *)
Definition member (v : Json.t) (k : string) : Res JsVal :=
  match v with
  | JNull => Threw (NullProperty k)
  | JObj fields => Ok (Json.lookup k fields)
  | _ => Ok None
  end.

(** Truthiness of a value that may be [undefined]. *)
Definition val_truthy (v : JsVal) : bool :=
  match v with
  | Some j => js_truthy j
  | None => false
  end.

(** [v || d] *)
Definition or_default (v : JsVal) (d : Json.t) : Json.t :=
  match v with
  | Some j => if js_truthy j then j else d
  | None => d
  end.

(** [v === 0] *)
Definition is_zero (v : JsVal) : bool :=
  match v with
  | Some (JNum z) => (z =? 0)%Z
  | _ => false
  end.

(** An object literal some of whose members may be [undefined]:
    [JSON.stringify] leaves those out. *)
Definition object (members : list (string * JsVal)) : Json.t :=
  JObj (flat_map (fun m => match snd m with
                           | Some j => [(fst m, j)]
                           | None => []
                           end) members).

(** [String(v)], as a template literal renders a value. *)
Fixpoint render (j : Json.t) : string :=
  match j with
  | JNull => "null"
  | JBool true => "true"
  | JBool false => "false"
  | JNum z => JS.Z_to_string z
  | JStr s => s
  | JArr items =>
      (fix elems (l : list Json.t) : string :=
         match l with
         | [] => ""
         | x :: r => match x with JNull => "" | _ => render x end
                     ++ match r with [] => "" | _ => "," ++ elems r end
         end) items
  | JObj _ => "[object Object]"
  end.

Definition to_string (v : JsVal) : string :=
  match v with
  | Some j => render j
  | None => "undefined"
  end.

Fixpoint from_first (c : ascii) (s : string) : option string :=
  match s with
  | EmptyString => None
  | String a t => if Ascii.eqb a c then Some s else from_first c t
  end.

Fixpoint to_last (c : ascii) (s : string) : option string :=
  match s with
  | EmptyString => None
  | String a t =>
      match to_last c t with
      | Some p => Some (String a p)
      | None => if Ascii.eqb a c then Some (String a EmptyString) else None
      end
  end.

(** [s.match(/\{[\s\S]*\}/)?.[0]]: the text from the first opening brace
    to the last closing brace that follows it. *)
Definition matchBraces (s : string) : option string :=
  match from_first "{" s with
  | Some t => to_last "}" t
  | None => None
  end.

(** [stdout.match(...)] on a value out of parsed JSON: only a string has
    the method. *)
Definition string_match (stdout : Json.t) : Res (option string) :=
  match stdout with
  | JStr s => Ok (matchBraces s)
  | _ => Threw (NoSuchMethod "stdout.match")
  end.

Definition is_space (c : ascii) : bool :=
  let n := nat_of_ascii c in
  (Nat.eqb n 32 || (Nat.leb 9 n && Nat.leb n 13))%bool.

Fixpoint trim_start (s : string) : string :=
  match s with
  | String c t => if is_space c then trim_start t else s
  | EmptyString => EmptyString
  end.

Fixpoint trim_end (s : string) : string :=
  match s with
  | EmptyString => EmptyString
  | String c t =>
      match trim_end t with
      | EmptyString => if is_space c then EmptyString else String c EmptyString
      | t' => String c t'
      end
  end.

(** [s.trim()] on ASCII white space. *)
Definition trim (s : string) : string := trim_end (trim_start s).

Definition CLI_TIMEOUT_MS : Z := 20000.

Definition configurationMissing : Response.t :=
  c_json (JObj [("error", JStr "Self-hosted configuration missing")]) 503.

(** [c.json({ error: errorMessage }, 500)] of the outer [catch] blocks. *)
Definition serverError (error : Exn) : Response.t :=
  c_json (JObj [("error", JStr (exn_message error))]) 500.

(** The three credentials that [GET /api/admin/storage] reads from the
    environment. *)
Record StorageEnv := mkStorageEnv {
  R2_ACCESS_KEY_ID : JS.ostring;
  R2_SECRET_ACCESS_KEY : JS.ostring;
  CF_ACCOUNT_ID : JS.ostring
}.

(** One entry of [results] in the approve-all route. *)
Record Approval := mkApproval {
  requestId : JsVal;
  success : bool;
  failure : option string      (* the [error] member *)
}.

Definition approval_json (a : Approval) : Json.t :=
  object [("requestId", requestId a);
          ("success", Some (JBool (success a)));
          ("error", option_map JStr (failure a))].

Definition listCommand : string :=
  "clawdbot devices list --json --url ws://localhost:18789".

Definition approveCommand (requestId : string) : string :=
  "clawdbot devices approve " ++ requestId ++ " --url ws://localhost:18789".

Definition lastSyncCommand : string :=
  "cat /root/.clawdbot/.last-sync 2>/dev/null || echo "
    ++ String JS.dquote (String JS.dquote "").

(** The POST of the sync and restart routes, and the GET of the server
    status route. *)
Definition internalPost (config : SelfHostedConfig) (path : string) : FetchInit :=
  {| f_url := baseUrl config ++ path;
     f_method := "POST";
     f_headers :=
       headers_of_object
         (("Content-Type", "application/json")
            :: (if JS.truthy (authToken config)
                then [("X-Internal-Auth", value (authToken config))]
                else []));
     f_body := None;
     f_redirect := Follow;
     f_signal := None |}.

Definition internalStatusFetch (config : SelfHostedConfig) : FetchInit :=
  {| f_url := baseUrl config ++ "/api/internal/status";
     f_method := "GET";
     f_headers :=
       headers_of_object
         (if JS.truthy (authToken config)
          then [("X-Internal-Auth", value (authToken config))]
          else []);
     f_body := None;
     f_redirect := Follow;
     f_signal := None |}.

Section AdminApi.

Variable JSON_parse : string -> option Json.t.

(** [JSON.parse(text)] *)
Definition parse_json (text : string) : Res Json.t :=
  match JSON_parse text with
  | Some j => Ok j
  | None => Threw SyntaxError
  end.

Definition rawOutput (stdout stderr : Json.t) (parseError : JsVal) : Response.t :=
  c_json (object [("pending", Some (JArr [])); ("paired", Some (JArr []));
                  ("raw", Some stdout); ("stderr", Some stderr);
                  ("parseError", parseError)]) 200.

(** [GET /api/admin/devices] *)
Definition admin_devices (env : MoltbotEnv) : M Response.t :=
  config <- lift (buildSelfHostedConfig env) ;;
  match config with
  | None => ret configurationMissing
  | Some config =>
      try_catch
        (result <- executeSelfHostedCommand JSON_parse config listCommand
                                            (Some CLI_TIMEOUT_MS) ;;
         stdout0 <- lift (member result "stdout") ;;
         let stdout := or_default stdout0 (JStr "") in
         stderr0 <- lift (member result "stderr") ;;
         let stderr := or_default stderr0 (JStr "") in
         try_catch
           (jsonMatch <- lift (string_match stdout) ;;
            match jsonMatch with
            | Some text =>
                data <- lift (parse_json text) ;;
                ret (c_json data 200)
            | None => ret (rawOutput stdout stderr None)
            end)
           (fun _ => ret (rawOutput stdout stderr
                                    (Some (JStr "Failed to parse CLI output")))))
        (fun error => ret (serverError error))
  end.

(** [stdout.toLowerCase().includes('approved')] on a value out of parsed
    JSON. *)
Definition says_approved (stdout : Json.t) : Res bool :=
  match stdout with
  | JStr s => Ok (JS.includes (JS.toLowerCase s) "approved")
  | _ => Threw (NoSuchMethod "stdout.toLowerCase")
  end.

(** [POST /api/admin/devices/:requestId/approve]; [requestId] is
    [c.req.param('requestId')]. *)
Definition admin_approve (env : MoltbotEnv) (requestId : JS.ostring) : M Response.t :=
  config <- lift (buildSelfHostedConfig env) ;;
  match config with
  | None => ret configurationMissing
  | Some config =>
      if negb (JS.truthy requestId) then
        ret (c_json (JObj [("error", JStr "requestId is required")]) 400)
      else
        try_catch
          (result <- executeSelfHostedCommand JSON_parse config
                       (approveCommand (value requestId)) (Some CLI_TIMEOUT_MS) ;;
           stdout0 <- lift (member result "stdout") ;;
           let stdout := or_default stdout0 (JStr "") in
           stderr0 <- lift (member result "stderr") ;;
           let stderr := or_default stderr0 (JStr "") in
           approved <- lift (says_approved stdout) ;;
           exitCode <- lift (member result "exitCode") ;;
           let success := (approved || is_zero exitCode)%bool in
           ret (c_json (JObj [("success", JBool success);
                              ("requestId", JStr (value requestId));
                              ("message", JStr (if success then "Device approved"
                                                else "Approval may have failed"));
                              ("stdout", stdout);
                              ("stderr", stderr)]) 200))
          (fun error => ret (serverError error))
  end.

(** [approveResult.stdout?.toLowerCase().includes('approved')
     || approveResult.exitCode === 0] *)
Definition approval_succeeded (approveResult : Json.t) : Res bool :=
  res_bind (member approveResult "stdout") (fun stdout =>
  res_bind (match stdout with
            | None | Some JNull => Ok false
            | Some s => says_approved s
            end) (fun approved =>
  if approved then Ok true
  else res_bind (member approveResult "exitCode") (fun exitCode =>
       Ok (is_zero exitCode)))).

(** The body of the [for] loop of the approve-all route. *)
Definition approveOne (config : SelfHostedConfig) (device : Json.t) : M Approval :=
  try_catch
    (requestId <- lift (member device "requestId") ;;
     approveResult <- executeSelfHostedCommand JSON_parse config
                        (approveCommand (to_string requestId)) (Some CLI_TIMEOUT_MS) ;;
     success <- lift (approval_succeeded approveResult) ;;
     ret {| requestId := requestId; success := success; failure := None |})
    (fun err =>
       requestId <- lift (member device "requestId") ;;
       ret {| requestId := requestId; success := false;
              failure := Some (exn_message err) |}).

Fixpoint approveEach (config : SelfHostedConfig) (pending : list Json.t)
         (results : list Approval) : M (list Approval) :=
  match pending with
  | [] => ret results
  | device :: rest =>
      r <- approveOne config device ;;
      approveEach config rest (results ++ [r])%list
  end.

Fixpoint characters (s : string) : list Json.t :=
  match s with
  | EmptyString => []
  | String c t => JStr (String c EmptyString) :: characters t
  end.

(** The values that [for (const device of pending)] visits. *)
Definition iterate (pending : Json.t) : Res (list Json.t) :=
  match pending with
  | JArr items => Ok items
  | JStr s => Ok (characters s)
  | _ => Threw (NotIterable "pending")
  end.

(** [pending.length] *)
Definition length_of (pending : Json.t) : JsVal :=
  match pending with
  | JArr items => Some (JNum (Z.of_nat (List.length items)))
  | JStr s => Some (JNum (Z.of_nat (String.length s)))
  | JObj fields => Json.lookup "length" fields
  | _ => None
  end.

Definition approvalSummary (results : list Approval) (pending : Json.t) : Response.t :=
  let approved := filter success results in
  c_json (JObj [("approved", JArr (map (fun r => match requestId r with
                                                 | Some j => j
                                                 | None => JNull
                                                 end) approved));
                ("failed", JArr (map approval_json
                                     (filter (fun r => negb (success r)) results)));
                ("message", JStr ("Approved "
                                    ++ JS.Z_to_string (Z.of_nat (List.length approved))
                                    ++ " of " ++ to_string (length_of pending)
                                    ++ " device(s)"))]) 200.

Definition parseFailed (stdout : Json.t) : Response.t :=
  c_json (JObj [("error", JStr "Failed to parse device list"); ("raw", stdout)]) 500.

(** The pending devices found in the output of the list command; the
    right injection is the response of the inner [catch]. *)
Definition pendingDevices (stdout : Json.t) : Json.t + Response.t :=
  match
    res_bind (string_match stdout) (fun jsonMatch =>
    match jsonMatch with
    | Some text =>
        res_bind (parse_json text) (fun data =>
        res_bind (member data "pending") (fun pending =>
        Ok (or_default pending (JArr []))))
    | None => Ok (JArr [])
    end)
  with
  | Ok pending => inl pending
  | _ => inr (parseFailed stdout)
  end.

(** [POST /api/admin/devices/approve-all] *)
Definition admin_approve_all (env : MoltbotEnv) : M Response.t :=
  config <- lift (buildSelfHostedConfig env) ;;
  match config with
  | None => ret configurationMissing
  | Some config =>
      try_catch
        (listResult <- executeSelfHostedCommand JSON_parse config listCommand
                                                (Some CLI_TIMEOUT_MS) ;;
         stdout0 <- lift (member listResult "stdout") ;;
         let stdout := or_default stdout0 (JStr "") in
         match pendingDevices stdout with
         | inr response => ret response
         | inl pending =>
             if is_zero (length_of pending) then
               ret (c_json (JObj [("approved", JArr []);
                                  ("message", JStr "No pending devices to approve")]) 200)
             else
               devices <- lift (iterate pending) ;;
               results <- approveEach config devices [] ;;
               ret (approvalSummary results pending)
         end)
        (fun error => ret (serverError error))
  end.

(** [result.stdout?.trim()], kept when it is a non-empty string. *)
Definition lastSyncOf (result : Json.t) : Res Json.t :=
  res_bind (member result "stdout") (fun stdout =>
  match stdout with
  | None | Some JNull => Ok JNull
  | Some (JStr s) => Ok (if trim s =? "" then JNull else JStr (trim s))
  | Some _ => Threw (NoSuchMethod "result.stdout.trim")
  end).

(** [GET /api/admin/storage] *)
Definition admin_storage (env : MoltbotEnv) (r2 : StorageEnv) : M Response.t :=
  config <- lift (buildSelfHostedConfig env) ;;
  match config with
  | None => ret configurationMissing
  | Some config =>
      let hasCredentials :=
        (JS.truthy (R2_ACCESS_KEY_ID r2) && JS.truthy (R2_SECRET_ACCESS_KEY r2)
         && JS.truthy (CF_ACCOUNT_ID r2))%bool in
      let missing : list string := [] in
      let missing := if negb (JS.truthy (R2_ACCESS_KEY_ID r2))
                     then (missing ++ ["R2_ACCESS_KEY_ID"])%list else missing in
      let missing := if negb (JS.truthy (R2_SECRET_ACCESS_KEY r2))
                     then (missing ++ ["R2_SECRET_ACCESS_KEY"])%list else missing in
      let missing := if negb (JS.truthy (CF_ACCOUNT_ID r2))
                     then (missing ++ ["CF_ACCOUNT_ID"])%list else missing in
      lastSync <-
        (if hasCredentials then
           try_catch
             (result <- executeSelfHostedCommand JSON_parse config lastSyncCommand
                                                 (Some 5000%Z) ;;
              lift (lastSyncOf result))
             (fun _ => ret JNull)
         else ret JNull) ;;
      ret (c_json
             (object
                [("configured", Some (JBool hasCredentials));
                 ("missing", if Nat.ltb 0 (List.length missing)
                             then Some (JArr (map JStr missing)) else None);
                 ("lastSync", Some lastSync);
                 ("mode", Some (JStr "selfhosted"));
                 ("message",
                  Some (JStr (if hasCredentials
                              then "R2 storage is configured. Your data will persist via rclone sync."
                              else "R2 storage is not configured. Paired devices and conversations may be lost on server restart.")))])
             200)
  end.

(** [POST /api/admin/storage/sync] *)
Definition admin_storage_sync (env : MoltbotEnv) : M Response.t :=
  config <- lift (buildSelfHostedConfig env) ;;
  match config with
  | None => ret configurationMissing
  | Some config =>
      try_catch
        (response <- fetch (internalPost config "/api/internal/sync") ;;
         if Response.ok response then
           result <- response_json JSON_parse response ;;
           success <- lift (member result "success") ;;
           lastSync <- lift (member result "lastSync") ;;
           error <- lift (member result "error") ;;
           ret (c_json (object
                          [("success", success);
                           ("message", Some (JStr (if val_truthy success
                                                   then "Sync completed successfully"
                                                   else "Sync failed")));
                           ("lastSync", lastSync);
                           ("error", error)]) 200)
         else
           let text := Response.text response in
           ret (c_json (JObj [("success", JBool false);
                              ("error", JStr ("Sync request failed: "
                                                ++ JS.Z_to_string (Response.status response)));
                              ("details", JStr text)]) 500))
        (fun error =>
           ret (c_json (JObj [("success", JBool false);
                              ("error", JStr (exn_message error))]) 500))
  end.

(** [POST /api/admin/gateway/restart] *)
Definition admin_gateway_restart (env : MoltbotEnv) : M Response.t :=
  config <- lift (buildSelfHostedConfig env) ;;
  match config with
  | None => ret configurationMissing
  | Some config =>
      try_catch
        (response <- fetch (internalPost config "/api/internal/restart") ;;
         if Response.ok response then
           result <- response_json JSON_parse response ;;
           success <- lift (member result "success") ;;
           message <- lift (member result "message") ;;
           ret (c_json (object
                          [("success", success);
                           ("message", Some (or_default message
                                               (JStr "Gateway restart initiated")))]) 200)
         else
           let text := Response.text response in
           ret (c_json (JObj [("success", JBool false);
                              ("error", JStr ("Restart request failed: "
                                                ++ JS.Z_to_string (Response.status response)));
                              ("details", JStr text)]) 500))
        (fun error => ret (serverError error))
  end.

(** [GET /api/admin/server/status] *)
Definition admin_server_status (env : MoltbotEnv) : M Response.t :=
  config <- lift (buildSelfHostedConfig env) ;;
  match config with
  | None => ret configurationMissing
  | Some config =>
      try_catch
        (isHealthy <- checkSelfHostedHealth config ;;
         response <- fetch (internalStatusFetch config) ;;
         if Response.ok response then
           status <- response_json JSON_parse response ;;
           gateway <- lift (member status "gateway") ;;
           pid <- lift (member status "pid") ;;
           timestamp <- lift (member status "timestamp") ;;
           ret (c_json (object
                          [("healthy", Some (JBool isHealthy));
                           ("gateway", gateway);
                           ("pid", pid);
                           ("timestamp", timestamp);
                           ("url", Some (JStr (baseUrl config)))]) 200)
         else
           ret (c_json (JObj [("healthy", JBool isHealthy);
                              ("gateway", JStr (if isHealthy : bool then "running" else "unknown"));
                              ("url", JStr (baseUrl config))]) 200))
        (fun error =>
           ret (c_json (JObj [("healthy", JBool false);
                              ("gateway", JStr "error");
                              ("error", JStr (exn_message error));
                              ("url", JStr (baseUrl config))]) 200))
  end.

End AdminApi.

(** The first middleware of the worker: two log lines for every
    request. *)
Definition logRequest (request : Request.t) : M unit :=
  let url := Request.url request in
  console_log ["[REQ] " ++ Request.method request ++ " "
                 ++ Url.pathname url ++ Url.search url] ;;
  console_log ["[REQ] Mode: self-hosted (Docker Chrome + Docker volumes)"].

(** The admin routes as the worker mounts them: no public route and no
    CDP route takes a path under [/api/admin], so a request goes through
    the logging middleware and the two middlewares of the protected
    section, and [adminApi] runs its own access gate before every
    handler. *)
Section AdminMount.

Variable configErrorHtml : string.

(** The two access gates of [src/auth]: the one of the worker, and
    [createAccessMiddleware({ type: 'json' })] of [adminApi.use]. *)
Variable accessMiddleware : MoltbotEnv -> Request.t -> M (option Response.t).
Variable adminAccess : MoltbotEnv -> Request.t -> M (option Response.t).

Definition admin_route (handler : M Response.t) (env : MoltbotEnv) (request : Request.t)
  : M Response.t :=
  logRequest request ;;
  checked <- envMiddleware configErrorHtml env request ;;
  match checked with
  | Some response => ret response
  | None =>
      gate <- accessMiddleware env request ;;
      match gate with
      | Some response => ret response
      | None =>
          inner <- adminAccess env request ;;
          match inner with
          | Some response => ret response
          | None => handler
          end
      end
  end.

End AdminMount.

(** The state in which a request reaches the protected section. *)
Definition arrived (st : St) (request : Request.t) : St :=
  logged (logged st LogLevel
                 ["[REQ] " ++ Request.method request ++ " "
                    ++ Url.pathname (Request.url request)
                    ++ Url.search (Request.url request)])
         LogLevel ["[REQ] Mode: self-hosted (Docker Chrome + Docker volumes)"].

(** The handlers of the seven admin routes, on one request. *)
Definition adminHandlers (JSON_parse : string -> option Json.t) (env : MoltbotEnv)
           (r2 : StorageEnv) (requestId : JS.ostring) : list (M Response.t) :=
  [admin_devices JSON_parse env; admin_approve JSON_parse env requestId;
   admin_approve_all JSON_parse env; admin_storage JSON_parse env r2;
   admin_storage_sync JSON_parse env; admin_gateway_restart JSON_parse env;
   admin_server_status JSON_parse env].

(* ================================================================== *)
(** ** [selfhosted/routes/cdp.selfhosted.ts] *)
(* ================================================================== *)

(** [fetch(url)] with no init. *)
Definition plainGet (url : string) : FetchInit :=
  {| f_url := url; f_method := "GET"; f_headers := []; f_body := None;
     f_redirect := Follow; f_signal := None |}.

(** [selfHostedUrl.replace(':18789', ':3000')] *)
Definition chromeUrl (selfHostedUrl : string) : string :=
  JS.replace_first selfHostedUrl ":18789" ":3000".

Definition urlNotConfigured : Response.t :=
  c_json (JObj [("error", JStr "SELFHOSTED_URL not configured")]) 503.

(** [GET /cdp]: how to reach the Chrome container. *)
Definition cdp_info (env : MoltbotEnv) : Response.t :=
  let selfHostedUrl :=
    if JS.truthy (SELFHOSTED_URL env) then value (SELFHOSTED_URL env)
    else "http://localhost:3000" in
  let wsUrl := JS.replace_first (JS.replace_first selfHostedUrl "https://" "wss://")
                                "http://" "ws://" in
  c_json
    (JObj [("service", JStr "CDP Proxy to Docker Chrome");
           ("description",
            JStr "Connect directly to Chrome via WebSocket through Cloudflare Tunnel");
           ("endpoints",
            JObj [("websocket", JStr (wsUrl ++ "/"));
                  ("json_version", JStr (selfHostedUrl ++ "/json/version"));
                  ("json_list", JStr (selfHostedUrl ++ "/json"));
                  ("json_new", JStr (selfHostedUrl ++ "/json/new?about:blank"))]);
           ("note",
            JStr "CDP WebSocket connections should go directly through the Tunnel to Chrome, not through this Worker endpoint.")])
    200.

Section Cdp.

Variable JSON_parse : string -> option Json.t.

(** [GET /cdp/json/version] *)
Definition cdp_json_version (env : MoltbotEnv) : M Response.t :=
  let selfHostedUrl := SELFHOSTED_URL env in
  if negb (JS.truthy selfHostedUrl) then ret urlNotConfigured
  else
    try_catch
      (let chromeUrl := chromeUrl (value selfHostedUrl) in
       response <- fetch (plainGet (chromeUrl ++ "/json/version")) ;;
       data <- response_json JSON_parse response ;;
       ret (c_json data 200))
      (fun err =>
         ret (c_json
                (JObj [("error", JStr "Failed to get Chrome version");
                       ("details", JStr (exn_message err));
                       ("hint", JStr "Ensure Chrome container is running and tunnel is configured for port 3000")])
                502)).

(** [GET /cdp/json] *)
Definition cdp_json_list (env : MoltbotEnv) : M Response.t :=
  let selfHostedUrl := SELFHOSTED_URL env in
  if negb (JS.truthy selfHostedUrl) then ret urlNotConfigured
  else
    try_catch
      (let chromeUrl := chromeUrl (value selfHostedUrl) in
       response <- fetch (plainGet (chromeUrl ++ "/json")) ;;
       data <- response_json JSON_parse response ;;
       ret (c_json data 200))
      (fun err =>
         ret (c_json
                (JObj [("error", JStr "Failed to list targets");
                       ("details", JStr (exn_message err))])
                502)).

End Cdp.

(** The close codes that a caller may pass to [close] on every
    implementation of the WebSocket interface: 1000, and 3000 to 4999. *)
Definition valid_close_code (code : Z) : bool :=
  ((code =? 1000)%Z || ((3000 <=? code)%Z && (code <=? 4999)%Z))%bool.

(** A socket is quiet between two states when it is not open at the end
    and has received no [send] in between. *)
Definition quiet (s : Sock) (st st' : St) : Prop :=
  readyState (socket st' s) <> OPEN
  /\ exists more, calls (socket st' s) = (calls (socket st s) ++ more)%list
                  /\ existsb is_send more = false.

Definition jsonNet : Network :=
  fun _ _ => Replies 20 (Response.mk 200 "OK" [("content-type", "application/json")]
                                     (Some "{}") None).

(** A frame whose JSON is an error that asks for pairing. *)
Definition parsePairing : string -> option Json.t :=
  fun _ => Some (JObj [("id", JNum 7);
                       ("error", JObj [("message", JStr "pairing required")])]).

(* ================================================================== *)
(** ** Vocabulary and sample inputs of the admin routes *)
(* ================================================================== *)

(** [s] holds no character [c]. *)
Definition lacks (c : ascii) (s : string) : bool :=
  JS.forallb_str (fun a => negb (Ascii.eqb a c)) s.

(** [device.requestId] of a device that is not [null]. *)
Definition requestIdOf (device : Json.t) : JsVal :=
  match device with
  | JObj fields => Json.lookup "requestId" fields
  | _ => None
  end.

Definition is_null (j : Json.t) : bool :=
  match j with
  | JNull => true
  | _ => false
  end.

(** The request that approves one device of the list. *)
Definition approvalFetch (config : SelfHostedConfig) (device : Json.t) : FetchInit :=
  execFetch config (approveCommand (to_string (requestIdOf device))) 20000.

Definition nothingPending : Response.t :=
  c_json (JObj [("approved", JArr []);
                ("message", JStr "No pending devices to approve")]) 200.

(** Sample answers of the backend for the admin routes: the output of
    the list command with log text around the device list, and the output
    of an approval.  [adminParse] stands for [JSON.parse] on the three
    texts involved. *)
Definition pendingList : Json.t :=
  JObj [("pending", JArr [JObj [("requestId", JStr "r1")];
                          JObj [("requestId", JStr "r2")]]);
        ("paired", JArr [])].

Definition listResult : Json.t :=
  JObj [("stdout", JStr "connecting {devices} done"); ("stderr", JStr "");
        ("exitCode", JNum 0)].

Definition approveResult : Json.t :=
  JObj [("stdout", JStr "Approved device"); ("stderr", JStr "");
        ("exitCode", JNum 0)].

Definition adminParse : string -> option Json.t :=
  fun text =>
    if text =? "list" then Some listResult
    else if text =? "{devices}" then Some pendingList
    else if text =? "approved" then Some approveResult
    else None.

(** A backend that answers the first call with the device list and every
    later call with an approval. *)
Definition adminNet : Network :=
  fun n _ =>
    Replies 10 (Response.mk 200 "OK" []
                            (Some (if Nat.eqb n 0 then "list" else "approved")) None).

Definition approvingNet : Network :=
  fun _ _ => Replies 10 (Response.mk 200 "OK" [] (Some "approved") None).

Definition adminEnv : MoltbotEnv := selfhostedEnv "https://x.example.com/".

(** Every required setting present, in another deployment mode. *)
Definition otherModeEnv : MoltbotEnv :=
  mkEnv (Some "token") None None (Some "team") (Some "aud") (Some "sandbox")
        (Some "https://x.example.com") None None.

Definition devicesRequest : Request.t :=
  get_request "https://worker.example/api/admin/devices" [].

(** An access gate that lets every request through. *)
Definition openGate : MoltbotEnv -> Request.t -> M (option Response.t) :=
  fun _ _ => ret None.

Definition fullStorageEnv : StorageEnv :=
  mkStorageEnv (Some "key") (Some "secret") (Some "account").


(** The last character of a text. *)
Fixpoint last_char (s : string) : option ascii :=
  match s with
  | EmptyString => None
  | String c EmptyString => Some c
  | String _ t => last_char t
  end.

(* ================================================================== *)
(** * Properties *)
(* ================================================================== *)

(** ** Worked examples of the platform model *)

Example url_parse_base :
  Url.parse "https://x.example.com"
  = Some (Url.mkURL "https:" "x.example.com" "/" None None).
Proof. reflexivity. Qed.

Example url_parse_double_slash :
  Url.parse "https://worker.example//evil.example/x"
  = Some (Url.mkURL "https:" "worker.example" "//evil.example/x" None None).
Proof. reflexivity. Qed.

Example url_resolve_plain :
  option_map Url.href (Url.resolve "/foo?x=1" "https://x.example.com")
  = Some "https://x.example.com/foo?x=1".
Proof. reflexivity. Qed.

Example url_resolve_double_slash :
  option_map Url.href (Url.resolve "//evil.example/x" "https://x.example.com")
  = Some "https://evil.example/x".
Proof. reflexivity. Qed.

Example stringify_error_body :
  let q := String JS.dquote "" in
  Json.stringify (JObj [("code", JNum 503); ("tab", JStr (String (ascii_of_nat 9) "x"));
                        ("l", JArr [JBool true; JNull])])
  = "{" ++ q ++ "code" ++ q ++ ":503," ++ q ++ "tab" ++ q ++ ":" ++ q ++ "\tx" ++ q ++ ","
        ++ q ++ "l" ++ q ++ ":[true,null]}".
Proof. reflexivity. Qed.

(** ** Unfolding of the runtime *)

Ltac run_js :=
  unfold bind, ret, lift, throw, try_catch, console_log, console_error,
    write_console, fetch, new_WebSocketPair, accept, addEventListener, send,
    close, is_open, on_socket in *.

(** ** The Config Resolver *)









Lemma resolver_unconfigured (env : MoltbotEnv) :
  configured env = false -> buildSelfHostedConfig env = Ok None.
Proof.
  unfold configured, buildSelfHostedConfig. intros H.
  destruct (strict_eq _ _), (JS.truthy (SELFHOSTED_URL env)); simpl in *;
    congruence.
Qed.





(** The resolver on further inputs.  The parser lower-cases the scheme
    and the host, resolves dot segments and drops the default port of
    the scheme; a port that is not the default stays. *)
Example resolver_default_port :
  buildSelfHostedConfig
    (mkEnv None None None None None (Some "selfhosted")
           (Some "https://x.example.com:443/") None None)
  = Ok (Some (mkConfig "https://x.example.com:443" "wss://x.example.com" None)).
Proof. reflexivity. Qed.

Example resolver_normalises :
  buildSelfHostedConfig
    (mkEnv None None None None None (Some "selfhosted")
           (Some "HTTP://Gateway.Example.COM:18789/a/../moltbot/") None None)
  = Ok (Some (mkConfig "HTTP://Gateway.Example.COM:18789/a/../moltbot"
                       "ws://gateway.example.com:18789/moltbot" None)).
Proof. reflexivity. Qed.

Example resolver_ip_address :
  buildSelfHostedConfig
    (mkEnv None None None None None (Some "selfhosted")
           (Some "http://192.168.1.10:18789") None None)
  = Ok (Some (mkConfig "http://192.168.1.10:18789" "ws://192.168.1.10:18789" None)).
Proof. reflexivity. Qed.

(** A host and a port without a scheme before them are a valid URL: its
    scheme is what stands before the colon, and its path is opaque.  The
    resolver returns a config; the assignment of a WebSocket scheme to a
    scheme that is not special is ignored, so the WebSocket URL is the
    input.  Such a URL is no base for a path, and each relay then throws
    where it builds its target. *)
Example resolver_without_scheme :
  buildSelfHostedConfig
    (mkEnv None None None None None (Some "selfhosted") (Some "localhost:18789") None None)
  = Ok (Some (mkConfig "localhost:18789" "localhost:18789" None))
  /\ Url.basic_parse "localhost:18789"
     = Some (Url.make "localhost:" "" "" None None "18789" None None)
  /\ Url.parse "localhost:18789" = None
  /\ fst (proxySelfHostedRequest (mkConfig "localhost:18789" "localhost:18789" None)
                                 spoofingRequest okNet idle)
     = Threw InvalidURL
  /\ fst (proxySelfHostedWebSocket (mkConfig "localhost:18789" "localhost:18789" None)
                                   upgradeRequest None okNet idle)
     = Threw InvalidURL.
Proof. repeat split. Qed.

(** A host alone is no valid URL. *)
Example resolver_host_alone :
  Url.ascii_names "x.example.com" = true
  /\ Url.basic_parse "x.example.com" = None
  /\ buildSelfHostedConfig
       (mkEnv None None None None None (Some "selfhosted") (Some "x.example.com") None None)
     = Threw InvalidURL.
Proof. repeat split. Qed.

(** ** The Health Prober *)

(** The probe, case by case on what the network does with its request. *)
Lemma health_run (config : SelfHostedConfig) (net : Network) (st : St) :
  checkSelfHostedHealth config net st =
    let st1 := requested st (healthFetch config) in
    match net (List.length (fetched st)) (healthFetch config) with
    | Refuses reason => (Ok false, healthFailed st1 reason)
    | Replies delay r =>
        if (delay <? 5000)%Z then (Ok (Response.ok r), st1)
        else (Ok false, healthFailed st1 (exn_message TimeoutError))
    | Silent => (Ok false, healthFailed st1 (exn_message TimeoutError))
    end.
Proof.
  unfold checkSelfHostedHealth. run_js. cbn [f_signal healthFetch].
  destruct (net _ _) as [reason|delay r|]; try reflexivity.
  destruct (delay <? 5000)%Z; reflexivity.
Qed.

(** The probe always settles with a boolean, sends exactly its own
    request and touches no socket. *)
Lemma health_effect (config : SelfHostedConfig) (net : Network) (st : St) :
  exists b st',
    checkSelfHostedHealth config net st = (Ok b, st')
    /\ fetched st' = (fetched st ++ [healthFetch config])%list
    /\ clientWs st' = clientWs st /\ serverWs st' = serverWs st
    /\ backendWs st' = backendWs st
    /\ (console st' = console st
        \/ exists reason, console st' =
             (console st ++ [(ErrorLevel, ["[SelfHosted] Health check failed:"; reason])])%list).
Proof.
  rewrite health_run. cbv zeta.
  destruct (net _ _) as [reason|delay r|].
  - eexists _, _; repeat split; simpl; eauto.
  - destruct (delay <? 5000)%Z; eexists _, _; repeat split; simpl; eauto.
  - eexists _, _; repeat split; simpl; eauto.
Qed.

(** C9.  The Health Prober sends one GET to [{baseUrl}/health] with a
    deadline of 5000 ms; it always settles with a boolean, never with an
    exception or a pending promise, and the boolean is [true] exactly
    when a response with a 2xx status arrives before the deadline. *)
Theorem C9_health_probe (config : SelfHostedConfig) (net : Network) (st : St) :
  f_url (healthFetch config) = baseUrl config ++ "/health"
  /\ f_method (healthFetch config) = "GET"
  /\ f_signal (healthFetch config) = Some 5000%Z
  /\ exists b st',
       checkSelfHostedHealth config net st = (Ok b, st')
       /\ fetched st' = (fetched st ++ [healthFetch config])%list
       /\ (b = true <->
           exists delay r,
             net (List.length (fetched st)) (healthFetch config) = Replies delay r
             /\ (delay < 5000)%Z
             /\ (200 <= Response.status r <= 299)%Z).
Proof.
  repeat split.
  rewrite health_run. cbv zeta.
  destruct (net _ _) as [reason|delay r|] eqn:Hn.
  - eexists _, _. repeat split; try reflexivity; try discriminate.
    intros (d & r & H & _). discriminate.
  - destruct (delay <? 5000)%Z eqn:Hd.
    + eexists _, _. repeat split; try reflexivity.
      * intros Hok. exists delay, r. unfold Response.ok in Hok.
        apply andb_true_iff in Hok. destruct Hok as [Hlo Hhi].
        apply Z.leb_le in Hlo, Hhi. apply Z.ltb_lt in Hd. auto.
      * intros (d & r' & H & Hlt & Hs). inversion H; subst.
        unfold Response.ok. apply andb_true_iff.
        split; apply Z.leb_le; lia.
    + eexists _, _. repeat split; try reflexivity; try discriminate.
      intros (d & r' & H & Hlt & _). inversion H; subst.
      apply Z.ltb_ge in Hd. lia.
  - eexists _, _. repeat split; try reflexivity; try discriminate.
    intros (d & r & H & _). discriminate.
Qed.

(** Scenario B: HTTP 500 gives [false], HTTP 200 gives [true], and a
    backend that stays silent gives [false]. *)
Example health_scenario_B (config : SelfHostedConfig) :
  fst (checkSelfHostedHealth config (fun _ _ => Replies 20 (statusOnly 500)) idle) = Ok false
  /\ fst (checkSelfHostedHealth config (fun _ _ => Replies 20 (statusOnly 200)) idle) = Ok true
  /\ fst (checkSelfHostedHealth config (fun _ _ => Silent) idle) = Ok false.
Proof. repeat split. Qed.

(** ** The routes when the backend is not configured *)


Lemma envMiddleware_missing (configErrorHtml : string) (env : MoltbotEnv)
      (request : Request.t) (net : Network) (st : St) :
  JS.startsWith (Url.pathname (Request.url request)) "/debug" = false ->
  strict_eq (DEV_MODE env) "true" = false ->
  validateRequiredEnv env <> [] ->
  envMiddleware configErrorHtml env request net st
  = (Ok (Some (configurationError configErrorHtml env request)),
     logged st ErrorLevel ["[CONFIG] Missing:"; JS.join ", " (validateRequiredEnv env)]).
Proof.
  intros Hd Hm Hv. unfold envMiddleware, configurationError. rewrite Hd, Hm.
  destruct (validateRequiredEnv env) as [|x l]; [congruence|].
  cbn [List.length Nat.ltb Nat.leb]. run_js.
  destruct (acceptsHtml request); reflexivity.
Qed.

(** The middleware lets the request through under [/debug], in
    development mode, and when nothing is missing. *)
Lemma envMiddleware_passes (configErrorHtml : string) (env : MoltbotEnv)
      (request : Request.t) (net : Network) (st : St) :
  JS.startsWith (Url.pathname (Request.url request)) "/debug" = true
  \/ strict_eq (DEV_MODE env) "true" = true
  \/ validateRequiredEnv env = [] ->
  envMiddleware configErrorHtml env request net st = (Ok None, st).
Proof.
  unfold envMiddleware. intros [H|[H|H]].
  - rewrite H. reflexivity.
  - rewrite H. destruct (JS.startsWith _ _); reflexivity.
  - rewrite H. destruct (JS.startsWith _ _); [reflexivity|].
    destruct (strict_eq _ _); reflexivity.
Qed.



(** ** The catch-all route behind the health gate *)

(** C3.  On the catch-all route, once the resolver has produced a config,
    the outcome of the health probe decides everything.  When the probe
    reports unhealthy the handler ends right after it: the only request
    sent to the backend is the probe, neither relay is entered, no socket
    is touched, and the answer is the loading page when the caller
    accepts HTML and did not ask for a WebSocket upgrade, and a 503 with
    an [{error, hint}] JSON body otherwise.  When the probe reports
    healthy the handler continues as the WebSocket relay (upgrade
    requests) or the HTTP relay (all others). *)
Theorem C3_health_gate
        (JSON_parse : string -> option Json.t) (loadingPageHtml : string)
        (env : MoltbotEnv) (request : Request.t) (config : SelfHostedConfig)
        (net : Network) (st st' : St) (healthy : bool) :
  buildSelfHostedConfig env = Ok (Some config) ->
  checkSelfHostedHealth config net st = (Ok healthy, st') ->
  (healthy = false ->
     catch_all JSON_parse loadingPageHtml env request net st
     = (Ok (if (negb (isWebSocketRequest request) && acceptsHtml request)%bool
            then c_html loadingPageHtml 200
            else notResponding), st')
     /\ Response.status notResponding = 503%Z
     /\ Response.body notResponding
        = Some (Json.stringify
                  (JObj [("error", JStr "Self-hosted Moltbot gateway is not responding");
                         ("hint", JStr "Check that your server is running")]))
     /\ fetched st' = (fetched st ++ [healthFetch config])%list
     /\ filter relayLine (console st') = filter relayLine (console st)
     /\ clientWs st' = clientWs st /\ serverWs st' = serverWs st
     /\ backendWs st' = backendWs st)
  /\ (healthy = true ->
      catch_all JSON_parse loadingPageHtml env request net st
      = (if isWebSocketRequest request
         then proxySelfHostedWebSocket config request (Some (rewriteGatewayError JSON_parse))
         else proxySelfHostedRequest config request) net st').
Proof.
  intros Hcfg Hprobe.
  assert (Hrun : catch_all JSON_parse loadingPageHtml env request net st
                 = (if (negb healthy && negb (isWebSocketRequest request)
                        && acceptsHtml request)%bool
                    then ret (c_html loadingPageHtml 200)
                    else if negb healthy then ret notResponding
                    else if isWebSocketRequest request
                         then proxySelfHostedWebSocket config request
                                (Some (rewriteGatewayError JSON_parse))
                         else proxySelfHostedRequest config request) net st').
  { unfold catch_all. unfold bind at 1. unfold lift. rewrite Hcfg.
    unfold bind at 1. rewrite Hprobe. reflexivity. }
  split; intros ->; rewrite Hrun; simpl.
  - destruct (health_effect config net st)
      as (b & s & E & Hf & Hc & Hs & Hb & Hlog).
    rewrite Hprobe in E. inversion E; subst b s.
    split.
    { destruct (isWebSocketRequest request), (acceptsHtml request); reflexivity. }
    do 2 (split; [reflexivity|]).
    split; [exact Hf|]. split; [|auto].
    destruct Hlog as [-> | [reason ->]]; [reflexivity|].
    rewrite filter_app. simpl. apply app_nil_r.
  - reflexivity.
Qed.

(** ** The WebSocket relay *)

(** A successful upgrade establishes the session and hands the outer end
    of the pair to the caller. *)
(** The relay block always returns the 101 response; it sends nothing
    and leaves the console with one more line. *)
Lemma establishRelay_run (h : Sock) (tr : option Transform) (host : string)
      (net : Network) (st : St) :
  exists st',
    establishRelay h tr host net st = (Ok (Response.mk 101 "" [] None (Some ClientWs)), st')
    /\ fetched st' = fetched st.
Proof. destruct h; eexists; split; reflexivity. Qed.


(** The answer to the upgrade never makes the relay throw. *)
Lemma answerUpgrade_settles (r : Response.t) (tr : option Transform) (host : string)
      (net : Network) (st : St) :
  exists resp st',
    answerUpgrade r tr host net st = (Ok resp, st') /\ fetched st' = fetched st.
Proof.
  unfold answerUpgrade. destruct (negb _).
  - eexists _, _. split; reflexivity.
  - destruct (Response.webSocket r) as [h|].
    + destruct (establishRelay_run h tr host net st) as (st' & E & Hf). eauto.
    + eexists _, _. split; reflexivity.
Qed.

Lemma answerUpgrade_refused (r : Response.t) (tr : option Transform) (host : string)
      (net : Network) (st : St) :
  (Response.status r <> 101%Z \/ Response.webSocket r = None) ->
  exists resp st',
    answerUpgrade r tr host net st = (Ok resp, st')
    /\ Response.status resp = 502%Z
    /\ Response.webSocket resp = None
    /\ fetched st' = fetched st
    /\ clientWs st' = clientWs st /\ serverWs st' = serverWs st
    /\ backendWs st' = backendWs st.
Proof.
  intros Hbad. unfold answerUpgrade.
  destruct (Response.status r =? 101)%Z eqn:Hs; cbn [negb].
  - destruct Hbad as [Hbad|Hbad]; [apply Z.eqb_eq in Hs; contradiction|].
    rewrite Hbad. eexists _, _. repeat split.
  - eexists _, _. repeat split.
Qed.

(** The relay up to the answer of the backend. *)
Lemma websocket_run (config : SelfHostedConfig) (request : Request.t)
      (tr : option Transform) (net : Network) (st : St)
      (target : Url.URL) (delay : Z) (r : Response.t) :
  relayTarget (wsUrl config) request = Ok target ->
  net (List.length (fetched st)) (upgradeFetch config request target) = Replies delay r ->
  proxySelfHostedWebSocket config request tr net st
  = answerUpgrade r tr (Url.host (Request.url request)) net
      {| console := (console st
                       ++ [(LogLevel, ["[SelfHosted] Proxying WebSocket:";
                                       Url.pathname target])])%list;
         fetched := (fetched st ++ [upgradeFetch config request target])%list;
         clientWs := fresh_socket; serverWs := fresh_socket;
         backendWs := backendWs st |}.
Proof.
  unfold relayTarget. intros Ht Hn.
  unfold proxySelfHostedWebSocket. unfold bind at 1. unfold lift. rewrite Ht.
  unfold bind at 1, console_log, write_console, try_catch.
  unfold bind at 1, new_WebSocketPair. unfold bind at 1, fetch.
  cbn [fetched logged requested console clientWs serverWs backendWs f_signal upgradeFetch].
  rewrite Hn. unfold requested.
  cbn [fetched logged console clientWs serverWs backendWs].
  destruct (answerUpgrade_settles r tr (Url.host (Request.url request)) net
              {| console := (console st
                               ++ [(LogLevel, ["[SelfHosted] Proxying WebSocket:";
                                               Url.pathname target])])%list;
                 fetched := (fetched st ++ [upgradeFetch config request target])%list;
                 clientWs := fresh_socket; serverWs := fresh_socket;
                 backendWs := backendWs st |}) as (resp & st' & E & _).
  rewrite E. reflexivity.
Qed.


(** C5.  When the backend answers the upgrade request with a status other
    than 101, or with 101 but without a socket handle, the relay returns
    a 502 response that carries no socket; both ends of the pair are
    left without any listener and were never accepted, and the backend
    socket is untouched: no partial relay exists. *)
Theorem C5_upgrade_refused (config : SelfHostedConfig) (request : Request.t)
        (tr : option Transform) (net : Network) (st : St)
        (target : Url.URL) (delay : Z) (r : Response.t) :
  relayTarget (wsUrl config) request = Ok target ->
  net (List.length (fetched st)) (upgradeFetch config request target) = Replies delay r ->
  (Response.status r <> 101%Z \/ Response.webSocket r = None) ->
  exists resp st',
    proxySelfHostedWebSocket config request tr net st = (Ok resp, st')
    /\ Response.status resp = 502%Z
    /\ Response.webSocket resp = None
    /\ serverWs st' = fresh_socket
    /\ clientWs st' = fresh_socket
    /\ listeners (serverWs st') = [] /\ listeners (clientWs st') = []
    /\ calls (serverWs st') = [] /\ calls (clientWs st') = []
    /\ backendWs st' = backendWs st
    /\ fetched st' = (fetched st ++ [upgradeFetch config request target])%list.
Proof.
  intros Ht Hn Hbad.
  rewrite (websocket_run config request tr net st target delay r Ht Hn).
  match goal with
  | |- exists resp st', answerUpgrade _ _ _ _ ?s = _ /\ _ =>
      destruct (answerUpgrade_refused r tr (Url.host (Request.url request)) net s Hbad)
        as (resp & st' & E & Hst & Hws & Hf & Hc & Hs & Hb)
  end.
  exists resp, st'. rewrite Hs, Hc, Hb, Hf. repeat split; assumption.
Qed.

(** No listener changes the listeners of a socket, so an established
    session stays established whatever events arrive. *)
Lemma fire_keeps_listeners (l : Listener) (e : Event) (net : Network) (st : St) (s : Sock) :
  listeners (socket (snd (fire l e net st)) s) = listeners (socket st s).
Proof.
  destruct l as [h|tr host|h| |h| ]; destruct e as [d|code reason|]; try reflexivity.
  - cbn. run_js. cbn. destruct (readyState (socket _ h)); try reflexivity.
    destruct h, s; reflexivity.
  - cbn. run_js. cbn. destruct d as [t|b], tr as [f|]; cbn;
      try destruct (f t host); cbn; try reflexivity;
      destruct (readyState (serverWs st)); try reflexivity; destruct s; reflexivity.
  - cbn. run_js. destruct (close_code_accepted code); cbn; [|reflexivity].
    destruct h, s; reflexivity.
  - cbn. run_js. destruct (close_code_accepted code); cbn; [|reflexivity].
    destruct s; reflexivity.
  - cbn. run_js. cbn. destruct h, s; reflexivity.
  - cbn. run_js. cbn. destruct s; reflexivity.
Qed.

Lemma run_listeners_keeps (ls : list (EventType * Listener)) (e : Event)
      (net : Network) (s : Sock) (st : St) :
  listeners (socket (snd (run_listeners ls e net st)) s) = listeners (socket st s).
Proof.
  revert st. induction ls as [|[ty l] rest IH]; intros st; [reflexivity|].
  cbn [run_listeners]. unfold bind at 1.
  destruct (event_type_eqb ty (event_type e)).
  - unfold try_catch.
    pose proof (fire_keeps_listeners l e net st s) as Hf.
    destruct (fire l e net st) as [[[]|ex|] st1]; cbn [snd] in *.
    + rewrite IH. exact Hf.
    + unfold console_error, write_console. cbn. rewrite IH.
      rewrite <- Hf. destruct s; reflexivity.
    + exact Hf.
  - cbn. apply IH.
Qed.

Lemma dispatch_keeps_established (tr : option Transform) (host : string)
      (s : Sock) (e : Event) (net : Network) (st : St) :
  established tr host st -> established tr host (snd (dispatch s e net st)).
Proof.
  unfold established, dispatch. intros [Hs Hb].
  pose proof (run_listeners_keeps (listeners (socket st s)) e net ServerWs st) as H1.
  pose proof (run_listeners_keeps (listeners (socket st s)) e net BackendWs st) as H2.
  cbn [socket] in H1, H2. rewrite H1, H2. auto.
Qed.

Ltac deliver H :=
  unfold dispatch; cbn [socket]; rewrite H; cbn; eexists; repeat split.

(** In an established session a close event on either socket, with a
    code that [close] accepts, makes the relay close the opposite socket
    with the code and the reason of the event, and an error event on
    either socket makes it close the opposite socket with code 1011; the
    socket on which the event arrived receives no call. *)
Lemma close_and_error_propagation
      (tr : option Transform) (host : string) (net : Network) (st : St) :
  established tr host st ->
  (forall code reason, close_code_accepted code = true -> exists st',
      dispatch ServerWs (CloseEvent code reason) net st = (Ok tt, st')
      /\ calls (backendWs st') = (calls (backendWs st) ++ [Close code reason])%list
      /\ readyState (backendWs st') = CLOSING
      /\ calls (serverWs st') = calls (serverWs st))
  /\ (forall code reason, close_code_accepted code = true -> exists st',
         dispatch BackendWs (CloseEvent code reason) net st = (Ok tt, st')
         /\ calls (serverWs st') = (calls (serverWs st) ++ [Close code reason])%list
         /\ readyState (serverWs st') = CLOSING
         /\ calls (backendWs st') = calls (backendWs st))
  /\ (exists st',
         dispatch ServerWs ErrorEvent net st = (Ok tt, st')
         /\ calls (backendWs st') = (calls (backendWs st) ++ [Close 1011 "Client error"])%list
         /\ calls (serverWs st') = calls (serverWs st))
  /\ (exists st',
         dispatch BackendWs ErrorEvent net st = (Ok tt, st')
         /\ calls (serverWs st') = (calls (serverWs st) ++ [Close 1011 "Backend error"])%list
         /\ calls (backendWs st') = calls (backendWs st)).
Proof.
  intros [Hs Hb]. repeat split; intros.
  - unfold dispatch. cbn [socket]. rewrite Hs. cbn. unfold close. rewrite H.
    cbn. eexists. repeat split.
  - unfold dispatch. cbn [socket]. rewrite Hb. cbn. unfold close. rewrite H.
    cbn. eexists. repeat split.
  - deliver Hs.
  - deliver Hb.
Qed.

(** A close event whose code [close] refuses: the listener ends with the
    TypeError of [close], which the runtime reports, and the opposite
    socket is as it was: no call reached it and it is not closing. *)
Lemma refused_close_code_not_propagated
      (tr : option Transform) (host : string) (net : Network) (st : St)
      (code : Z) (reason : string) :
  established tr host st ->
  close_code_accepted code = false ->
  (exists st',
     dispatch ServerWs (CloseEvent code reason) net st = (Ok tt, st')
     /\ backendWs st' = backendWs st /\ serverWs st' = serverWs st
     /\ console st'
        = (console st
             ++ [(LogLevel, ["[SelfHosted WS] Client closed:"; JS.Z_to_string code; reason]);
                 (ErrorLevel, ["Uncaught"; exn_message (InvalidCloseCode code)])])%list)
  /\ (exists st',
        dispatch BackendWs (CloseEvent code reason) net st = (Ok tt, st')
        /\ serverWs st' = serverWs st /\ backendWs st' = backendWs st
        /\ console st'
           = (console st
                ++ [(LogLevel, ["[SelfHosted WS] Backend closed:"; JS.Z_to_string code; reason]);
                    (ErrorLevel, ["Uncaught"; exn_message (InvalidCloseCode code)])])%list).
Proof.
  intros [Hs Hb] Hc. split.
  - unfold dispatch. cbn [socket]. rewrite Hs. cbn. unfold close. rewrite Hc.
    cbn. eexists. repeat split. unfold logged. cbn [console].
    rewrite <- app_assoc. reflexivity.
  - unfold dispatch. cbn [socket]. rewrite Hb. cbn. unfold close. rewrite Hc.
    cbn. eexists. repeat split. unfold logged. cbn [console].
    rewrite <- app_assoc. reflexivity.
Qed.

(** C4, at the failing input.  The client ends an established session
    with [close()] and no code, so the close event on its side of the
    relay carries code 1005 and an empty reason; or the connection to
    the backend is lost, and the close event on that side carries code
    1006.  The listener passes the code of the event to [close] on the
    opposite socket as it is; [close] refuses 1005 and 1006 with a
    TypeError, the listener ends there, and the opposite socket is not
    closed: it stays open and has received no call beyond its [accept].
    With code 1000 the same event closes the opposite socket. *)
Theorem C4_reserved_close_code_not_propagated :
  let st := sessionWith None in
  let client_gone := snd (dispatch ServerWs (CloseEvent 1005 "") upgradingNet st) in
  let backend_gone := snd (dispatch BackendWs (CloseEvent 1006 "") upgradingNet st) in
  let closed_normally := snd (dispatch ServerWs (CloseEvent 1000 "") upgradingNet st) in
  established None "worker.example" st
  /\ readyState (backendWs st) = OPEN /\ readyState (serverWs st) = OPEN
  /\ fst (fire (ClientClose BackendWs) (CloseEvent 1005 "") upgradingNet st)
     = Threw (mkExn "TypeError" "Invalid WebSocket close code: 1005.")
  /\ readyState (backendWs client_gone) = OPEN
  /\ calls (backendWs client_gone) = [Accept]
  /\ fst (fire BackendClose (CloseEvent 1006 "") upgradingNet st)
     = Threw (mkExn "TypeError" "Invalid WebSocket close code: 1006.")
  /\ readyState (serverWs backend_gone) = OPEN
  /\ calls (serverWs backend_gone) = [Accept]
  /\ readyState (backendWs closed_normally) = CLOSING
  /\ calls (backendWs closed_normally) = [Accept; Close 1000 ""].
Proof. cbv zeta. repeat split. Qed.

(** The rewrite callback of the catch-all route never throws: whatever
    goes wrong inside it ends in the original message. *)
Lemma rewriteGatewayError_total (JSON_parse : string -> option Json.t)
      (message host : string) :
  exists out, rewriteGatewayError JSON_parse message host = Ok out.
Proof.
  unfold rewriteGatewayError.
  destruct (JSON_parse message) as [[| | | | |fields]|]; eauto.
  destruct (Json.lookup "error" fields) as [[| | | | |efields]|]; eauto.
  destruct (Json.lookup "message" efields) as [m|]; eauto.
  destruct (js_truthy m); eauto.
  destruct (transformErrorValue m host); eauto.
Qed.

Lemma rewriteGatewayError_not_json (JSON_parse : string -> option Json.t)
      (message host : string) :
  JSON_parse message = None -> rewriteGatewayError JSON_parse message host = Ok message.
Proof. intros H. unfold rewriteGatewayError. rewrite H. reflexivity. Qed.

(** C2 (as amended).  The relay does not guard the call of the transform.
    When the transform throws on a backend-to-client text frame, the
    message listener ends with that exception before it reaches [send]:
    nothing is forwarded to the client for that frame, neither the
    original nor a rewritten one.  The session is not aborted: after the
    event has been delivered the three sockets are exactly as before (no
    [close] call, same ready state, same listeners).  Failing open is
    left to the transform itself, and the one that the catch-all route
    supplies never throws: it returns the original message when the
    frame is not JSON. *)
Theorem C2_transform_throws
        (JSON_parse : string -> option Json.t)
        (f : Transform) (host data : string) (e : Exn) (net : Network) (st : St) :
  established (Some f) host st ->
  f data host = Threw e ->
  fire (BackendMessage (Some f) host) (MessageEvent (Text data)) net st
  = (Threw e, logged st LogLevel ["[SelfHosted WS] Backend -> Client:"; "string"])
  /\ (exists st',
         dispatch BackendWs (MessageEvent (Text data)) net st = (Ok tt, st')
         /\ clientWs st' = clientWs st
         /\ serverWs st' = serverWs st
         /\ backendWs st' = backendWs st
         /\ fetched st' = fetched st)
  /\ (forall message h, exists out, rewriteGatewayError JSON_parse message h = Ok out)
  /\ (forall message h, JSON_parse message = None ->
                        rewriteGatewayError JSON_parse message h = Ok message).
Proof.
  intros [Hs Hb] Hf. split; [|split; [|split]].
  - cbn. run_js. cbn. rewrite Hf. reflexivity.
  - unfold dispatch. cbn [socket]. rewrite Hb. cbn. run_js. cbn. rewrite Hf. cbn.
    eexists. repeat split.
  - apply rewriteGatewayError_total.
  - apply rewriteGatewayError_not_json.
Qed.

(** C2, the claim as stated fails: with a transform that throws, the text
    frame ["hello"] of the backend never reaches the client, although
    the client socket is open; with a transform that returns its
    argument the same frame is forwarded. *)
Lemma C2_counterexample :
  let st := sessionWith (Some throwingTransform) in
  let st' := snd (dispatch BackendWs (MessageEvent (Text "hello")) upgradingNet st) in
  readyState (serverWs st) = OPEN
  /\ calls (serverWs st) = [Accept]
  /\ calls (serverWs st') = [Accept]
  /\ ~ In (Send (Text "hello")) (calls (serverWs st'))
  /\ calls (serverWs
              (snd (dispatch BackendWs (MessageEvent (Text "hello")) upgradingNet
                             (sessionWith (Some (fun m _ => Ok m))))))
     = [Accept; Send (Text "hello")].
Proof.
  cbv zeta. repeat split.
  vm_compute. intros [H|[]]. discriminate H.
Qed.

(** ** The exec bridge *)

(** C6.  An exec-bridge call with requested timeout [timeoutMs] (20000
    when left out) sends one POST whose abort deadline is
    [timeoutMs + 5000] milliseconds.  When the backend answers in time
    with a non-success status the call fails with an error whose message
    ends with the status and the response body; when it answers in time
    with a success status the parsed JSON body is returned as it is. *)
Theorem C6_exec_bridge
        (JSON_parse : string -> option Json.t)
        (config : SelfHostedConfig) (command : string) (timeout : option Z)
        (net : Network) (st : St) :
  let timeoutMs := match timeout with Some t => t | None => 20000%Z end in
  let init := execFetch config command timeoutMs in
  let run := executeSelfHostedCommand JSON_parse config command timeout net st in
  f_signal init = Some (timeoutMs + 5000)%Z
  /\ fetched (snd run) = (fetched st ++ [init])%list
  /\ (forall delay r,
        net (List.length (fetched st)) init = Replies delay r ->
        (delay < timeoutMs + 5000)%Z ->
        Response.ok r = false ->
        fst run = Threw (commandFailed r)
        /\ exn_message (commandFailed r)
           = "Command execution failed: " ++ JS.Z_to_string (Response.status r)
               ++ " " ++ Response.text r)
  /\ (forall delay r j,
        net (List.length (fetched st)) init = Replies delay r ->
        (delay < timeoutMs + 5000)%Z ->
        Response.ok r = true ->
        JSON_parse (Response.text r) = Some j ->
        fst run = Ok j).
Proof.
  cbv zeta. set (timeoutMs := match timeout with Some t => t | None => 20000%Z end).
  unfold executeSelfHostedCommand. fold timeoutMs. run_js.
  cbn [f_signal execFetch fetched logged].
  split; [reflexivity|]. split; [|split].
  - destruct (net _ _) as [reason|delay r|]; cbn; try reflexivity.
    destruct (delay <? timeoutMs + 5000)%Z; cbn; [|reflexivity].
    destruct (Response.ok r); cbn; [|reflexivity].
    unfold response_json. destruct (JSON_parse _); reflexivity.
  - intros delay r Hn Hd Hok. cbn in Hn. rewrite Hn.
    apply Z.ltb_lt in Hd. rewrite Hd, Hok. cbn. split; reflexivity.
  - intros delay r j Hn Hd Hok Hj. cbn in Hn. rewrite Hn.
    apply Z.ltb_lt in Hd. rewrite Hd, Hok. cbn.
    unfold response_json. rewrite Hj. reflexivity.
Qed.

(** C6 at scenario D: command [echo hi], default timeout. *)
Lemma C6_witness :
  fst (executeSelfHostedCommand parseEcho relayConfig "echo hi" None echoNet idle)
  = Ok echoResult.
Proof.
  apply (C6_exec_bridge parseEcho relayConfig "echo hi" None echoNet idle) with
    (delay := 40%Z) (r := Response.mk 200 "OK" [] (Some echoBody) None);
    reflexivity.
Defined.

(** ** Header lists *)

Section HeaderFacts.

Lemma lower_ascii_idem (c : ascii) : JS.lower_ascii (JS.lower_ascii c) = JS.lower_ascii c.
Proof. destruct c as [[] [] [] [] [] [] [] []]; reflexivity. Qed.

Lemma toLowerCase_idem (s : string) : JS.toLowerCase (JS.toLowerCase s) = JS.toLowerCase s.
Proof.
  induction s as [|c s IH]; simpl; [reflexivity|].
  now rewrite lower_ascii_idem, IH.
Qed.

Variables n m : string.
Hypothesis distinct : JS.toLowerCase n <> JS.toLowerCase m.

Lemma named_exclusive (e : string * string) :
  Headers.named m e = true -> Headers.named n e = false.
Proof.
  unfold Headers.named. intros H. apply String.eqb_eq in H.
  apply String.eqb_neq. congruence.
Qed.

Lemma filter_delete_other (h : Headers.t) :
  filter (Headers.named n) (Headers.delete h m) = filter (Headers.named n) h.
Proof.
  unfold Headers.delete. induction h as [|e h IH]; simpl; [reflexivity|].
  destruct (Headers.named m e) eqn:Hm; simpl.
  - rewrite (named_exclusive e Hm). exact IH.
  - destruct (Headers.named n e); now rewrite IH.
Qed.

Lemma filter_set_other (h : Headers.t) (v : string) :
  filter (Headers.named n) (Headers.set h m v) = filter (Headers.named n) h.
Proof.
  induction h as [|e h IH]; simpl.
  - unfold Headers.named at 1. simpl. rewrite toLowerCase_idem.
    destruct (String.eqb_spec (JS.toLowerCase m) (JS.toLowerCase n)); congruence.
  - destruct (Headers.named m e) eqn:Hm; simpl.
    + pose proof (named_exclusive e Hm) as Hn.
      unfold Headers.named in *. simpl in *. rewrite Hn.
      apply filter_delete_other.
    + destruct (Headers.named n e); now rewrite IH.
Qed.

Lemma get_delete_other (h : Headers.t) :
  Headers.get (Headers.delete h m) n = Headers.get h n.
Proof. unfold Headers.get. now rewrite filter_delete_other. Qed.

Lemma get_set_other (h : Headers.t) (v : string) :
  Headers.get (Headers.set h m v) n = Headers.get h n.
Proof. unfold Headers.get. now rewrite filter_set_other. Qed.

End HeaderFacts.

Lemma named_same_name (a b : string) (e : string * string) :
  JS.toLowerCase a = JS.toLowerCase b -> Headers.named a e = Headers.named b e.
Proof. unfold Headers.named. now intros ->. Qed.

Lemma get_same_name (a b : string) (h : Headers.t) :
  JS.toLowerCase a = JS.toLowerCase b -> Headers.get h a = Headers.get h b.
Proof.
  intros H. unfold Headers.get.
  now rewrite (filter_ext _ _ (fun e => named_same_name a b e H)).
Qed.

Lemma filter_delete_same (name : string) (h : Headers.t) :
  filter (Headers.named name) (Headers.delete h name) = [].
Proof.
  unfold Headers.delete. induction h as [|e h IH]; simpl; [reflexivity|].
  destruct (Headers.named name e) eqn:Hn; simpl; [exact IH|].
  now rewrite Hn.
Qed.

Lemma get_delete_same (name : string) (h : Headers.t) :
  Headers.get (Headers.delete h name) name = None.
Proof. unfold Headers.get. now rewrite filter_delete_same. Qed.

Lemma get_set_same (name v : string) (h : Headers.t) :
  Headers.get (Headers.set h name v) name = Some v.
Proof.
  unfold Headers.get.
  assert (E : exists k, filter (Headers.named name) (Headers.set h name v) = [(k, v)]).
  { induction h as [|e h IH]; simpl.
    - unfold Headers.named at 1. simpl. rewrite toLowerCase_idem, String.eqb_refl. eauto.
    - destruct (Headers.named name e) eqn:Hn; simpl.
      + unfold Headers.named in *. simpl in *. rewrite Hn.
        fold (Headers.named name). rewrite filter_delete_same. eauto.
      + rewrite Hn. exact IH. }
  destruct E as [k ->]. reflexivity.
Qed.

(** Without a token, the HTTP relay forwards every header of the inbound
    request except [Host], which it removes. *)
Lemma proxyHeaders_without_token (config : SelfHostedConfig) (request : Request.t) :
  JS.truthy (authToken config) = false ->
  Headers.get (proxyHeaders config request) "host" = None
  /\ forall name, JS.toLowerCase name <> "host" ->
       Headers.get (proxyHeaders config request) name
       = Headers.get (Request.headers request) name.
Proof.
  intros Ht. unfold proxyHeaders, Headers.copy. rewrite Ht.
  set (h := Request.headers request).
  destruct (JS.truthy (Headers.get h "Cookie")) eqn:Hc.
  - split.
    + rewrite get_set_other by (simpl; discriminate). apply get_delete_same.
    + intros name Hn.
      destruct (String.eqb_spec (JS.toLowerCase name) "cookie") as [E|E].
      * rewrite (get_same_name name "Cookie") by exact E.
        rewrite (get_same_name name "Cookie" h) by exact E.
        rewrite get_set_same. destruct (Headers.get h "Cookie"); [reflexivity|discriminate].
      * rewrite get_set_other by (simpl; exact E).
        apply get_delete_other. simpl. exact Hn.
  - split; [apply get_delete_same|].
    intros name Hn. apply get_delete_other. simpl. exact Hn.
Qed.

(** ** What each operation sends upstream *)

Lemma proxy_fetched (config : SelfHostedConfig) (request : Request.t)
      (net : Network) (st : St) :
  fetched (snd (proxySelfHostedRequest config request net st))
  = (fetched st ++ match relayTarget (baseUrl config) request with
                   | Ok target => [proxyFetch config request target]
                   | _ => []
                   end)%list.
Proof.
  unfold proxySelfHostedRequest, relayTarget. unfold bind at 1. unfold lift.
  destruct (new_URL_base _ _) as [target|e|]; cbn; try (now rewrite app_nil_r).
  run_js. cbn. destruct (net _ _) as [reason|delay r|]; reflexivity.
Qed.

Lemma websocket_fetched (config : SelfHostedConfig) (request : Request.t)
      (tr : option Transform) (net : Network) (st : St) :
  fetched (snd (proxySelfHostedWebSocket config request tr net st))
  = (fetched st ++ match relayTarget (wsUrl config) request with
                   | Ok target => [upgradeFetch config request target]
                   | _ => []
                   end)%list.
Proof.
  destruct (relayTarget (wsUrl config) request) as [target|e|] eqn:Ht.
  - destruct (net (List.length (fetched st)) (upgradeFetch config request target))
      as [reason|delay r|] eqn:Hn.
    + unfold relayTarget in Ht. unfold proxySelfHostedWebSocket.
      unfold bind at 1. unfold lift. rewrite Ht. run_js. cbn. rewrite Hn. reflexivity.
    + rewrite (websocket_run config request tr net st target delay r Ht Hn).
      destruct (answerUpgrade_settles r tr (Url.host (Request.url request)) net
                  {| console := (console st
                                   ++ [(LogLevel, ["[SelfHosted] Proxying WebSocket:";
                                                   Url.pathname target])])%list;
                     fetched := (fetched st ++ [upgradeFetch config request target])%list;
                     clientWs := fresh_socket; serverWs := fresh_socket;
                     backendWs := backendWs st |}) as (resp & st' & E & Hf).
      rewrite E. exact Hf.
    + unfold relayTarget in Ht. unfold proxySelfHostedWebSocket.
      unfold bind at 1. unfold lift. rewrite Ht. run_js. cbn. rewrite Hn. reflexivity.
  - unfold relayTarget in Ht. unfold proxySelfHostedWebSocket.
    unfold bind at 1. unfold lift. rewrite Ht. cbn. now rewrite app_nil_r.
  - unfold relayTarget in Ht. unfold proxySelfHostedWebSocket.
    unfold bind at 1. unfold lift. rewrite Ht. cbn. now rewrite app_nil_r.
Qed.

Lemma exec_fetched (JSON_parse : string -> option Json.t) (config : SelfHostedConfig)
      (command : string) (timeout : option Z) (net : Network) (st : St) :
  fetched (snd (executeSelfHostedCommand JSON_parse config command timeout net st))
  = (fetched st
       ++ [execFetch config command match timeout with Some t => t | None => 20000%Z end])%list.
Proof.
  unfold executeSelfHostedCommand. run_js. cbn [f_signal execFetch fetched logged].
  destruct (net _ _) as [reason|delay r|]; cbn; try reflexivity.
  destruct (delay <? _)%Z; cbn; [|reflexivity].
  destruct (Response.ok r); cbn; [|reflexivity].
  unfold response_json. destruct (JSON_parse _); reflexivity.
Qed.

(** C10 (as amended).  With no auth token in the config, none of the four
    backend-bound operations adds an [X-Internal-Auth] header: the probe
    sends no header at all, the exec bridge sends [Content-Type] only,
    the WebSocket relay sends the headers of the inbound request as they
    are, and the HTTP relay sends them with the [Host] header removed and
    every other header, a client-supplied [X-Internal-Auth] included,
    readable as in the inbound request.  These are the headers of every
    request that the operations send. *)
Theorem C10_no_token_no_auth_header
        (JSON_parse : string -> option Json.t)
        (config : SelfHostedConfig) (request : Request.t)
        (command : string) (timeout : option Z) (net : Network) (st : St) :
  authToken config = None ->
  (* what each operation puts in its request *)
  f_headers (healthFetch config) = []
  /\ (forall t, f_headers (execFetch config command t) = [("content-type", "application/json")])
  /\ upgradeHeaders config request = Request.headers request
  /\ Headers.get (proxyHeaders config request) "X-Internal-Auth"
     = Headers.get (Request.headers request) "X-Internal-Auth"
  /\ (forall name, JS.toLowerCase name <> "host" ->
        Headers.get (proxyHeaders config request) name
        = Headers.get (Request.headers request) name)
  /\ Headers.get (proxyHeaders config request) "host" = None
  (* and these requests are all that is sent *)
  /\ fetched (snd (checkSelfHostedHealth config net st))
     = (fetched st ++ [healthFetch config])%list
  /\ fetched (snd (executeSelfHostedCommand JSON_parse config command timeout net st))
     = (fetched st
          ++ [execFetch config command match timeout with Some t => t | None => 20000%Z end])%list
  /\ (forall tr i,
        In i (fetched (snd (proxySelfHostedWebSocket config request tr net st))) ->
        In i (fetched st) \/ f_headers i = Request.headers request)
  /\ (forall i,
        In i (fetched (snd (proxySelfHostedRequest config request net st))) ->
        In i (fetched st) \/ f_headers i = proxyHeaders config request).
Proof.
  intros Hnone.
  assert (Ht : JS.truthy (authToken config) = false) by (rewrite Hnone; reflexivity).
  destruct (proxyHeaders_without_token config request Ht) as [Hhost Hother].
  assert (Hup : upgradeHeaders config request = Request.headers request).
  { unfold upgradeHeaders. rewrite Ht. reflexivity. }
  split; [unfold healthFetch, buildAuthHeaders; cbn; now rewrite Ht|].
  split; [intros t; unfold execFetch; cbn; now rewrite Ht|].
  split; [exact Hup|].
  split; [apply Hother; simpl; discriminate|].
  split; [exact Hother|]. split; [exact Hhost|].
  split.
  { destruct (health_effect config net st) as (b & s & E & Hf & _). now rewrite E. }
  split; [apply exec_fetched|]. split.
  - intros tr i. rewrite websocket_fetched. intros Hin. apply in_app_or in Hin.
    destruct Hin as [Hin|Hin]; [now left|right].
    destruct (relayTarget _ _); simpl in Hin; try contradiction.
    destruct Hin as [<-|[]]. exact Hup.
  - intros i. rewrite proxy_fetched. intros Hin. apply in_app_or in Hin.
    destruct Hin as [Hin|Hin]; [now left|right].
    destruct (relayTarget _ _); simpl in Hin; try contradiction.
    destruct Hin as [<-|[]]. reflexivity.
Qed.

(** C10, the claim as stated fails: the HTTP relay does not forward the
    inbound headers unchanged, it drops [Host]. *)
Lemma C10_counterexample :
  authToken relayConfig = None
  /\ Request.headers spoofingRequest
     = [("host", "worker.example"); ("x-internal-auth", "from-client")]
  /\ map f_headers (fetched (snd (proxySelfHostedRequest relayConfig spoofingRequest okNet idle)))
     = [[("x-internal-auth", "from-client")]]
  /\ proxyHeaders relayConfig spoofingRequest <> Request.headers spoofingRequest.
Proof. repeat split. discriminate. Qed.

(** ** The HTTP relay *)

(** Unless the reference starts with two slashes, the resolved URL stays
    on the scheme and the host of the base. *)
Lemma resolve_keeps_host (rel base : string) (b : Url.URL) :
  Url.parse base = Some b ->
  JS.startsWith rel "//" = false ->
  exists u, Url.resolve rel base = Some u
            /\ Url.protocol u = Url.protocol b /\ Url.host u = Url.host b.
Proof.
  intros Hb Hrel. unfold Url.resolve. rewrite Hb, Hrel.
  destruct (Url.parse_tail rel) as [[text q] f].
  destruct text as [|c t]; [|destruct (Ascii.eqb c "/")]; eexists; repeat split.
Qed.

Lemma relay_target_on_backend (config : SelfHostedConfig) (request : Request.t)
      (b : Url.URL) :
  Url.parse (baseUrl config) = Some b ->
  JS.startsWith (Url.pathname (Request.url request) ++ Url.search (Request.url request))
                "//" = false ->
  exists target,
    relayTarget (baseUrl config) request = Ok target
    /\ Url.protocol target = Url.protocol b /\ Url.host target = Url.host b.
Proof.
  intros Hb Hrel. unfold relayTarget, new_URL_base.
  destruct (resolve_keeps_host _ _ b Hb Hrel) as (u & -> & Hp & Hh). eauto.
Qed.

(** X5.  What the relay forwards once the target URL is built and the
    backend answers: the method and the body of the inbound request, no
    [Host] header, redirects left to the caller, and the status, status
    text and body of the upstream response. *)
Lemma proxy_forwarding (config : SelfHostedConfig) (request : Request.t)
      (net : Network) (st : St) (target : Url.URL) (delay : Z) (r : Response.t) :
  relayTarget (baseUrl config) request = Ok target ->
  net (List.length (fetched st)) (proxyFetch config request target) = Replies delay r ->
  exists resp st',
    proxySelfHostedRequest config request net st = (Ok resp, st')
    /\ Response.status resp = Response.status r
    /\ Response.statusText resp = Response.statusText r
    /\ Response.body resp = Response.body r
    /\ fetched st' = (fetched st ++ [proxyFetch config request target])%list
    /\ f_url (proxyFetch config request target) = Url.href target
    /\ f_method (proxyFetch config request target) = Request.method request
    /\ f_body (proxyFetch config request target) = Request.body request
    /\ f_redirect (proxyFetch config request target) = Manual
    /\ Headers.get (f_headers (proxyFetch config request target)) "host" = None.
Proof.
  unfold relayTarget. intros Ht Hn.
  unfold proxySelfHostedRequest. unfold bind at 1. unfold lift. rewrite Ht.
  run_js. cbn. rewrite Hn. eexists _, _. repeat split.
  unfold proxyHeaders, Headers.copy.
  destruct (JS.truthy (Headers.get _ "Cookie")).
  - rewrite get_set_other by (simpl; discriminate). apply get_delete_same.
  - apply get_delete_same.
Qed.

(** C7, at the failing input.  The path and query of the inbound request
    are [//evil.example/x]; joined to the base they would give
    [https://x.example.com//evil.example/x], but the relay resolves them
    as a scheme-relative reference and calls [https://evil.example/x],
    a host that is not the backend, with the internal token and the
    cookies of the caller attached. *)
Theorem C7_double_slash_leaves_backend :
  let st' := snd (proxySelfHostedRequest tokenConfig doubleSlashRequest okNet idle) in
  Url.pathname (Request.url doubleSlashRequest) ++ Url.search (Request.url doubleSlashRequest)
  = "//evil.example/x"
  /\ map f_url (fetched st') = ["https://evil.example/x"]
  /\ map f_url (fetched st')
     <> [baseUrl tokenConfig ++ Url.pathname (Request.url doubleSlashRequest)
                 ++ Url.search (Request.url doubleSlashRequest)]
  /\ map f_headers (fetched st')
     = [[("cookie", "session=1"); ("x-internal-auth", "s3cret")]].
Proof. cbv zeta. repeat split. vm_compute. discriminate. Qed.

(** Scenario C: path [/foo?x=1] against base [https://x.example.com]. *)
Example proxy_scenario_C :
  let run := proxySelfHostedRequest relayConfig spoofingRequest
               (fun _ _ => Replies 20 (statusOnly 404)) idle in
  map f_url (fetched (snd run)) = ["https://x.example.com/foo?x=1"]
  /\ (exists resp, fst run = Ok resp /\ Response.status resp = 404%Z).
Proof. cbv zeta. split; [reflexivity|]. eexists. split; reflexivity. Qed.

(** The body of scenario D, character by character. *)
Example echo_body_text :
  let q := String JS.dquote "" in
  echoBody = "{" ++ q ++ "stdout" ++ q ++ ":" ++ q ++ "hi\n" ++ q ++ ","
                 ++ q ++ "stderr" ++ q ++ ":" ++ q ++ q ++ ","
                 ++ q ++ "exitCode" ++ q ++ ":0}".
Proof. reflexivity. Qed.

(** With a base URL that has a path, the probe keeps that path and the
    relay drops it. *)
Example proxy_drops_base_path :
  f_url (healthFetch prefixedConfig) = "https://x.example.com/moltbot/health"
  /\ map f_url (fetched (snd (proxySelfHostedRequest prefixedConfig spoofingRequest okNet idle)))
     = ["https://x.example.com/foo?x=1"].
Proof. split; reflexivity. Qed.

(** ** The properties at sample inputs *)


(** C2 on a session whose transform throws on every frame. *)
Lemma C2_witness :
  established (Some throwingTransform) "worker.example" (sessionWith (Some throwingTransform))
  /\ throwingTransform "hello" "worker.example"
     = Threw (mkExn "SyntaxError" "malformed content")
  /\ exists st',
       dispatch BackendWs (MessageEvent (Text "hello")) upgradingNet
                (sessionWith (Some throwingTransform)) = (Ok tt, st')
       /\ serverWs st' = serverWs (sessionWith (Some throwingTransform)).
Proof.
  assert (He : established (Some throwingTransform) "worker.example"
                           (sessionWith (Some throwingTransform)))
    by (split; reflexivity).
  split; [exact He|]. split; [reflexivity|].
  destruct (C2_transform_throws (fun _ => None) throwingTransform "worker.example" "hello"
              (mkExn "SyntaxError" "malformed content") upgradingNet
              (sessionWith (Some throwingTransform)) He eq_refl)
    as (_ & (st' & Hd & _ & Hs & _) & _).
  exists st'. split; assumption.
Defined.

(** C3 for a browser request while the backend refuses connections. *)
Lemma C3_witness :
  let config := mkConfig "https://x.example.com" "wss://x.example.com" None in
  let st' := healthFailed (requested idle (healthFetch config)) "connection refused" in
  buildSelfHostedConfig (selfhostedEnv "https://x.example.com/") = Ok (Some config)
  /\ checkSelfHostedHealth config refusingNet idle = (Ok false, st')
  /\ catch_all (fun _ => None) "<html>loading</html>"
               (selfhostedEnv "https://x.example.com/") rootRequest refusingNet idle
     = (Ok (c_html "<html>loading</html>" 200), st')
  /\ map f_url (fetched st') = ["https://x.example.com/health"].
Proof.
  cbv zeta.
  destruct (C3_health_gate (fun _ => None) "<html>loading</html>"
              (selfhostedEnv "https://x.example.com/") rootRequest
              (mkConfig "https://x.example.com" "wss://x.example.com" None)
              refusingNet idle _ false eq_refl eq_refl) as [H _].
  destruct (H eq_refl) as (Hrun & _).
  split; [reflexivity|]. split; [reflexivity|]. split; [exact Hrun|reflexivity].
Defined.

(** C5 for a backend that answers the upgrade request with 200. *)
Lemma C5_witness :
  relayTarget (wsUrl relayConfig) upgradeRequest
  = Ok (Url.mkURL "wss:" "x.example.com" "/ws" None None)
  /\ (Response.status (statusOnly 200) <> 101%Z \/ Response.webSocket (statusOnly 200) = None)
  /\ exists resp st',
       proxySelfHostedWebSocket relayConfig upgradeRequest None plainNet idle = (Ok resp, st')
       /\ Response.status resp = 502%Z
       /\ listeners (serverWs st') = []
       /\ listeners (backendWs st') = [].
Proof.
  assert (Hbad : Response.status (statusOnly 200) <> 101%Z
                 \/ Response.webSocket (statusOnly 200) = None)
    by (right; reflexivity).
  split; [reflexivity|]. split; [exact Hbad|].
  destruct (C5_upgrade_refused relayConfig upgradeRequest None plainNet idle
              (Url.mkURL "wss:" "x.example.com" "/ws" None None) 5 (statusOnly 200)
              eq_refl eq_refl Hbad)
    as (resp & st' & Hrun & Hst & _ & _ & _ & Hl & _ & _ & _ & Hb & _).
  exists resp, st'. repeat split; try assumption. rewrite Hb. reflexivity.
Defined.

(** C10 for an inbound request that carries its own [X-Internal-Auth]. *)
Lemma C10_witness :
  authToken relayConfig = None
  /\ Headers.get (proxyHeaders relayConfig spoofingRequest) "X-Internal-Auth"
     = Headers.get (Request.headers spoofingRequest) "X-Internal-Auth"
  /\ upgradeHeaders relayConfig spoofingRequest = Request.headers spoofingRequest.
Proof.
  destruct (C10_no_token_no_auth_header (fun _ => None) relayConfig spoofingRequest
              "echo hi" None okNet idle eq_refl) as (_ & _ & Hup & Hauth & _).
  split; [reflexivity|]. split; assumption.
Defined.

(* ================================================================== *)
(** * Further properties of the relay layer *)
(* ================================================================== *)

(** ** The internal token *)

(** X1.  With a non-empty token in the config, every backend-bound
    request carries it as [X-Internal-Auth]: the probe and the exec
    bridge set it, and both relays overwrite whatever the inbound request
    brought under that name, so a caller cannot choose the value that the
    backend sees. *)
Theorem X1_token_overrides_client_header
        (config : SelfHostedConfig) (request : Request.t) (token : string) :
  authToken config = Some token ->
  token <> "" ->
  Headers.get (proxyHeaders config request) "X-Internal-Auth" = Some token
  /\ Headers.get (upgradeHeaders config request) "X-Internal-Auth" = Some token
  /\ Headers.get (f_headers (healthFetch config)) "X-Internal-Auth" = Some token
  /\ forall command t,
       Headers.get (f_headers (execFetch config command t)) "X-Internal-Auth" = Some token.
Proof.
  intros Htok Hne.
  assert (Ht : JS.truthy (authToken config) = true).
  { rewrite Htok. simpl. destruct (String.eqb_spec token ""); [contradiction|reflexivity]. }
  assert (Hv : value (authToken config) = token) by (rewrite Htok; reflexivity).
  repeat split.
  - unfold proxyHeaders, Headers.copy. rewrite Ht, Hv.
    destruct (JS.truthy (Headers.get _ "Cookie")).
    + rewrite get_set_other by (simpl; discriminate).
      rewrite get_delete_other by (simpl; discriminate). apply get_set_same.
    + rewrite get_delete_other by (simpl; discriminate). apply get_set_same.
  - unfold upgradeHeaders, Headers.copy. rewrite Ht, Hv. apply get_set_same.
  - unfold healthFetch, buildAuthHeaders. cbn [f_headers]. rewrite Ht, Hv. reflexivity.
  - intros command t. unfold execFetch. cbn [f_headers]. rewrite Ht, Hv. reflexivity.
Qed.

(** X1 for a caller that sends its own [X-Internal-Auth]. *)
Lemma X1_witness :
  authToken tokenConfig = Some "s3cret"
  /\ "s3cret" <> ""
  /\ Headers.get (Request.headers spoofingRequest) "X-Internal-Auth" = Some "from-client"
  /\ Headers.get (proxyHeaders tokenConfig spoofingRequest) "X-Internal-Auth" = Some "s3cret".
Proof.
  assert (Hne : "s3cret" <> "") by discriminate.
  destruct (X1_token_overrides_client_header tokenConfig spoofingRequest "s3cret"
              eq_refl Hne) as (H & _).
  split; [reflexivity|]. split; [exact Hne|]. split; [reflexivity|exact H].
Defined.

(** ** Failures of the HTTP relay *)

(** X2.  Once the target URL is built, the HTTP relay never throws.  A
    refused connection becomes a 502 response whose JSON body carries
    [error] and the message of the failure as [details], after one error
    line on the console; the call has no deadline, so it stays pending
    exactly when the backend never answers. *)
Theorem X2_proxy_never_throws_after_target
        (config : SelfHostedConfig) (request : Request.t)
        (net : Network) (st : St) (target : Url.URL) :
  relayTarget (baseUrl config) request = Ok target ->
  let answer := net (List.length (fetched st)) (proxyFetch config request target) in
  let run := proxySelfHostedRequest config request net st in
  (forall e, fst run <> Threw e)
  /\ (fst run = Pending <-> answer = Silent)
  /\ (forall reason, answer = Refuses reason ->
        fst run = Ok (connectionFailed "Failed to connect to self-hosted server"
                                       (mkExn "TypeError" reason))
        /\ console (snd run)
           = (console st
                ++ [(LogLevel, ["[SelfHosted] Proxying HTTP:"; Request.method request;
                                Url.pathname target]);
                    (ErrorLevel, ["[SelfHosted] Proxy error:"; reason])])%list)
  /\ (forall err,
        Response.status (connectionFailed "Failed to connect to self-hosted server" err) = 502%Z
        /\ Response.body (connectionFailed "Failed to connect to self-hosted server" err)
           = Some (Json.stringify
                     (JObj [("error", JStr "Failed to connect to self-hosted server");
                            ("details", JStr (exn_message err))]))).
Proof.
  unfold relayTarget. intros Ht. cbv zeta.
  unfold proxySelfHostedRequest. unfold bind at 1. unfold lift. rewrite Ht.
  run_js. cbn.
  destruct (net _ _) as [reason|delay r|]; cbn.
  - split; [discriminate|]. split; [split; discriminate|]. split.
    + intros reason' H. inversion H; subst. rewrite <- app_assoc. split; reflexivity.
    + intros err. split; reflexivity.
  - split; [discriminate|]. split; [split; discriminate|]. split.
    + intros reason' H. discriminate.
    + intros err. split; reflexivity.
  - split; [discriminate|]. split; [split; reflexivity|]. split.
    + intros reason' H. discriminate.
    + intros err. split; reflexivity.
Qed.

(** X2 for a backend that refuses the connection. *)
Lemma X2_witness :
  relayTarget (baseUrl relayConfig) spoofingRequest
  = Ok (Url.mkURL "https:" "x.example.com" "/foo" (Some "x=1") None)
  /\ fst (proxySelfHostedRequest relayConfig spoofingRequest refusingNet idle)
     = Ok (connectionFailed "Failed to connect to self-hosted server"
                            (mkExn "TypeError" "connection refused")).
Proof.
  destruct (X2_proxy_never_throws_after_target relayConfig spoofingRequest refusingNet idle
              (Url.mkURL "https:" "x.example.com" "/foo" (Some "x=1") None) eq_refl)
    as (_ & _ & H & _).
  split; [reflexivity|]. apply (H "connection refused" eq_refl).
Defined.

(** X3.  The response of the HTTP relay carries the two diagnostic
    headers, [X-Worker-Debug] and [X-Debug-Path] (the path of the inbound
    request), whatever the backend sent under these names; every other
    header reads as in the upstream response, and a socket that the
    upstream response may carry is not passed on. *)
Theorem X3_proxy_response_headers
        (config : SelfHostedConfig) (request : Request.t)
        (net : Network) (st : St) (target : Url.URL) (delay : Z) (r : Response.t) :
  relayTarget (baseUrl config) request = Ok target ->
  net (List.length (fetched st)) (proxyFetch config request target) = Replies delay r ->
  exists resp st',
    proxySelfHostedRequest config request net st = (Ok resp, st')
    /\ Headers.get (Response.headers resp) "X-Worker-Debug" = Some "proxy-to-selfhosted"
    /\ Headers.get (Response.headers resp) "X-Debug-Path"
       = Some (Url.pathname (Request.url request))
    /\ (forall name,
          JS.toLowerCase name <> "x-worker-debug" ->
          JS.toLowerCase name <> "x-debug-path" ->
          Headers.get (Response.headers resp) name = Headers.get (Response.headers r) name)
    /\ Response.webSocket resp = None.
Proof.
  unfold relayTarget. intros Ht Hn.
  unfold proxySelfHostedRequest. unfold bind at 1. unfold lift. rewrite Ht.
  run_js. cbn. rewrite Hn. eexists _, _. split; [reflexivity|]. cbn.
  unfold Headers.copy. split; [|split; [|split]].
  - rewrite get_set_other by (simpl; discriminate). apply get_set_same.
  - apply get_set_same.
  - intros name H1 H2. rewrite get_set_other by (simpl; exact H2).
    apply get_set_other. simpl. exact H1.
  - reflexivity.
Qed.

(** X3 for an upstream answer with a [Content-Type]. *)
Lemma X3_witness :
  exists resp st',
    proxySelfHostedRequest relayConfig spoofingRequest jsonNet idle = (Ok resp, st')
    /\ Headers.get (Response.headers resp) "X-Debug-Path" = Some "/foo"
    /\ Headers.get (Response.headers resp) "Content-Type" = Some "application/json".
Proof.
  destruct (X3_proxy_response_headers relayConfig spoofingRequest jsonNet idle
              (Url.mkURL "https:" "x.example.com" "/foo" (Some "x=1") None) 20
              (Response.mk 200 "OK" [("content-type", "application/json")] (Some "{}") None)
              eq_refl eq_refl)
    as (resp & st' & E & _ & Hp & Hother & _).
  exists resp, st'. split; [exact E|]. split; [exact Hp|].
  rewrite Hother; [reflexivity| |]; discriminate.
Defined.

(** ** Failures of the WebSocket relay *)

(** X6.  Once the target URL is built, the WebSocket relay never throws.
    A refused connection becomes a 502 response with a JSON body, both
    ends of the pair stay without listeners and the backend socket is
    untouched; the upgrade request has no deadline, so the relay stays
    pending exactly when the backend never answers. *)
Theorem X6_websocket_never_throws_after_target
        (config : SelfHostedConfig) (request : Request.t) (tr : option Transform)
        (net : Network) (st : St) (target : Url.URL) :
  relayTarget (wsUrl config) request = Ok target ->
  let answer := net (List.length (fetched st)) (upgradeFetch config request target) in
  let run := proxySelfHostedWebSocket config request tr net st in
  (forall e, fst run <> Threw e)
  /\ (fst run = Pending <-> answer = Silent)
  /\ (forall reason, answer = Refuses reason ->
        fst run = Ok (connectionFailed "Failed to establish WebSocket connection"
                                       (mkExn "TypeError" reason))
        /\ serverWs (snd run) = fresh_socket
        /\ clientWs (snd run) = fresh_socket
        /\ backendWs (snd run) = backendWs st).
Proof.
  intros Ht. cbv zeta.
  destruct (net (List.length (fetched st)) (upgradeFetch config request target))
    as [reason|delay r|] eqn:Hn.
  - unfold relayTarget in Ht. unfold proxySelfHostedWebSocket.
    unfold bind at 1. unfold lift. rewrite Ht. run_js. cbn. rewrite Hn. cbn.
    split; [discriminate|]. split; [split; discriminate|].
    intros reason' H. inversion H; subst. repeat split.
  - rewrite (websocket_run config request tr net st target delay r Ht Hn).
    match goal with
    | |- context [answerUpgrade r tr ?h net ?s] =>
        destruct (answerUpgrade_settles r tr h net s) as (resp & st' & E & _)
    end.
    rewrite E. cbn. split; [discriminate|]. split; [split; discriminate|].
    intros reason H. discriminate.
  - unfold relayTarget in Ht. unfold proxySelfHostedWebSocket.
    unfold bind at 1. unfold lift. rewrite Ht. run_js. cbn. rewrite Hn. cbn.
    split; [discriminate|]. split; [split; reflexivity|].
    intros reason H. discriminate.
Qed.

(** X6 for a backend that refuses the connection. *)
Lemma X6_witness :
  relayTarget (wsUrl relayConfig) upgradeRequest
  = Ok (Url.mkURL "wss:" "x.example.com" "/ws" None None)
  /\ fst (proxySelfHostedWebSocket relayConfig upgradeRequest None refusingNet idle)
     = Ok (connectionFailed "Failed to establish WebSocket connection"
                            (mkExn "TypeError" "connection refused")).
Proof.
  destruct (X6_websocket_never_throws_after_target relayConfig upgradeRequest None
              refusingNet idle (Url.mkURL "wss:" "x.example.com" "/ws" None None) eq_refl)
    as (_ & _ & H).
  split; [reflexivity|]. apply (H "connection refused" eq_refl).
Defined.

(** ** Frames on an established session *)

(** X8.  On an established session a frame of the client goes to the
    backend as it is when the backend socket is open and is dropped
    otherwise; a binary frame of the backend goes to the client as it is,
    transform or not; a text frame of the backend goes to the client as
    the transform returns it (as it is when there is no transform); in
    each case only when the receiving socket is open, and the socket on
    which the frame arrived receives no call. *)
Theorem X8_frame_relay
        (tr : option Transform) (host : string) (net : Network) (st : St) :
  established tr host st ->
  (forall data, exists st',
      dispatch ServerWs (MessageEvent data) net st = (Ok tt, st')
      /\ calls (backendWs st')
         = (calls (backendWs st)
              ++ if is_OPEN (readyState (backendWs st)) then [Send data] else [])%list
      /\ calls (serverWs st') = calls (serverWs st))
  /\ (forall bytes, exists st',
         dispatch BackendWs (MessageEvent (Binary bytes)) net st = (Ok tt, st')
         /\ calls (serverWs st')
            = (calls (serverWs st)
                 ++ if is_OPEN (readyState (serverWs st)) then [Send (Binary bytes)] else [])%list
         /\ calls (backendWs st') = calls (backendWs st))
  /\ (forall text,
         let out := match tr with
                    | Some f => f text host
                    | None => Ok text
                    end in
         forall text', out = Ok text' ->
         exists st',
           dispatch BackendWs (MessageEvent (Text text)) net st = (Ok tt, st')
           /\ calls (serverWs st')
              = (calls (serverWs st)
                   ++ if is_OPEN (readyState (serverWs st)) then [Send (Text text')] else [])%list
           /\ calls (backendWs st') = calls (backendWs st)).
Proof.
  intros [Hs Hb]. split; [|split].
  - intros data. unfold dispatch. cbn [socket]. rewrite Hs. cbn. run_js. cbn.
    destruct (readyState (backendWs st)); cbn; eexists; repeat split;
      now rewrite ?app_nil_r.
  - intros bytes. unfold dispatch. cbn [socket]. rewrite Hb. cbn. run_js. cbn.
    destruct tr; cbn;
      destruct (readyState (serverWs st)); cbn; eexists; repeat split;
        now rewrite ?app_nil_r.
  - intros text out text' Hout. subst out.
    unfold dispatch. cbn [socket]. rewrite Hb. cbn. run_js. cbn.
    destruct tr as [f|]; cbn.
    + rewrite Hout. cbn.
      destruct (readyState (serverWs st)); cbn; eexists; repeat split;
        now rewrite ?app_nil_r.
    + inversion Hout; subst.
      destruct (readyState (serverWs st)); cbn; eexists; repeat split;
        now rewrite ?app_nil_r.
Qed.

(** X8 on a fresh session: a binary frame passes a throwing transform. *)
Lemma X8_witness :
  established (Some throwingTransform) "worker.example" (sessionWith (Some throwingTransform))
  /\ exists st',
       dispatch BackendWs (MessageEvent (Binary [])) upgradingNet
                (sessionWith (Some throwingTransform)) = (Ok tt, st')
       /\ calls (serverWs st') = [Accept; Send (Binary [])].
Proof.
  assert (He : established (Some throwingTransform) "worker.example"
                           (sessionWith (Some throwingTransform)))
    by (split; reflexivity).
  split; [exact He|].
  destruct (X8_frame_relay (Some throwingTransform) "worker.example" upgradingNet
              (sessionWith (Some throwingTransform)) He) as (_ & Hbin & _).
  destruct (Hbin []) as (st' & E & Hc & _).
  exists st'. split; [exact E|]. rewrite Hc. reflexivity.
Defined.

Lemma quiet_refl (s : Sock) (st : St) :
  readyState (socket st s) <> OPEN -> quiet s st st.
Proof. intros H. split; [exact H|]. exists []. now rewrite app_nil_r. Qed.

Lemma quiet_trans (s : Sock) (a b c : St) : quiet s a b -> quiet s b c -> quiet s a c.
Proof.
  intros [_ (m1 & E1 & N1)] [H (m2 & E2 & N2)]. split; [exact H|].
  exists (m1 ++ m2)%list. rewrite E2, E1, <- app_assoc. split; [reflexivity|].
  rewrite existsb_app, N1, N2. reflexivity.
Qed.

Ltac quiet_now :=
  unfold quiet; cbn in *; split;
  [ congruence
  | first [ exists []; cbn; rewrite ?app_nil_r; split; reflexivity
          | eexists [_]; cbn; split; reflexivity ] ].

Lemma fire_quiet (l : Listener) (e : Event) (net : Network) (st : St) (s : Sock) :
  readyState (socket st s) <> OPEN -> quiet s st (snd (fire l e net st)).
Proof.
  intros Hs.
  destruct l as [h|tr host|h| |h| ]; destruct e as [d|code reason|];
    try (apply quiet_refl; exact Hs); cbn; run_js; cbn.
  - destruct h, s; cbn in *;
      match goal with
      | |- context [readyState ?w] => destruct (readyState w) eqn:?
      end; cbn; try congruence; quiet_now.
  - destruct d as [t|b], tr as [f|]; cbn; try destruct (f t host); cbn;
      try (destruct s; quiet_now);
      destruct s; cbn in *;
        destruct (readyState (serverWs st)) eqn:?; cbn; try congruence; quiet_now.
  - destruct (close_code_accepted code); destruct h, s; cbn in *; quiet_now.
  - destruct (close_code_accepted code); destruct s; cbn in *; quiet_now.
  - destruct h, s; cbn in *; quiet_now.
  - destruct s; cbn in *; quiet_now.
Qed.

Lemma logged_quiet (s : Sock) (st st' : St) (lvl : Level) (args : list string) :
  quiet s st st' -> quiet s st (logged st' lvl args).
Proof. unfold quiet. destruct s; cbn; auto. Qed.

Lemma run_listeners_quiet (ls : list (EventType * Listener)) (e : Event)
      (net : Network) (s : Sock) (st : St) :
  readyState (socket st s) <> OPEN -> quiet s st (snd (run_listeners ls e net st)).
Proof.
  revert st. induction ls as [|[ty l] rest IH]; intros st Hs;
    [apply quiet_refl; exact Hs|].
  cbn [run_listeners]. unfold bind at 1.
  destruct (event_type_eqb ty (event_type e)).
  - unfold try_catch.
    pose proof (fire_quiet l e net st s Hs) as Hf.
    destruct (fire l e net st) as [[[]|ex|] st1]; cbn [snd] in *.
    + apply (quiet_trans s st st1); [exact Hf|]. apply IH. apply Hf.
    + unfold console_error, write_console. cbn.
      pose proof (logged_quiet s st st1 ErrorLevel ["Uncaught"; exn_message ex] Hf) as Hl.
      apply (quiet_trans s st _ _ Hl). apply IH. apply Hl.
    + exact Hf.
  - cbn. apply IH. exact Hs.
Qed.

Lemma deliver_quiet (events : list (Sock * Event)) (net : Network) (s : Sock) (st : St) :
  readyState (socket st s) <> OPEN -> quiet s st (snd (deliver events net st)).
Proof.
  revert st. induction events as [|[s0 e] rest IH]; intros st Hs;
    [apply quiet_refl; exact Hs|].
  cbn [deliver]. unfold bind at 1.
  pose proof (run_listeners_quiet (listeners (socket st s0)) e net s st Hs) as Hd.
  fold (dispatch s0 e net st) in Hd.
  destruct (dispatch s0 e net st) as [[[]|ex|] st1]; cbn [snd] in *;
    try exact Hd.
  apply (quiet_trans s st st1); [exact Hd|]. apply IH. apply Hd.
Qed.

Lemma deliver_keeps_established (tr : option Transform) (host : string)
      (events : list (Sock * Event)) (net : Network) (st : St) :
  established tr host st -> established tr host (snd (deliver events net st)).
Proof.
  revert st. induction events as [|[s e] rest IH]; intros st He; [exact He|].
  cbn [deliver]. unfold bind at 1.
  pose proof (dispatch_keeps_established tr host s e net st He) as Hd.
  destruct (dispatch s e net st) as [[[]|ex|] st1]; cbn [snd] in *; auto.
Qed.

(** The codes that every implementation accepts are accepted here. *)
Lemma valid_close_code_accepted (code : Z) :
  valid_close_code code = true -> close_code_accepted code = true.
Proof.
  unfold valid_close_code, close_code_accepted. intros H.
  apply orb_true_iff in H. destruct H as [H | H].
  - apply Z.eqb_eq in H. subst code. reflexivity.
  - apply andb_true_iff in H. destruct H as [H1 H2].
    apply Z.leb_le in H1. apply Z.leb_le in H2.
    repeat (apply andb_true_iff; split);
      first [ apply Z.leb_le; lia | apply Z.ltb_lt; lia
            | apply negb_true_iff, Z.eqb_neq; lia ].
Qed.

(** X9.  After a close event on one side of an established session the
    relay has called [close] on the other side, and from then on it never
    sends a frame to that side again, whatever events follow: every later
    call on that socket is another [close].  The code of the event is
    one that [close] accepts from a caller, so that the call leaves the
    socket closing. *)
Theorem X9_no_frame_after_close
        (tr : option Transform) (host : string) (net : Network) (st : St)
        (code : Z) (reason : string) (events : list (Sock * Event)) :
  established tr host st ->
  valid_close_code code = true ->
  (let st1 := snd (dispatch ServerWs (CloseEvent code reason) net st) in
   let st2 := snd (deliver events net st1) in
   exists more,
     calls (backendWs st2) = (calls (backendWs st) ++ Close code reason :: more)%list
     /\ existsb is_send more = false)
  /\ (let st1 := snd (dispatch BackendWs (CloseEvent code reason) net st) in
      let st2 := snd (deliver events net st1) in
      exists more,
        calls (serverWs st2) = (calls (serverWs st) ++ Close code reason :: more)%list
        /\ existsb is_send more = false).
Proof.
  intros He Hv. cbv zeta.
  apply valid_close_code_accepted in Hv.
  destruct (close_and_error_propagation tr host net st He) as (Hclient & Hbackend & _).
  split.
  - destruct (Hclient code reason Hv) as (st1 & E & Hc & Hr & _). rewrite E. cbn [snd].
    destruct (deliver_quiet events net BackendWs st1) as [_ (more & Hm & Hn)].
    { cbn. rewrite Hr. discriminate. }
    exists more. cbn in Hm. rewrite Hm, Hc, <- app_assoc. auto.
  - destruct (Hbackend code reason Hv) as (st1 & E & Hc & Hr & _). rewrite E. cbn [snd].
    destruct (deliver_quiet events net ServerWs st1) as [_ (more & Hm & Hn)].
    { cbn. rewrite Hr. discriminate. }
    exists more. cbn in Hm. rewrite Hm, Hc, <- app_assoc. auto.
Qed.

(** X9 on a fresh session: the client closes, then sends, then the
    backend errors. *)
Lemma X9_witness :
  established None "worker.example" (sessionWith None)
  /\ valid_close_code 1000 = true
  /\ calls (backendWs
              (snd (deliver [(ServerWs, MessageEvent (Text "late")); (ServerWs, ErrorEvent)]
                            upgradingNet
                            (snd (dispatch ServerWs (CloseEvent 1000 "bye") upgradingNet
                                           (sessionWith None))))))
     = [Accept; Close 1000 "bye"; Close 1011 "Client error"].
Proof.
  assert (He : established None "worker.example" (sessionWith None))
    by (split; reflexivity).
  split; [exact He|]. split; [reflexivity|].
  destruct (X9_no_frame_after_close None "worker.example" upgradingNet (sessionWith None)
              1000 "bye" [(ServerWs, MessageEvent (Text "late")); (ServerWs, ErrorEvent)] He
              eq_refl)
    as ((more & Hm & _) & _).
  reflexivity.
Defined.

Lemma fire_keeps_fetched (l : Listener) (e : Event) (net : Network) (st : St) :
  fetched (snd (fire l e net st)) = fetched st.
Proof.
  destruct l as [h|tr host|h| |h| ]; destruct e as [d|code reason|]; try reflexivity;
    cbn; run_js; cbn.
  - destruct h; cbn;
      match goal with
      | |- context [readyState ?w] => destruct (readyState w)
      end; reflexivity.
  - destruct d as [t|b], tr as [f|]; cbn;
      try destruct (f t host); cbn; try reflexivity;
      destruct (readyState (serverWs st)); reflexivity.
  - destruct (close_code_accepted code); destruct h; reflexivity.
  - destruct (close_code_accepted code); reflexivity.
  - destruct h; reflexivity.
Qed.

Lemma run_listeners_keeps_fetched (ls : list (EventType * Listener)) (e : Event)
      (net : Network) (st : St) :
  fetched (snd (run_listeners ls e net st)) = fetched st.
Proof.
  revert st. induction ls as [|[ty l] rest IH]; intros st; [reflexivity|].
  cbn [run_listeners]. unfold bind at 1.
  destruct (event_type_eqb ty (event_type e)).
  - unfold try_catch.
    pose proof (fire_keeps_fetched l e net st) as Hf.
    destruct (fire l e net st) as [[[]|ex|] st1]; cbn [snd] in *.
    + rewrite IH. exact Hf.
    + unfold console_error, write_console. cbn. rewrite IH. exact Hf.
    + exact Hf.
  - cbn. apply IH.
Qed.

(** X10.  No event changes the listeners of a socket: whatever sequence
    of events is delivered, to whichever sockets, every socket keeps the
    listeners it had, an established session stays established, and the
    relay sends no request to the backend. *)
Theorem X10_events_change_no_listener
        (events : list (Sock * Event)) (net : Network) (st : St) :
  let st' := snd (deliver events net st) in
  (forall s, listeners (socket st' s) = listeners (socket st s))
  /\ (forall tr host, established tr host st -> established tr host st')
  /\ fetched st' = fetched st.
Proof.
  cbv zeta. revert st. induction events as [|[s0 e] rest IH]; intros st.
  - split; [reflexivity|]. split; [auto|reflexivity].
  - cbn [deliver]. unfold bind.
    pose proof (fun s => run_listeners_keeps (listeners (socket st s0)) e net s st) as Hl.
    pose proof (run_listeners_keeps_fetched (listeners (socket st s0)) e net st) as Hf.
    pose proof (fun tr host => dispatch_keeps_established tr host s0 e net st) as He.
    fold (dispatch s0 e net st) in Hl, Hf.
    destruct (dispatch s0 e net st) as [[[]|ex|] st1]; cbn [snd] in *;
      try (split; [exact Hl|]; split; [exact He|exact Hf]).
    destruct (IH st1) as (IH1 & IH2 & IH3).
    split; [|split].
    + intros s. rewrite IH1. apply Hl.
    + intros tr host H. apply IH2, He, H.
    + rewrite IH3. exact Hf.
Qed.

(** ** Outcomes of the exec bridge *)

(** X11.  The exec bridge returns a value exactly when the backend
    answers before the deadline with a success status and a body that
    parses as JSON, and the value is that JSON.  It never stays pending.
    Every failure is logged once and thrown again unchanged: a refused
    connection as the TypeError of [fetch], a late or missing answer as
    a TimeoutError, an unparsable body as a SyntaxError. *)
Theorem X11_exec_outcomes
        (JSON_parse : string -> option Json.t)
        (config : SelfHostedConfig) (command : string) (timeout : option Z)
        (net : Network) (st : St) :
  let timeoutMs := match timeout with Some t => t | None => 20000%Z end in
  let init := execFetch config command timeoutMs in
  let answer := net (List.length (fetched st)) init in
  let run := executeSelfHostedCommand JSON_parse config command timeout net st in
  (forall j, fst run = Ok j <->
             exists delay r,
               answer = Replies delay r /\ (delay < timeoutMs + 5000)%Z
               /\ Response.ok r = true /\ JSON_parse (Response.text r) = Some j)
  /\ fst run <> Pending
  /\ (forall e, fst run = Threw e ->
        console (snd run)
        = (console st
             ++ [(LogLevel, ["[SelfHosted] Executing command:"; command]);
                 (ErrorLevel, ["[SelfHosted] Command execution error:"; exn_message e])])%list)
  /\ (forall reason, answer = Refuses reason -> fst run = Threw (mkExn "TypeError" reason))
  /\ (answer = Silent -> fst run = Threw TimeoutError)
  /\ (forall delay r, answer = Replies delay r -> (timeoutMs + 5000 <= delay)%Z ->
        fst run = Threw TimeoutError)
  /\ (forall delay r, answer = Replies delay r -> (delay < timeoutMs + 5000)%Z ->
        Response.ok r = true -> JSON_parse (Response.text r) = None ->
        fst run = Threw SyntaxError).
Proof.
  cbv zeta. set (timeoutMs := match timeout with Some t => t | None => 20000%Z end).
  unfold executeSelfHostedCommand. fold timeoutMs. run_js.
  cbn [f_signal execFetch fetched logged].
  destruct (net _ _) as [reason|delay r|] eqn:Hn; cbn.
  - repeat split; try discriminate; try (intros; discriminate).
    + intros (d & r & H & _). discriminate.
    + intros e H. inversion H; subst. rewrite <- app_assoc. reflexivity.
    + intros reason' H. inversion H; subst. reflexivity.
  - destruct (delay <? timeoutMs + 5000)%Z eqn:Hd; cbn.
    + apply Z.ltb_lt in Hd.
      destruct (Response.ok r) eqn:Hok; cbn.
      * unfold response_json. destruct (JSON_parse (Response.text r)) as [j0|] eqn:Hj; cbn.
        -- repeat split; try discriminate; try (intros; discriminate).
           ++ intros H. inversion H; subst. exists delay, r. auto.
           ++ intros (d & r' & H & _ & _ & Hj'). inversion H; subst. congruence.
           ++ intros d r' H Hle. inversion H; subst. lia.
           ++ intros d r' H _ _ Hj'. inversion H; subst. congruence.
        -- repeat split; try discriminate; try (intros; discriminate).
           ++ intros (d & r' & H & _ & _ & Hj'). inversion H; subst. congruence.
           ++ intros e H. inversion H; subst. rewrite <- app_assoc. reflexivity.
           ++ intros d r' H Hle. inversion H; subst. lia.
      * repeat split; try discriminate; try (intros; discriminate).
        -- intros (d & r' & H & _ & Hok' & _). inversion H; subst. congruence.
        -- intros e H. inversion H; subst. rewrite <- app_assoc. reflexivity.
        -- intros d r' H Hle. inversion H; subst. lia.
        -- intros d r' H _ Hok' _. inversion H; subst. congruence.
    + apply Z.ltb_ge in Hd.
      repeat split; try discriminate; try (intros; discriminate).
      * intros (d & r' & H & Hlt & _). inversion H; subst. lia.
      * intros e H. inversion H; subst. rewrite <- app_assoc. reflexivity.
      * intros d r' H Hlt. inversion H; subst. lia.
  - repeat split; try discriminate; try (intros; discriminate).
    + intros (d & r & H & _). discriminate.
    + intros e H. inversion H; subst. rewrite <- app_assoc. reflexivity.
Qed.

(** ** The public status routes with a config *)

(** X12.  When the resolver yields a config, [/api/status] and
    [/sandbox-health] answer 200 whatever the backend does, after exactly
    one probe whose result they report in the body ([ok] with [running]
    or [not_responding]; [ok] or [unhealthy]).  When the resolver throws,
    both routes throw the same error: the call of the resolver is outside
    their [try] blocks. *)
Theorem X12_public_status_routes
        (MOLTBOT_PORT : Z) (env : MoltbotEnv) (net : Network) (st : St) :
  (forall config, buildSelfHostedConfig env = Ok (Some config) ->
     exists healthy st',
       checkSelfHostedHealth config net st = (Ok healthy, st')
       /\ fetched st' = (fetched st ++ [healthFetch config])%list
       /\ api_status env net st
          = (Ok (c_json (JObj [("ok", JBool healthy);
                               ("status", JStr (if healthy then "running" else "not_responding"));
                               ("mode", JStr "selfhosted");
                               ("url", JStr (baseUrl config))]) 200), st')
       /\ sandbox_health MOLTBOT_PORT env net st
          = (Ok (c_json (JObj [("status", JStr (if healthy then "ok" else "unhealthy"));
                               ("service", JStr "moltbot-selfhosted");
                               ("gateway_port", JNum MOLTBOT_PORT);
                               ("selfhosted_url", JStr (baseUrl config))]) 200), st'))
  /\ (forall e, buildSelfHostedConfig env = Threw e ->
        api_status env net st = (Threw e, st)
        /\ sandbox_health MOLTBOT_PORT env net st = (Threw e, st)).
Proof.
  split.
  - intros config Hc.
    destruct (health_effect config net st) as (b & st' & E & Hf & _).
    exists b, st'. split; [exact E|]. split; [exact Hf|]. split.
    + unfold api_status. unfold bind at 1. unfold lift. rewrite Hc.
      unfold try_catch. unfold bind at 1. rewrite E. destruct b; reflexivity.
    + unfold sandbox_health. unfold bind at 1. unfold lift. rewrite Hc.
      unfold bind at 1. rewrite E. reflexivity.
  - intros e He. split.
    + unfold api_status. unfold bind at 1. unfold lift. rewrite He. reflexivity.
    + unfold sandbox_health. unfold bind at 1. unfold lift. rewrite He. reflexivity.
Qed.

(** X12 for a backend that refuses connections. *)
Lemma X12_witness :
  buildSelfHostedConfig (selfhostedEnv "https://x.example.com/") = Ok (Some relayConfig)
  /\ exists resp st',
       sandbox_health 18789 (selfhostedEnv "https://x.example.com/") refusingNet idle
       = (Ok resp, st')
       /\ Response.status resp = 200%Z.
Proof.
  destruct (X12_public_status_routes 18789 (selfhostedEnv "https://x.example.com/")
              refusingNet idle) as (H & _).
  destruct (H relayConfig eq_refl) as (healthy & st' & _ & _ & _ & Hs).
  split; [reflexivity|]. eexists _, st'. split; [exact Hs|reflexivity].
Defined.

(** ** The rewrite of gateway errors *)

Lemma lookup_update_same (k : string) (v : Json.t) (fields : list (string * Json.t)) :
  Json.lookup k (Json.update k v fields) = Some v.
Proof.
  induction fields as [|[k' v'] r IH]; simpl.
  - now rewrite String.eqb_refl.
  - destruct (String.eqb_spec k' k) as [->|N]; simpl.
    + now rewrite String.eqb_refl.
    + destruct (String.eqb_spec k' k); [contradiction|exact IH].
Qed.

Lemma lookup_update_other (k k0 : string) (v : Json.t) (fields : list (string * Json.t)) :
  k0 <> k -> Json.lookup k0 (Json.update k v fields) = Json.lookup k0 fields.
Proof.
  intros N. induction fields as [|[k' v'] r IH]; simpl.
  - destruct (String.eqb_spec k k0); [congruence|reflexivity].
  - destruct (String.eqb_spec k' k) as [->|N']; simpl.
    + destruct (String.eqb_spec k k0); [congruence|reflexivity].
    + destruct (String.eqb_spec k' k0); [reflexivity|exact IH].
Qed.

Lemma update_keeps_keys (k : string) (v : Json.t) (fields : list (string * Json.t)) :
  Json.lookup k fields <> None ->
  map fst (Json.update k v fields) = map fst fields.
Proof.
  induction fields as [|[k' v'] r IH]; simpl; [congruence|].
  destruct (String.eqb_spec k' k) as [->|N]; simpl; [reflexivity|].
  intros H. now rewrite IH.
Qed.

(** X13.  The rewrite callback of the catch-all route returns the frame
    byte for byte when its JSON has no truthy [error.message].  When
    [error.message] is a non-empty string the frame is serialised again
    with that one member replaced and every other member, and the order
    of the keys, kept.  The replacement is the token hint when the
    message mentions a missing or mismatching gateway token, the pairing
    hint when it mentions a required pairing (the token hint wins when
    both apply), and the message itself otherwise; both hints name the
    host of the inbound request. *)
Theorem X13_gateway_error_rewrite
        (JSON_parse : string -> option Json.t) (message host : string) :
  (forall parsed,
      JSON_parse message = Some parsed ->
      (errorMessageOf parsed = None
       \/ exists v, errorMessageOf parsed = Some v /\ js_truthy v = false) ->
      rewriteGatewayError JSON_parse message host = Ok message)
  /\ (forall fields efields m,
        JSON_parse message = Some (JObj fields) ->
        Json.lookup "error" fields = Some (JObj efields) ->
        Json.lookup "message" efields = Some (JStr m) ->
        m <> "" ->
        exists fields' efields',
          rewriteGatewayError JSON_parse message host = Ok (Json.stringify (JObj fields'))
          /\ Json.lookup "error" fields' = Some (JObj efields')
          /\ Json.lookup "message" efields' = Some (JStr (transformErrorMessage m host))
          /\ (forall k, k <> "error" -> Json.lookup k fields' = Json.lookup k fields)
          /\ (forall k, k <> "message" -> Json.lookup k efields' = Json.lookup k efields)
          /\ map fst fields' = map fst fields
          /\ map fst efields' = map fst efields)
  /\ (forall m,
        (JS.includes m "gateway token missing" = true
         \/ JS.includes m "gateway token mismatch" = true ->
         transformErrorMessage m host
         = "Invalid or missing token. Visit https://" ++ host
             ++ "?token={REPLACE_WITH_YOUR_TOKEN}")
        /\ (JS.includes m "gateway token missing" = false ->
            JS.includes m "gateway token mismatch" = false ->
            JS.includes m "pairing required" = true ->
            transformErrorMessage m host
            = "Pairing required. Visit https://" ++ host ++ "/_admin/")
        /\ (JS.includes m "gateway token missing" = false ->
            JS.includes m "gateway token mismatch" = false ->
            JS.includes m "pairing required" = false ->
            transformErrorMessage m host = m)).
Proof.
  split; [|split].
  - intros parsed Hp Hnone. unfold rewriteGatewayError. rewrite Hp.
    unfold errorMessageOf in Hnone.
    destruct parsed as [| | | | |fields]; try reflexivity.
    destruct (Json.lookup "error" fields) as [[| | | | |efields]|]; try reflexivity.
    destruct (Json.lookup "message" efields) as [v|]; [|reflexivity].
    destruct Hnone as [H|(v' & H & Hf)]; [discriminate|].
    inversion H; subst. rewrite Hf. reflexivity.
  - intros fields efields m Hp He Hm Hne. unfold rewriteGatewayError.
    rewrite Hp, He, Hm. cbn [js_truthy transformErrorValue].
    destruct (String.eqb_spec m ""); [contradiction|]. cbn [negb].
    eexists _, _. split; [reflexivity|].
    split; [apply lookup_update_same|]. split; [apply lookup_update_same|].
    split; [intros k Hk; apply lookup_update_other; exact Hk|].
    split; [intros k Hk; apply lookup_update_other; exact Hk|].
    split; apply update_keeps_keys; congruence.
  - intros m. unfold transformErrorMessage, errorHint. repeat split.
    + intros [H|H]; rewrite H; [reflexivity|].
      destruct (JS.includes m "gateway token missing"); reflexivity.
    + intros H1 H2 H3. rewrite H1, H2, H3. reflexivity.
    + intros H1 H2 H3. rewrite H1, H2, H3. reflexivity.
Qed.

(** X13 for the frame of a gateway that asks for pairing. *)
Lemma X13_witness :
  exists fields' efields',
    rewriteGatewayError parsePairing "frame" "worker.example"
    = Ok (Json.stringify (JObj fields'))
    /\ Json.lookup "error" fields' = Some (JObj efields')
    /\ Json.lookup "message" efields'
       = Some (JStr "Pairing required. Visit https://worker.example/_admin/")
    /\ Json.lookup "id" fields' = Some (JNum 7).
Proof.
  assert (Hne : "pairing required" <> "") by discriminate.
  destruct (X13_gateway_error_rewrite parsePairing "frame" "worker.example")
    as (_ & H & _).
  destruct (H [("id", JNum 7); ("error", JObj [("message", JStr "pairing required")])]
              [("message", JStr "pairing required")] "pairing required"
              eq_refl eq_refl eq_refl Hne)
    as (fields' & efields' & E & He & Hm & Hk & _).
  exists fields', efields'. split; [exact E|]. split; [exact He|]. split; [exact Hm|].
  rewrite Hk; [reflexivity|discriminate].
Defined.
(* ================================================================== *)
(** * Further properties of the routes *)
(* ================================================================== *)

(** ** The target of the relays *)

(** X4.  When the backend URLs of the config parse as base URLs (valid
    URLs without an opaque path) and the path of the inbound request
    does not start with two slashes, each relay sends its one request to
    a URL on the scheme and the host of its backend URL, whatever the
    path, the query and the answer of the network. *)
Theorem X4_relays_stay_on_backend
        (config : SelfHostedConfig) (request : Request.t) (tr : option Transform)
        (net : Network) (st : St) (b w : Url.URL) :
  Url.parse (baseUrl config) = Some b ->
  Url.parse (wsUrl config) = Some w ->
  JS.startsWith (Url.pathname (Request.url request) ++ Url.search (Request.url request))
                "//" = false ->
  (exists target,
     fetched (snd (proxySelfHostedRequest config request net st))
     = (fetched st ++ [proxyFetch config request target])%list
     /\ f_url (proxyFetch config request target) = Url.href target
     /\ Url.protocol target = Url.protocol b /\ Url.host target = Url.host b)
  /\ (exists target,
        fetched (snd (proxySelfHostedWebSocket config request tr net st))
        = (fetched st ++ [upgradeFetch config request target])%list
        /\ f_url (upgradeFetch config request target) = Url.href target
        /\ Url.protocol target = Url.protocol w /\ Url.host target = Url.host w).
Proof.
  intros Hb Hw Hrel. split.
  - destruct (resolve_keeps_host _ _ b Hb Hrel) as (u & Hu & Hp & Hh).
    exists u. rewrite proxy_fetched. unfold relayTarget, new_URL_base. rewrite Hu.
    repeat split; assumption.
  - destruct (resolve_keeps_host _ _ w Hw Hrel) as (u & Hu & Hp & Hh).
    exists u. rewrite websocket_fetched. unfold relayTarget, new_URL_base. rewrite Hu.
    repeat split; assumption.
Qed.

Lemma X4_witness :
  Url.parse (baseUrl relayConfig) = Some (Url.mkURL "https:" "x.example.com" "/" None None)
  /\ exists target,
       fetched (snd (proxySelfHostedRequest relayConfig spoofingRequest refusingNet idle))
       = [proxyFetch relayConfig spoofingRequest target]
       /\ Url.host target = "x.example.com".
Proof.
  destruct (X4_relays_stay_on_backend relayConfig spoofingRequest None refusingNet idle
              (Url.mkURL "https:" "x.example.com" "/" None None)
              (Url.mkURL "wss:" "x.example.com" "/" None None)
              eq_refl eq_refl eq_refl) as ((target & Hf & _ & _ & Hh) & _).
  split; [reflexivity|]. exists target. split; [exact Hf|exact Hh].
Defined.

(** ** The relays on sample answers *)

Lemma proxy_forwarding_witness :
  relayTarget (baseUrl relayConfig) spoofingRequest
  = Ok (Url.mkURL "https:" "x.example.com" "/foo" (Some "x=1") None)
  /\ exists resp st',
       proxySelfHostedRequest relayConfig spoofingRequest jsonNet idle = (Ok resp, st')
       /\ Response.status resp = 200%Z
       /\ Response.body resp = Some "{}".
Proof.
  destruct (proxy_forwarding relayConfig spoofingRequest jsonNet idle
              (Url.mkURL "https:" "x.example.com" "/foo" (Some "x=1") None) 20
              (Response.mk 200 "OK" [("content-type", "application/json")] (Some "{}") None)
              eq_refl eq_refl)
    as (resp & st' & E & Hs & _ & Hb & _).
  split; [reflexivity|]. exists resp, st'. split; [exact E|].
  split; [exact Hs|exact Hb].
Defined.

(** ** Text between braces *)

Lemma from_first_none (c : ascii) (s : string) :
  from_first c s = None <-> lacks c s = true.
Proof.
  unfold lacks. induction s as [|a t IH]; simpl.
  - split; reflexivity.
  - destruct (Ascii.eqb a c); simpl.
    + split; discriminate.
    + exact IH.
Qed.

Lemma from_first_some (c : ascii) (s t : string) :
  from_first c s = Some t <->
  exists pre rest, s = pre ++ String c rest /\ lacks c pre = true /\ t = String c rest.
Proof.
  unfold lacks. revert t. induction s as [|a s IH]; intros t; simpl.
  - split; [discriminate|].
    intros (pre & rest & H & _). destruct pre; discriminate.
  - destruct (Ascii.eqb a c) eqn:E.
    + apply Ascii.eqb_eq in E. subst a. split.
      * intros H. inversion H; subst. exists "", s. repeat split.
      * intros (pre & rest & H & Hl & ->). destruct pre as [|b pre]; simpl in *.
        -- inversion H; subst. reflexivity.
        -- inversion H; subst. rewrite Ascii.eqb_refl in Hl. discriminate.
    + rewrite IH. split.
      * intros (pre & rest & -> & Hl & ->). exists (String a pre), rest.
        simpl. rewrite E. simpl. repeat split. exact Hl.
      * intros (pre & rest & H & Hl & ->). destruct pre as [|b pre]; simpl in *.
        -- inversion H; subst. rewrite Ascii.eqb_refl in E. discriminate.
        -- inversion H; subst. apply andb_true_iff in Hl. destruct Hl as [_ Hl].
           exists pre, rest. repeat split. exact Hl.
Qed.

Lemma to_last_none (c : ascii) (s : string) :
  to_last c s = None <-> lacks c s = true.
Proof.
  unfold lacks. induction s as [|a t IH]; simpl.
  - split; reflexivity.
  - destruct (to_last c t) as [p|].
    + split; [discriminate|]. intros H. apply andb_true_iff in H. destruct H as [_ H].
      apply IH in H. discriminate.
    + destruct (Ascii.eqb a c); simpl.
      * split; discriminate.
      * split; intros _; [apply IH|]; reflexivity.
Qed.

Lemma to_last_app (c : ascii) (mid post : string) :
  lacks c post = true ->
  to_last c (mid ++ String c post) = Some (mid ++ String c "").
Proof.
  intros Hl. induction mid as [|a mid IH]; simpl.
  - apply to_last_none in Hl. rewrite Hl, Ascii.eqb_refl. reflexivity.
  - rewrite IH. reflexivity.
Qed.

Lemma to_last_some (c : ascii) (s p : string) :
  to_last c s = Some p <->
  exists mid post, s = mid ++ String c post /\ lacks c post = true
                   /\ p = mid ++ String c "".
Proof.
  split.
  - revert p. induction s as [|a s IH]; intros p; simpl; [discriminate|].
    destruct (to_last c s) as [q|] eqn:E.
    + intros H. inversion H; subst.
      destruct (IH q eq_refl) as (mid & post & -> & Hl & ->).
      exists (String a mid), post. repeat split. exact Hl.
    + destruct (Ascii.eqb a c) eqn:Ea; [|discriminate].
      apply Ascii.eqb_eq in Ea. subst a. intros H. inversion H; subst.
      exists "", s. repeat split. apply to_last_none. exact E.
  - intros (mid & post & -> & Hl & ->). apply to_last_app. exact Hl.
Qed.

Lemma matchBraces_some (s m : string) :
  matchBraces s = Some m <->
  exists pre mid post,
    s = pre ++ "{" ++ mid ++ "}" ++ post
    /\ lacks "{" pre = true /\ lacks "}" post = true
    /\ m = "{" ++ mid ++ "}".
Proof.
  unfold matchBraces. split.
  - destruct (from_first "{" s) as [t|] eqn:E; [|discriminate].
    apply from_first_some in E. destruct E as (pre & rest & -> & Hpre & ->).
    intros H. apply to_last_some in H. destruct H as (mid & post & H & Hpost & ->).
    destruct mid as [|a mid]; simpl in H; inversion H; subst.
    exists pre, mid, post. repeat split; assumption.
  - intros (pre & mid & post & -> & Hpre & Hpost & ->).
    assert (E : from_first "{" (pre ++ "{" ++ mid ++ "}" ++ post)
                = Some ("{" ++ mid ++ "}" ++ post)).
    { apply from_first_some. exists pre, (mid ++ "}" ++ post). repeat split. exact Hpre. }
    rewrite E. apply (to_last_app "}" (String "{" mid) post Hpost).
Qed.

(** X14.  The text that the device routes take out of the output of
    the CLI starts at the first opening brace and ends at the last
    closing brace after it: the output splits into a part without an
    opening brace, the match, and a part without a closing brace.  There
    is no match exactly when the output has no opening brace, or no
    closing brace after the first opening one. *)
Theorem X14_matchBraces_spec (s : string) :
  (forall m, matchBraces s = Some m <->
     exists pre mid post,
       s = pre ++ "{" ++ mid ++ "}" ++ post
       /\ lacks "{" pre = true /\ lacks "}" post = true
       /\ m = "{" ++ mid ++ "}")
  /\ (matchBraces s = None <->
      lacks "{" s = true
      \/ exists pre rest, s = pre ++ "{" ++ rest
                          /\ lacks "{" pre = true /\ lacks "}" rest = true).
Proof.
  split.
  - intros m. apply matchBraces_some.
  - unfold matchBraces. split.
      + destruct (from_first "{" s) as [t|] eqn:E.
        * apply from_first_some in E. destruct E as (pre & rest & -> & Hpre & ->).
          intros H. right. exists pre, rest. repeat split; [exact Hpre|].
          apply to_last_none in H. unfold lacks in *. simpl in H. exact H.
        * intros _. left. apply from_first_none. exact E.
      + intros [H | (pre & rest & -> & Hpre & Hrest)].
        * apply from_first_none in H. rewrite H. reflexivity.
        * assert (E : from_first "{" (pre ++ "{" ++ rest) = Some ("{" ++ rest)).
          { apply from_first_some. exists pre, rest. repeat split. exact Hpre. }
          rewrite E. apply to_last_none. unfold lacks in *. simpl. exact Hrest.
  Qed.

(** ** The admin routes *)

(** The exec bridge settles, sends exactly its own request and touches
    no socket. *)
Lemma exec_settles (JSON_parse : string -> option Json.t)
      (config : SelfHostedConfig) (command : string) (timeoutMs : Z)
      (net : Network) (st : St) :
  exists res st',
    executeSelfHostedCommand JSON_parse config command (Some timeoutMs) net st = (res, st')
    /\ res <> Pending
    /\ fetched st' = (fetched st ++ [execFetch config command timeoutMs])%list
    /\ clientWs st' = clientWs st /\ serverWs st' = serverWs st
    /\ backendWs st' = backendWs st.
Proof.
  unfold executeSelfHostedCommand. run_js. cbn [f_signal execFetch fetched logged].
  destruct (net _ _) as [reason|delay r|]; cbn.
  - eexists _, _. repeat split. discriminate.
  - destruct (delay <? timeoutMs + 5000)%Z; cbn.
    + destruct (Response.ok r); cbn.
      * unfold response_json. destruct (JSON_parse _); cbn;
          eexists _, _; repeat split; discriminate.
      * eexists _, _. repeat split. discriminate.
    + eexists _, _. repeat split. discriminate.
  - eexists _, _. repeat split. discriminate.
Qed.

(** X15.  Without a config no admin handler reaches the backend: each
    of the seven answers 503 with the same JSON body, sends no request
    and writes no line to the console.  On the mounted route that answer
    is what the caller gets when the environment middleware lets the
    request through (development mode, or none of the four required
    settings missing) and the two access gates pass it on.  When the
    middleware is in force and a required setting is missing, it answers
    first, with its own 503 and one error line, and neither the gates
    nor the handler run; an answer of an access gate likewise ends the
    request before the handler. *)
Theorem X15_admin_routes_unconfigured
        (JSON_parse : string -> option Json.t) (configErrorHtml : string)
        (accessMiddleware adminAccess : MoltbotEnv -> Request.t -> M (option Response.t))
        (env : MoltbotEnv) (r2 : StorageEnv) (requestId : JS.ostring)
        (request : Request.t) (handler : M Response.t) (net : Network) (st : St) :
  configured env = false ->
  In handler (adminHandlers JSON_parse env r2 requestId) ->
  let route := admin_route configErrorHtml accessMiddleware adminAccess handler env request in
  (forall s, handler net s = (Ok configurationMissing, s))
  /\ Response.status configurationMissing = 503%Z
  /\ Response.body configurationMissing
     = Some (Json.stringify (JObj [("error", JStr "Self-hosted configuration missing")]))
  /\ (JS.startsWith (Url.pathname (Request.url request)) "/debug" = false ->
      strict_eq (DEV_MODE env) "true" = false ->
      validateRequiredEnv env <> [] ->
      route net st
      = (Ok (configurationError configErrorHtml env request),
         logged (arrived st request) ErrorLevel
                ["[CONFIG] Missing:"; JS.join ", " (validateRequiredEnv env)])
      /\ Response.status (configurationError configErrorHtml env request) = 503%Z
      /\ configurationError configErrorHtml env request <> configurationMissing)
  /\ (strict_eq (DEV_MODE env) "true" = true \/ validateRequiredEnv env = [] ->
      (forall st1 st2,
         accessMiddleware env request net (arrived st request) = (Ok None, st1) ->
         adminAccess env request net st1 = (Ok None, st2) ->
         route net st = (Ok configurationMissing, st2))
      /\ (forall r st1,
            accessMiddleware env request net (arrived st request) = (Ok (Some r), st1) ->
            route net st = (Ok r, st1))
      /\ (forall r st1 st2,
            accessMiddleware env request net (arrived st request) = (Ok None, st1) ->
            adminAccess env request net st1 = (Ok (Some r), st2) ->
            route net st = (Ok r, st2))).
Proof.
  intros Hc Hin. cbv zeta.
  pose proof (resolver_unconfigured env Hc) as R.
  assert (Hall : forall s, handler net s = (Ok configurationMissing, s)).
  { intros s. unfold adminHandlers in Hin. simpl in Hin.
    destruct Hin as [<-|[<-|[<-|[<-|[<-|[<-|[<-|[]]]]]]]];
      unfold admin_devices, admin_approve, admin_approve_all, admin_storage,
        admin_storage_sync, admin_gateway_restart, admin_server_status;
      unfold bind, lift; rewrite R; reflexivity. }
  assert (Hlog : logRequest request net st = (Ok tt, arrived st request)) by reflexivity.
  split; [exact Hall|]. split; [reflexivity|]. split; [reflexivity|]. split.
  - intros Hd Hm Hv.
    pose proof (envMiddleware_missing configErrorHtml env request net (arrived st request)
                                      Hd Hm Hv) as E.
    split; [unfold admin_route; unfold bind at 1; rewrite Hlog;
            unfold bind at 1; rewrite E; reflexivity|].
    unfold configurationError.
    destruct (acceptsHtml request); split; try reflexivity; discriminate.
  - intros Hpass.
    assert (E : envMiddleware configErrorHtml env request net (arrived st request)
                = (Ok None, arrived st request))
      by (apply envMiddleware_passes; tauto).
    repeat split.
    + intros st1 st2 H1 H2. unfold admin_route. unfold bind at 1. rewrite Hlog.
      unfold bind at 1. rewrite E.
      unfold bind at 1. rewrite H1. unfold bind at 1. rewrite H2. apply Hall.
    + intros r st1 H1. unfold admin_route. unfold bind at 1. rewrite Hlog.
      unfold bind at 1. rewrite E.
      unfold bind at 1. rewrite H1. reflexivity.
    + intros r st1 st2 H1 H2. unfold admin_route. unfold bind at 1. rewrite Hlog.
      unfold bind at 1. rewrite E.
      unfold bind at 1. rewrite H1. unfold bind at 1. rewrite H2. reflexivity.
Qed.

(** X15 with every required setting present and another deployment mode:
    the request passes the middleware and gets the 503 of the handler. *)
Lemma X15_witness :
  configured otherModeEnv = false
  /\ In (admin_approve_all (fun _ => None) otherModeEnv)
        (adminHandlers (fun _ => None) otherModeEnv (mkStorageEnv None None None) None)
  /\ validateRequiredEnv otherModeEnv = []
  /\ admin_route "" openGate openGate (admin_approve_all (fun _ => None) otherModeEnv)
                 otherModeEnv devicesRequest refusingNet idle
     = (Ok configurationMissing, arrived idle devicesRequest).
Proof.
  assert (Hin : In (admin_approve_all (fun _ => None) otherModeEnv)
                   (adminHandlers (fun _ => None) otherModeEnv
                                  (mkStorageEnv None None None) None))
    by (right; right; left; reflexivity).
  destruct (X15_admin_routes_unconfigured (fun _ => None) "" openGate openGate otherModeEnv
              (mkStorageEnv None None None) None devicesRequest
              (admin_approve_all (fun _ => None) otherModeEnv) refusingNet idle
              eq_refl Hin)
    as (_ & _ & _ & _ & H).
  destruct (H (or_intror eq_refl)) as (Hroute & _).
  split; [reflexivity|]. split; [exact Hin|]. split; [reflexivity|].
  apply (Hroute (arrived idle devicesRequest) (arrived idle devicesRequest)); reflexivity.
Defined.

Lemma or_default_string (fields : list (string * Json.t)) (k s : string) :
  Json.lookup k fields = Some (JStr s) ->
  or_default (Json.lookup k fields) (JStr "") = JStr s.
Proof.
  intros ->. unfold or_default, js_truthy.
  destruct s; reflexivity.
Qed.

(** X16.  With a config, [GET /api/admin/devices] always answers: it
    sends the list command over the exec bridge with a budget of 20
    seconds and nothing else.  A failure of the bridge, or a result that
    is [null], gives 500 with the message of the error.  When the output
    of the CLI holds text between braces, the answer is that text parsed
    and serialised again, whatever log lines surround it, or the raw
    output with [parseError] when the text does not parse; when it holds
    no opening brace the answer is the raw output with empty lists. *)
Theorem X16_admin_devices
        (JSON_parse : string -> option Json.t) (env : MoltbotEnv)
        (config : SelfHostedConfig) (net : Network) (st : St) :
  buildSelfHostedConfig env = Ok (Some config) ->
  let bridge := executeSelfHostedCommand JSON_parse config listCommand (Some 20000%Z) net st in
  exists resp,
    admin_devices JSON_parse env net st = (Ok resp, snd bridge)
    /\ fetched (snd bridge) = (fetched st ++ [execFetch config listCommand 20000])%list
    /\ (forall e, fst bridge = Threw e -> resp = serverError e)
    /\ (fst bridge = Ok JNull -> resp = serverError (NullProperty "stdout"))
    /\ (forall fields pre mid post,
          fst bridge = Ok (JObj fields) ->
          Json.lookup "stdout" fields = Some (JStr (pre ++ "{" ++ mid ++ "}" ++ post)) ->
          lacks "{" pre = true -> lacks "}" post = true ->
          resp = match JSON_parse ("{" ++ mid ++ "}") with
                 | Some data => c_json data 200
                 | None =>
                     rawOutput (JStr (pre ++ "{" ++ mid ++ "}" ++ post))
                               (or_default (Json.lookup "stderr" fields) (JStr ""))
                               (Some (JStr "Failed to parse CLI output"))
                 end)
    /\ (forall fields s,
          fst bridge = Ok (JObj fields) ->
          Json.lookup "stdout" fields = Some (JStr s) ->
          lacks "{" s = true ->
          resp = rawOutput (JStr s) (or_default (Json.lookup "stderr" fields) (JStr "")) None).
Proof.
  intros Hcfg. cbv zeta.
  destruct (exec_settles JSON_parse config listCommand 20000 net st)
    as (res & st' & E & Hp & Hf & _).
  unfold admin_devices. unfold bind at 1. unfold lift at 1. rewrite Hcfg.
  unfold try_catch at 1. unfold bind at 1. change CLI_TIMEOUT_MS with 20000%Z.
  rewrite E. cbn [fst snd].
  destruct res as [result|e|]; [| |congruence].
  - destruct result as [|b|z|s|items|fields];
      try (unfold bind, lift, ret, try_catch; cbn;
           eexists; split; [reflexivity|]; split; [exact Hf|];
           repeat split; intros; discriminate).
    (* an object *)
    { unfold bind at 1. unfold lift at 1. cbn [member].
      unfold bind at 1. unfold lift at 1.
      unfold try_catch at 1. unfold bind at 1. unfold lift at 1.
      destruct (string_match (or_default (Json.lookup "stdout" fields) (JStr "")))
        as [[text|]|e|] eqn:Em.
      * unfold bind, lift, ret, parse_json.
        destruct (JSON_parse text) as [data|] eqn:Ed.
        -- eexists; split; [reflexivity|]; split; [exact Hf|].
           split; [intros; discriminate|]. split; [intros; discriminate|]. split.
           ++ intros f pre mid post H Hs Hpre Hpost. inversion H; subst f.
              rewrite (or_default_string _ _ _ Hs) in Em. unfold string_match in Em.
              pose proof (proj2 (matchBraces_some (pre ++ "{" ++ mid ++ "}" ++ post)
                                                 ("{" ++ mid ++ "}"))) as Hm.
              assert (Hx : matchBraces (pre ++ "{" ++ mid ++ "}" ++ post)
                           = Some ("{" ++ mid ++ "}")).
              { apply Hm. exists pre, mid, post. repeat split; assumption. }
              rewrite Hx in Em. injection Em as <-.
              change (JSON_parse ("{" ++ mid ++ "}") = Some data) in Ed. rewrite Ed. reflexivity.
           ++ intros f s H Hs Hl. inversion H; subst f.
              rewrite (or_default_string _ _ _ Hs) in Em. unfold string_match in Em.
              unfold matchBraces in Em.
              apply from_first_none in Hl. rewrite Hl in Em. discriminate.
        -- eexists; split; [reflexivity|]; split; [exact Hf|].
           split; [intros; discriminate|]. split; [intros; discriminate|]. split.
           ++ intros f pre mid post H Hs Hpre Hpost. inversion H; subst f.
              rewrite (or_default_string _ _ _ Hs) in Em. unfold string_match in Em.
              pose proof (proj2 (matchBraces_some (pre ++ "{" ++ mid ++ "}" ++ post)
                                                 ("{" ++ mid ++ "}"))) as Hm.
              assert (Hx : matchBraces (pre ++ "{" ++ mid ++ "}" ++ post)
                           = Some ("{" ++ mid ++ "}")).
              { apply Hm. exists pre, mid, post. repeat split; assumption. }
              rewrite Hx in Em. injection Em as <-.
              change (JSON_parse ("{" ++ mid ++ "}") = None) in Ed. rewrite Ed.
              rewrite (or_default_string _ _ _ Hs). reflexivity.
           ++ intros f s H Hs Hl. inversion H; subst f.
              rewrite (or_default_string _ _ _ Hs) in Em. unfold string_match in Em.
              unfold matchBraces in Em.
              apply from_first_none in Hl. rewrite Hl in Em. discriminate.
      * unfold ret.
        eexists; split; [reflexivity|]; split; [exact Hf|].
        split; [intros; discriminate|]. split; [intros; discriminate|]. split.
        -- intros f pre mid post H Hs Hpre Hpost. inversion H; subst f.
           rewrite (or_default_string _ _ _ Hs) in Em. unfold string_match in Em.
           pose proof (proj2 (matchBraces_some (pre ++ "{" ++ mid ++ "}" ++ post)
                                                 ("{" ++ mid ++ "}"))) as Hm.
           assert (Hx : matchBraces (pre ++ "{" ++ mid ++ "}" ++ post)
                        = Some ("{" ++ mid ++ "}")).
           { apply Hm. exists pre, mid, post. repeat split; assumption. }
           rewrite Hx in Em. discriminate.
        -- intros f s H Hs Hl. inversion H; subst f.
           rewrite (or_default_string _ _ _ Hs). reflexivity.
      * unfold ret.
        eexists; split; [reflexivity|]; split; [exact Hf|].
        split; [intros; discriminate|]. split; [intros; discriminate|]. split.
        -- intros f pre mid post H Hs Hpre Hpost. inversion H; subst f.
           rewrite (or_default_string _ _ _ Hs) in Em. unfold string_match in Em. discriminate.
        -- intros f s H Hs Hl. inversion H; subst f.
           rewrite (or_default_string _ _ _ Hs) in Em. unfold string_match in Em. discriminate.
      * exfalso. unfold string_match in Em.
        destruct (or_default _ _); discriminate. }
  - unfold ret. eexists; split; [reflexivity|]; split; [exact Hf|].
    repeat split; intros; try discriminate. inversion H; subst. reflexivity.
Qed.

(** X17.  [POST /api/admin/devices/:requestId/approve] with a config.
    Without a request id it answers 400 and sends nothing.  With one it
    always answers, after one call of the exec bridge whose command holds
    the id as it arrived, between [clawdbot devices approve] and the
    gateway URL; a failure of the bridge gives 500 with its message.  On
    a result of the bridge, [success] is true exactly when the output
    mentions [approved] in any letter case or the exit code is 0, and the
    status is 200 in both cases. *)
Theorem X17_admin_approve
        (JSON_parse : string -> option Json.t) (env : MoltbotEnv)
        (config : SelfHostedConfig) (requestId : JS.ostring) (net : Network) (st : St) :
  buildSelfHostedConfig env = Ok (Some config) ->
  (JS.truthy requestId = false ->
   admin_approve JSON_parse env requestId net st
   = (Ok (c_json (JObj [("error", JStr "requestId is required")]) 400), st))
  /\ (forall id, requestId = Some id -> id <> "" ->
      let command := "clawdbot devices approve " ++ id ++ " --url ws://localhost:18789" in
      let bridge := executeSelfHostedCommand JSON_parse config command (Some 20000%Z) net st in
      exists resp,
        admin_approve JSON_parse env requestId net st = (Ok resp, snd bridge)
        /\ fetched (snd bridge) = (fetched st ++ [execFetch config command 20000])%list
        /\ (forall e, fst bridge = Threw e -> resp = serverError e)
        /\ (forall fields stdout,
              fst bridge = Ok (JObj fields) ->
              or_default (Json.lookup "stdout" fields) (JStr "") = JStr stdout ->
              exists success : bool,
                resp = c_json (JObj [("success", JBool success);
                                     ("requestId", JStr id);
                                     ("message", JStr (if success then "Device approved"
                                                       else "Approval may have failed"));
                                     ("stdout", JStr stdout);
                                     ("stderr", or_default (Json.lookup "stderr" fields)
                                                           (JStr ""))]) 200
                /\ (success = true <->
                    JS.includes (JS.toLowerCase stdout) "approved" = true
                    \/ Json.lookup "exitCode" fields = Some (JNum 0)))).
Proof.
  intros Hcfg. split.
  - intros Hr. unfold admin_approve. unfold bind at 1. unfold lift at 1. rewrite Hcfg.
    rewrite Hr. reflexivity.
  - intros id -> Hid. cbv zeta.
    assert (Ht : JS.truthy (Some id) = true).
    { unfold JS.truthy. destruct (id =? "") eqn:Ei; [|reflexivity].
      apply String.eqb_eq in Ei. contradiction. }
    destruct (exec_settles JSON_parse config
                ("clawdbot devices approve " ++ id ++ " --url ws://localhost:18789")
                20000 net st) as (res & st' & E & Hp & Hf & _).
    unfold admin_approve. unfold bind at 1. unfold lift at 1. rewrite Hcfg, Ht.
    cbn [negb value]. unfold try_catch at 1. unfold bind at 1.
    change CLI_TIMEOUT_MS with 20000%Z. unfold approveCommand.
    rewrite E. cbn [fst snd].
    destruct res as [result|e|]; [| |congruence].
    + destruct result as [|b|z|s|items|fields];
        try (unfold bind, lift, ret, try_catch; cbn;
             eexists; split; [reflexivity|]; split; [exact Hf|];
             repeat split; intros; discriminate).
      unfold bind at 1. unfold lift at 1. cbn [member].
      unfold bind at 1. unfold lift at 1.
      unfold bind at 1. unfold lift at 1.
      destruct (says_approved (or_default (Json.lookup "stdout" fields) (JStr "")))
        as [approved|e|] eqn:Ea.
      * unfold bind, lift, ret.
        eexists; split; [reflexivity|]; split; [exact Hf|].
        split; [intros; discriminate|].
        intros f stdout H Hs. inversion H; subst f. rewrite Hs in *.
        unfold says_approved in Ea. injection Ea as <-.
        eexists. split; [reflexivity|].
        rewrite orb_true_iff. unfold is_zero.
        split; (intros [Hx|Hx]; [left; exact Hx|right]).
        -- destruct (Json.lookup "exitCode" fields) as [[| |z| | |]|]; try discriminate.
           apply Z.eqb_eq in Hx. subst z. reflexivity.
        -- rewrite Hx. reflexivity.
      * unfold ret. eexists; split; [reflexivity|]; split; [exact Hf|].
        split; [intros; discriminate|].
        intros f stdout H Hs. inversion H; subst f. rewrite Hs in Ea. discriminate.
      * exfalso. unfold says_approved in Ea. destruct (or_default _ _); discriminate.
    + unfold ret. eexists; split; [reflexivity|]; split; [exact Hf|].
      split; [|intros; discriminate]. intros e' H. inversion H; subst. reflexivity.
Qed.

Section ApproveAll.

Variable JSON_parse : string -> option Json.t.
Variable config : SelfHostedConfig.

Lemma member_requestId (device : Json.t) :
  is_null device = false -> member device "requestId" = Ok (requestIdOf device).
Proof. destruct device; try reflexivity. discriminate. Qed.

Lemma approveOne_run (device : Json.t) (net : Network) (st : St) :
  is_null device = false ->
  exists r st',
    approveOne JSON_parse config device net st = (Ok r, st')
    /\ requestId r = requestIdOf device
    /\ fetched st' = (fetched st ++ [approvalFetch config device])%list.
Proof.
  intros Hn. unfold approveOne, approvalFetch.
  destruct (exec_settles JSON_parse config
              (approveCommand (to_string (requestIdOf device))) 20000 net st)
    as (res & st' & E & Hp & Hf & _).
  unfold try_catch. unfold bind at 1. unfold lift at 1.
  rewrite (member_requestId device Hn).
  unfold bind at 1. change CLI_TIMEOUT_MS with 20000%Z. rewrite E.
  destruct res as [result|e|]; [| |congruence].
  - unfold bind at 1. unfold lift at 1.
    destruct (approval_succeeded result) as [b|e|] eqn:Ea.
    + unfold ret. eexists _, _. repeat split. exact Hf.
    + unfold bind, lift, ret. eexists _, _. repeat split. exact Hf.
    + exfalso. unfold approval_succeeded, res_bind, member, says_approved in Ea.
      destruct result as [| | | | |fields]; try discriminate;
        try (destruct (is_zero None); discriminate).
      destruct (Json.lookup "stdout" fields) as [[| | |s| |]|]; try discriminate.
      destruct (JS.includes _ _); discriminate.
  - unfold bind, lift, ret. eexists _, _. repeat split. exact Hf.
Qed.

Lemma approveOne_null (net : Network) (st : St) :
  approveOne JSON_parse config JNull net st = (Threw (NullProperty "requestId"), st).
Proof. reflexivity. Qed.

Lemma approveEach_run (devices : list Json.t) :
  forallb (fun d => negb (is_null d)) devices = true ->
  forall (acc : list Approval) (net : Network) (st : St),
  exists results st',
    approveEach JSON_parse config devices acc net st = (Ok (acc ++ results)%list, st')
    /\ map requestId results = map requestIdOf devices
    /\ fetched st' = (fetched st ++ map (approvalFetch config) devices)%list.
Proof.
  induction devices as [|d rest IH]; intros Hall acc net st.
  - exists [], st. simpl. rewrite !app_nil_r. repeat split.
  - simpl in Hall. apply andb_true_iff in Hall. destruct Hall as [Hd Hrest].
    apply negb_true_iff in Hd.
    destruct (approveOne_run d net st Hd) as (r & st1 & E & Hr & Hf).
    destruct (IH Hrest (acc ++ [r])%list net st1) as (results & st' & E' & Hm & Hf').
    exists (r :: results), st'. simpl. unfold bind at 1. rewrite E, E'.
    rewrite <- app_assoc. simpl. repeat split.
    + rewrite Hr, Hm. reflexivity.
    + rewrite Hf', Hf, <- app_assoc. reflexivity.
Qed.

Lemma approveEach_null (ds1 ds2 : list Json.t) :
  forallb (fun d => negb (is_null d)) ds1 = true ->
  forall (acc : list Approval) (net : Network) (st : St),
  exists st',
    approveEach JSON_parse config (ds1 ++ JNull :: ds2) acc net st
    = (Threw (NullProperty "requestId"), st')
    /\ fetched st' = (fetched st ++ map (approvalFetch config) ds1)%list.
Proof.
  induction ds1 as [|d rest IH]; intros Hall acc net st.
  - exists st. simpl. unfold bind at 1. rewrite approveOne_null.
    rewrite app_nil_r. split; reflexivity.
  - simpl in Hall. apply andb_true_iff in Hall. destruct Hall as [Hd Hrest].
    apply negb_true_iff in Hd.
    destruct (approveOne_run d net st Hd) as (r & st1 & E & Hr & Hf).
    destruct (IH Hrest (acc ++ [r])%list net st1) as (st' & E' & Hf').
    exists st'. simpl. unfold bind at 1. rewrite E, E'. split; [reflexivity|].
    rewrite Hf', Hf, <- app_assoc. reflexivity.
Qed.

Lemma approveEach_settles (devices : list Json.t) :
  forall (acc : list Approval) (net : Network) (st : St),
    fst (approveEach JSON_parse config devices acc net st) <> Pending.
Proof.
  induction devices as [|d rest IH]; intros acc net st.
  - simpl. discriminate.
  - simpl. unfold bind at 1.
    destruct (is_null d) eqn:Hd.
    + destruct d; try discriminate Hd. rewrite approveOne_null. simpl. discriminate.
    + destruct (approveOne_run d net st Hd) as (r & st1 & E & _). rewrite E. apply IH.
Qed.

End ApproveAll.

(** X18.  [POST /api/admin/devices/approve-all] with a config always
    answers.  It lists the devices over the exec bridge; a failure there
    gives 500 and no approval is tried, and so does text between braces
    that does not parse.  An empty [pending] list is reported as such
    after that one call.  Otherwise the devices are approved one call
    after the other, in the order of the list and each with its own
    [requestId] in the command; every device ends up in exactly one of
    [approved] and [failed], whatever the bridge answers for it.  A
    [null] entry in the list ends the route with 500, after the devices
    before it have been sent for approval. *)
Theorem X18_admin_approve_all
        (JSON_parse : string -> option Json.t) (env : MoltbotEnv)
        (config : SelfHostedConfig) (net : Network) (st : St) :
  buildSelfHostedConfig env = Ok (Some config) ->
  let bridge := executeSelfHostedCommand JSON_parse config listCommand (Some 20000%Z) net st in
  let listed := (fetched st ++ [execFetch config listCommand 20000])%list in
  exists resp st',
    admin_approve_all JSON_parse env net st = (Ok resp, st')
    /\ (forall e, fst bridge = Threw e -> resp = serverError e /\ fetched st' = listed)
    /\ (forall fields s text,
          fst bridge = Ok (JObj fields) ->
          Json.lookup "stdout" fields = Some (JStr s) ->
          matchBraces s = Some text ->
          (JSON_parse text = None -> resp = parseFailed (JStr s) /\ fetched st' = listed)
          /\ (forall dfields devices,
                JSON_parse text = Some (JObj dfields) ->
                Json.lookup "pending" dfields = Some (JArr devices) ->
                (devices = [] -> resp = nothingPending /\ fetched st' = listed)
                /\ (devices <> [] ->
                    forallb (fun d => negb (is_null d)) devices = true ->
                    exists results,
                      resp = approvalSummary results (JArr devices)
                      /\ map requestId results = map requestIdOf devices
                      /\ fetched st' = (listed ++ map (approvalFetch config) devices)%list
                      /\ (List.length (filter success results)
                          + List.length (filter (fun r => negb (success r)) results)
                          = List.length devices)%nat)
                /\ (forall ds1 ds2,
                      devices = (ds1 ++ JNull :: ds2)%list ->
                      forallb (fun d => negb (is_null d)) ds1 = true ->
                      resp = serverError (NullProperty "requestId")
                      /\ fetched st' = (listed ++ map (approvalFetch config) ds1)%list))).
Proof.
  intros Hcfg. cbv zeta.
  destruct (exec_settles JSON_parse config listCommand 20000 net st)
    as (res & st1 & E & Hp & Hf & _).
  unfold admin_approve_all. unfold bind at 1. unfold lift at 1. rewrite Hcfg.
  unfold try_catch at 1. unfold bind at 1. change CLI_TIMEOUT_MS with 20000%Z.
  rewrite E. cbn [fst snd]. rewrite <- Hf.
  destruct res as [result|e|]; [| |congruence].
  2:{ unfold ret. eexists _, _. split; [reflexivity|]. split.
      - intros e' H. inversion H; subst. split; reflexivity.
      - intros; discriminate. }
  destruct result as [|b|z|s0|items|fields];
    try (unfold bind, lift, ret, try_catch; cbn;
         eexists _, _; split; [reflexivity|]; split; intros; discriminate).
  unfold bind at 1. unfold lift at 1. cbn [member].
  destruct (pendingDevices JSON_parse (or_default (Json.lookup "stdout" fields) (JStr "")))
    as [pending|response] eqn:Epd.
  - destruct (is_zero (length_of pending)) eqn:Ez.
    + unfold ret. eexists _, _. split; [reflexivity|]. split; [intros; discriminate|].
      intros f s text H Hs Hm. inversion H; subst f.
      rewrite (or_default_string _ _ _ Hs) in Epd.
      unfold pendingDevices, string_match, res_bind in Epd. rewrite Hm in Epd.
      unfold parse_json in Epd. split.
      * intros Hn. rewrite Hn in Epd. discriminate.
      * intros dfields devices Hd Hpend. rewrite Hd in Epd. cbn [member] in Epd.
        rewrite Hpend in Epd. unfold or_default, js_truthy in Epd.
        injection Epd as <-. cbn in Ez.
        assert (devices = []) as ->.
        { destruct devices; [reflexivity|]. simpl in Ez. discriminate. }
        split; [intros _; split; reflexivity|]. split.
        -- intros Hne. contradiction.
        -- intros ds1 ds2 Hx. destruct ds1; discriminate.
    + unfold bind at 1. unfold lift at 1.
      destruct (iterate pending) as [devs|e|] eqn:Ei.
      * unfold bind at 1.
        destruct (approveEach JSON_parse config devs [] net st1) as [[results|e|] st2] eqn:Ee.
        -- unfold ret. eexists _, _. split; [reflexivity|]. split; [intros; discriminate|].
           intros f s text H Hs Hm. inversion H; subst f.
           rewrite (or_default_string _ _ _ Hs) in Epd.
           unfold pendingDevices, string_match, res_bind in Epd. rewrite Hm in Epd.
           unfold parse_json in Epd. split.
           ++ intros Hn. rewrite Hn in Epd. discriminate.
           ++ intros dfields devices Hd Hpend. rewrite Hd in Epd. cbn [member] in Epd.
              rewrite Hpend in Epd. unfold or_default, js_truthy in Epd.
              injection Epd as <-. cbn in Ei. injection Ei as <-.
              split; [intros ->; discriminate|]. split.
              ** intros _ Hall.
                 destruct (approveEach_run JSON_parse config devices Hall [] net st1)
                   as (results' & st' & E' & Hmap & Hf').
                 rewrite Ee in E'. simpl in E'. injection E' as <- <-.
                 exists results. repeat split; [exact Hmap|exact Hf'|].
                 rewrite List.filter_length.
                 rewrite <- (length_map requestId results), Hmap, length_map. reflexivity.
              ** intros ds1 ds2 -> Hall.
                 destruct (approveEach_null JSON_parse config ds1 ds2 Hall [] net st1)
                   as (st' & E' & _).
                 rewrite Ee in E'. discriminate.
        -- unfold ret. eexists _, _. split; [reflexivity|]. split; [intros; discriminate|].
           intros f s text H Hs Hm. inversion H; subst f.
           rewrite (or_default_string _ _ _ Hs) in Epd.
           unfold pendingDevices, string_match, res_bind in Epd. rewrite Hm in Epd.
           unfold parse_json in Epd. split.
           ++ intros Hn. rewrite Hn in Epd. discriminate.
           ++ intros dfields devices Hd Hpend. rewrite Hd in Epd. cbn [member] in Epd.
              rewrite Hpend in Epd. unfold or_default, js_truthy in Epd.
              injection Epd as <-. cbn in Ei. injection Ei as <-.
              split; [intros ->; discriminate|]. split.
              ** intros _ Hall.
                 destruct (approveEach_run JSON_parse config devices Hall [] net st1)
                   as (results' & st' & E' & _).
                 rewrite Ee in E'. discriminate.
              ** intros ds1 ds2 -> Hall.
                 destruct (approveEach_null JSON_parse config ds1 ds2 Hall [] net st1)
                   as (st' & E' & Hf').
                 rewrite Ee in E'. injection E' as <- <-. split; [reflexivity|exact Hf'].
        -- exfalso. pose proof (approveEach_settles JSON_parse config devs [] net st1) as Hs.
           rewrite Ee in Hs. apply Hs. reflexivity.
      * unfold ret. eexists _, _. split; [reflexivity|]. split; [intros; discriminate|].
        intros f s text H Hs Hm. inversion H; subst f.
        rewrite (or_default_string _ _ _ Hs) in Epd.
        unfold pendingDevices, string_match, res_bind in Epd. rewrite Hm in Epd.
        unfold parse_json in Epd. split.
        -- intros Hn. rewrite Hn in Epd. discriminate.
        -- intros dfields devices Hd Hpend. rewrite Hd in Epd. cbn [member] in Epd.
           rewrite Hpend in Epd. unfold or_default, js_truthy in Epd.
           injection Epd as <-. discriminate.
      * exfalso. destruct pending; discriminate.
  - unfold ret. eexists _, _. split; [reflexivity|]. split; [intros; discriminate|].
    intros f s text H Hs Hm. inversion H; subst f.
    rewrite (or_default_string _ _ _ Hs) in Epd.
    unfold pendingDevices, string_match, res_bind in Epd. rewrite Hm in Epd.
    unfold parse_json in Epd. split.
    + intros Hn. rewrite Hn in Epd. injection Epd as <-. split; reflexivity.
    + intros dfields devices Hd Hpend. rewrite Hd in Epd. cbn [member] in Epd.
      rewrite Hpend in Epd. discriminate.
Qed.

(** X19.  [GET /api/admin/storage] with a config always answers 200.
    [configured] is true exactly when the three credentials are present
    and not empty.  When one is missing the route sends nothing to the
    backend, [lastSync] is [null] and [missing] lists exactly the absent
    names; when all are present there is no [missing] member and the
    route asks the backend once, with a budget of 5 seconds, for the
    time of the last sync: [lastSync] is the trimmed output when that is
    a non-empty string, and [null] on any failure of the bridge. *)
Theorem X19_admin_storage
        (JSON_parse : string -> option Json.t) (env : MoltbotEnv) (r2 : StorageEnv)
        (config : SelfHostedConfig) (net : Network) (st : St) :
  buildSelfHostedConfig env = Ok (Some config) ->
  let hasCredentials :=
    (JS.truthy (R2_ACCESS_KEY_ID r2) && JS.truthy (R2_SECRET_ACCESS_KEY r2)
     && JS.truthy (CF_ACCOUNT_ID r2))%bool in
  let bridge := executeSelfHostedCommand JSON_parse config lastSyncCommand
                                         (Some 5000%Z) net st in
  exists fields lastSync st',
    admin_storage JSON_parse env r2 net st = (Ok (c_json (JObj fields) 200), st')
    /\ Json.lookup "configured" fields = Some (JBool hasCredentials)
    /\ Json.lookup "lastSync" fields = Some lastSync
    /\ Json.lookup "mode" fields = Some (JStr "selfhosted")
    /\ (hasCredentials = false ->
        st' = st /\ lastSync = JNull
        /\ exists missing,
             Json.lookup "missing" fields = Some (JArr (map JStr missing))
             /\ forall name,
                  In name missing <->
                  (name = "R2_ACCESS_KEY_ID" /\ JS.truthy (R2_ACCESS_KEY_ID r2) = false)
                  \/ (name = "R2_SECRET_ACCESS_KEY"
                      /\ JS.truthy (R2_SECRET_ACCESS_KEY r2) = false)
                  \/ (name = "CF_ACCOUNT_ID" /\ JS.truthy (CF_ACCOUNT_ID r2) = false))
    /\ (hasCredentials = true ->
        st' = snd bridge
        /\ fetched st' = (fetched st ++ [execFetch config lastSyncCommand 5000])%list
        /\ f_signal (execFetch config lastSyncCommand 5000) = Some 10000%Z
        /\ Json.lookup "missing" fields = None
        /\ (forall e, fst bridge = Threw e -> lastSync = JNull)
        /\ (forall rfields s,
              fst bridge = Ok (JObj rfields) ->
              Json.lookup "stdout" rfields = Some (JStr s) ->
              lastSync = if trim s =? "" then JNull else JStr (trim s))).
Proof.
  intros Hcfg. cbv zeta.
  unfold admin_storage. unfold bind at 1. unfold lift at 1. rewrite Hcfg.
  destruct (JS.truthy (R2_ACCESS_KEY_ID r2)) eqn:Ha;
    destruct (JS.truthy (R2_SECRET_ACCESS_KEY r2)) eqn:Hb;
    destruct (JS.truthy (CF_ACCOUNT_ID r2)) eqn:Hc;
    cbn [andb negb app List.length Nat.ltb Nat.leb];
    try (unfold bind, ret; cbn; eexists _, _, _; split; [reflexivity|];
         repeat split; try discriminate;
         first [ exists ["R2_ACCESS_KEY_ID"; "R2_SECRET_ACCESS_KEY"; "CF_ACCOUNT_ID"];
                 split; [reflexivity|]
               | exists ["R2_ACCESS_KEY_ID"; "R2_SECRET_ACCESS_KEY"]; split; [reflexivity|]
               | exists ["R2_ACCESS_KEY_ID"; "CF_ACCOUNT_ID"]; split; [reflexivity|]
               | exists ["R2_SECRET_ACCESS_KEY"; "CF_ACCOUNT_ID"]; split; [reflexivity|]
               | exists ["R2_ACCESS_KEY_ID"]; split; [reflexivity|]
               | exists ["R2_SECRET_ACCESS_KEY"]; split; [reflexivity|]
               | exists ["CF_ACCOUNT_ID"]; split; [reflexivity|] ];
         intros name; simpl; intuition (try discriminate; try congruence; auto)).
  (* all three credentials *)
  destruct (exec_settles JSON_parse config lastSyncCommand 5000 net st)
    as (res & st1 & E & Hp & Hf & _).
  unfold bind at 1. unfold try_catch at 1. unfold bind at 1. rewrite E.
  cbn [fst snd].
  destruct res as [result|e|]; [| |congruence].
  - unfold lift at 1.
    destruct (lastSyncOf result) as [j|e|] eqn:El.
    + unfold ret. cbn. eexists _, _, _. split; [reflexivity|].
      repeat split; try discriminate; try exact Hf.
      intros rfields s Hr Hs. injection Hr as ->.
      unfold lastSyncOf, res_bind, member in El. rewrite Hs in El.
      injection El as <-. reflexivity.
    + unfold ret. cbn. eexists _, _, _. split; [reflexivity|].
      repeat split; try discriminate; try exact Hf.
      intros rfields s Hr Hs. injection Hr as ->.
      unfold lastSyncOf, res_bind, member in El. rewrite Hs in El. discriminate.
    + exfalso. unfold lastSyncOf, res_bind, member in El.
      destruct result as [| | | | |rfields]; try discriminate.
      destruct (Json.lookup "stdout" rfields) as [[| | | | |]|]; discriminate.
  - unfold ret. cbn. eexists _, _, _. split; [reflexivity|].
    repeat split; try discriminate; try exact Hf.
Qed.

(** X20.  [POST /api/admin/storage/sync] with a config sends one POST
    without body and without deadline to [/api/internal/sync]: it stays
    pending exactly when the backend never answers, and otherwise it
    answers and never throws.  A refused connection, a status that is
    not a success (with the status and the text of the answer as
    [details]) and a body that is not JSON give 500; a JSON object gives
    200 with its [success], [lastSync] and [error] members and a message
    that follows [success]. *)
Theorem X20_admin_storage_sync
        (JSON_parse : string -> option Json.t) (env : MoltbotEnv)
        (config : SelfHostedConfig) (net : Network) (st : St) :
  buildSelfHostedConfig env = Ok (Some config) ->
  let post := internalPost config "/api/internal/sync" in
  let answer := net (List.length (fetched st)) post in
  let run := admin_storage_sync JSON_parse env net st in
  f_url post = baseUrl config ++ "/api/internal/sync"
  /\ f_signal post = None /\ f_body post = None
  /\ fetched (snd run) = (fetched st ++ [post])%list
  /\ (fst run = Pending <-> answer = Silent)
  /\ (forall e, fst run <> Threw e)
  /\ (forall reason, answer = Refuses reason ->
        fst run = Ok (c_json (JObj [("success", JBool false);
                                    ("error", JStr reason)]) 500))
  /\ (forall delay r, answer = Replies delay r -> Response.ok r = false ->
        fst run = Ok (c_json (JObj [("success", JBool false);
                                    ("error", JStr ("Sync request failed: "
                                                      ++ JS.Z_to_string (Response.status r)));
                                    ("details", JStr (Response.text r))]) 500))
  /\ (forall delay r, answer = Replies delay r -> Response.ok r = true ->
        JSON_parse (Response.text r) = None ->
        fst run = Ok (c_json (JObj [("success", JBool false);
                                    ("error", JStr (exn_message SyntaxError))]) 500))
  /\ (forall delay r fields, answer = Replies delay r -> Response.ok r = true ->
        JSON_parse (Response.text r) = Some (JObj fields) ->
        fst run
        = Ok (c_json (object
                        [("success", Json.lookup "success" fields);
                         ("message",
                          Some (JStr (if val_truthy (Json.lookup "success" fields)
                                      then "Sync completed successfully"
                                      else "Sync failed")));
                         ("lastSync", Json.lookup "lastSync" fields);
                         ("error", Json.lookup "error" fields)]) 200)).
Proof.
  intros Hcfg. cbv zeta.
  unfold admin_storage_sync, try_catch, bind, fetch, lift. rewrite Hcfg.
  cbv beta iota. cbn [f_signal internalPost].
  destruct (net _ _) as [reason|delay r|] eqn:Hn.
  - unfold ret. cbn. repeat split; try discriminate; try (intros; discriminate).
    intros reason' H. injection H as <-. reflexivity.
  - destruct (Response.ok r) eqn:Hok.
    + unfold response_json.
      destruct (JSON_parse (Response.text r)) as [j|] eqn:Hj.
      * unfold ret, lift.
        destruct j as [| | | | |fields0]; cbn [member fst snd];
          (repeat split; try discriminate; try (intros; discriminate);
           [ intros d r' H Hk; injection H as <- <-; congruence
           | intros d r' H _ Hp; injection H as <- <-; congruence
           | intros d r' fields H _ Hp; injection H as <- <-;
             rewrite Hj in Hp; first [discriminate Hp | injection Hp as <-; reflexivity] ]).
      * unfold throw, ret. cbn.
        repeat split; try discriminate; try (intros; discriminate).
        -- intros d r' H Hk. injection H as <- <-. congruence.
        -- intros d r' fields H _ Hp. injection H as <- <-. congruence.
    + unfold ret. cbn.
      repeat split; try discriminate; try (intros; discriminate).
      * intros d r' H _. injection H as <- <-. reflexivity.
      * intros d r' H Hk. injection H as <- <-. congruence.
      * intros d r' fields H Hk. injection H as <- <-. congruence.
  - cbn. repeat split; try discriminate; try (intros; discriminate).
Qed.

(** X21.  [POST /api/admin/gateway/restart] with a config sends one POST
    without body and without deadline to [/api/internal/restart]: it
    stays pending exactly when the backend never answers, and otherwise
    it answers and never throws.  A refused connection, a status that is
    not a success (with the status and the text of the answer as
    [details]) and a body that is not JSON give 500; a JSON object gives
    200 with its [success] member and its [message], or a fixed message
    when it has none. *)
Theorem X21_admin_gateway_restart
        (JSON_parse : string -> option Json.t) (env : MoltbotEnv)
        (config : SelfHostedConfig) (net : Network) (st : St) :
  buildSelfHostedConfig env = Ok (Some config) ->
  let post := internalPost config "/api/internal/restart" in
  let answer := net (List.length (fetched st)) post in
  let run := admin_gateway_restart JSON_parse env net st in
  f_url post = baseUrl config ++ "/api/internal/restart"
  /\ f_signal post = None /\ f_body post = None
  /\ fetched (snd run) = (fetched st ++ [post])%list
  /\ (fst run = Pending <-> answer = Silent)
  /\ (forall e, fst run <> Threw e)
  /\ (forall reason, answer = Refuses reason ->
        fst run = Ok (serverError (mkExn "TypeError" reason)))
  /\ (forall delay r, answer = Replies delay r -> Response.ok r = false ->
        fst run = Ok (c_json (JObj [("success", JBool false);
                                    ("error", JStr ("Restart request failed: "
                                                      ++ JS.Z_to_string (Response.status r)));
                                    ("details", JStr (Response.text r))]) 500))
  /\ (forall delay r, answer = Replies delay r -> Response.ok r = true ->
        JSON_parse (Response.text r) = None ->
        fst run = Ok (serverError SyntaxError))
  /\ (forall delay r fields, answer = Replies delay r -> Response.ok r = true ->
        JSON_parse (Response.text r) = Some (JObj fields) ->
        fst run
        = Ok (c_json (object
                        [("success", Json.lookup "success" fields);
                         ("message",
                          Some (or_default (Json.lookup "message" fields)
                                           (JStr "Gateway restart initiated")))]) 200)).
Proof.
  intros Hcfg. cbv zeta.
  unfold admin_gateway_restart, try_catch, bind, fetch, lift. rewrite Hcfg.
  cbv beta iota. cbn [f_signal internalPost].
  destruct (net _ _) as [reason|delay r|] eqn:Hn.
  - unfold ret. cbn. repeat split; try discriminate; try (intros; discriminate).
    intros reason' H. injection H as <-. reflexivity.
  - destruct (Response.ok r) eqn:Hok.
    + unfold response_json.
      destruct (JSON_parse (Response.text r)) as [j|] eqn:Hj.
      * unfold ret, lift.
        destruct j as [| | | | |fields0]; cbn [member fst snd];
          (repeat split; try discriminate; try (intros; discriminate);
           [ intros d r' H Hk; injection H as <- <-; congruence
           | intros d r' H _ Hp; injection H as <- <-; congruence
           | intros d r' fields H _ Hp; injection H as <- <-;
             rewrite Hj in Hp; first [discriminate Hp | injection Hp as <-; reflexivity] ]).
      * unfold throw, ret. cbn.
        repeat split; try discriminate; try (intros; discriminate).
        -- intros d r' H Hk. injection H as <- <-. congruence.
        -- intros d r' fields H _ Hp. injection H as <- <-. congruence.
    + unfold ret. cbn.
      repeat split; try discriminate; try (intros; discriminate).
      * intros d r' H _. injection H as <- <-. reflexivity.
      * intros d r' H Hk. injection H as <- <-. congruence.
      * intros d r' fields H Hk. injection H as <- <-. congruence.
  - cbn. repeat split; try discriminate; try (intros; discriminate).
Qed.

(** X22.  [GET /api/admin/server/status] with a config first probes the
    backend and then asks [/api/internal/status], a GET without
    deadline: after the probe it stays pending exactly when that second
    call is never answered.  Every answer is a 200 and the route never
    throws.  A status that is not a success reports the result of the
    probe, with [running] or [unknown]; a JSON object is reported with
    its [gateway], [pid] and [timestamp] members beside the result of
    the probe; a refused connection or a body that is not JSON reports
    [healthy] as false, whatever the probe said. *)
Theorem X22_admin_server_status
        (JSON_parse : string -> option Json.t) (env : MoltbotEnv)
        (config : SelfHostedConfig) (net : Network) (st : St) :
  buildSelfHostedConfig env = Ok (Some config) ->
  let get := internalStatusFetch config in
  let answer := net (S (List.length (fetched st))) get in
  let run := admin_server_status JSON_parse env net st in
  let failed (e : Exn) :=
    c_json (JObj [("healthy", JBool false); ("gateway", JStr "error");
                  ("error", JStr (exn_message e)); ("url", JStr (baseUrl config))]) 200 in
  exists healthy st1,
    checkSelfHostedHealth config net st = (Ok healthy, st1)
    /\ f_signal get = None
    /\ fetched (snd run) = (fetched st ++ [healthFetch config; get])%list
    /\ (fst run = Pending <-> answer = Silent)
    /\ (forall e, fst run <> Threw e)
    /\ (forall resp, fst run = Ok resp -> Response.status resp = 200%Z)
    /\ (forall reason, answer = Refuses reason ->
          fst run = Ok (failed (mkExn "TypeError" reason)))
    /\ (forall delay r, answer = Replies delay r -> Response.ok r = false ->
          fst run = Ok (c_json (JObj [("healthy", JBool healthy);
                                      ("gateway", JStr (if healthy then "running"
                                                        else "unknown"));
                                      ("url", JStr (baseUrl config))]) 200))
    /\ (forall delay r, answer = Replies delay r -> Response.ok r = true ->
          JSON_parse (Response.text r) = None ->
          fst run = Ok (failed SyntaxError))
    /\ (forall delay r fields, answer = Replies delay r -> Response.ok r = true ->
          JSON_parse (Response.text r) = Some (JObj fields) ->
          fst run
          = Ok (c_json (object
                          [("healthy", Some (JBool healthy));
                           ("gateway", Json.lookup "gateway" fields);
                           ("pid", Json.lookup "pid" fields);
                           ("timestamp", Json.lookup "timestamp" fields);
                           ("url", Some (JStr (baseUrl config)))]) 200)).
Proof.
  intros Hcfg. cbv zeta.
  destruct (health_effect config net st) as (healthy & st1 & Eh & Hf1 & _).
  exists healthy, st1. split; [exact Eh|]. split; [reflexivity|].
  unfold admin_server_status, try_catch, bind, lift. rewrite Hcfg.
  cbv beta iota. rewrite Eh. unfold fetch. cbn [f_signal internalStatusFetch].
  assert (Hlen : List.length (fetched st1) = S (List.length (fetched st))).
  { rewrite Hf1, length_app. simpl. lia. }
  rewrite Hlen.
  assert (Hreq : forall init, fetched (requested st1 init)
                              = (fetched st ++ [healthFetch config; init])%list).
  { intros init. unfold requested. cbn [fetched]. rewrite Hf1, <- app_assoc. reflexivity. }
  destruct (net _ _) as [reason|delay r|] eqn:Hn.
  - unfold ret. cbn [fst snd]. rewrite Hreq.
    repeat split; try discriminate; try (intros; discriminate).
    + intros resp H. injection H as <-. reflexivity.
    + intros reason' H. injection H as <-. reflexivity.
  - destruct (Response.ok r) eqn:Hok.
    + unfold response_json.
      destruct (JSON_parse (Response.text r)) as [j|] eqn:Hj.
      * unfold ret, lift.
        destruct j as [| | | | |fields0]; cbn [member fst snd]; rewrite Hreq;
          (repeat split; try discriminate; try (intros; discriminate);
           [ intros resp H; injection H as <-; reflexivity
           | intros d r' H Hk; injection H as <- <-; congruence
           | intros d r' H _ Hp; injection H as <- <-; congruence
           | intros d r' fields H _ Hp; injection H as <- <-;
             rewrite Hj in Hp; first [discriminate Hp | injection Hp as <-; reflexivity] ]).
      * unfold throw, ret. cbn [fst snd]. rewrite Hreq.
        repeat split; try discriminate; try (intros; discriminate).
        -- intros resp H. injection H as <-. reflexivity.
        -- intros d r' H Hk. injection H as <- <-. congruence.
        -- intros d r' fields H _ Hp. injection H as <- <-. congruence.
    + unfold ret. cbn [fst snd]. rewrite Hreq.
      repeat split; try discriminate; try (intros; discriminate).
      * intros resp H. injection H as <-. reflexivity.
      * intros d r' H Hk. injection H as <- <-. congruence.
      * intros d r' fields H Hk. injection H as <- <-. congruence.
  - cbn [fst snd]. rewrite Hreq.
    repeat split; try discriminate; try (intros; discriminate).
Qed.

(** ** The admin routes on sample answers *)

Lemma X16_witness :
  buildSelfHostedConfig adminEnv = Ok (Some relayConfig)
  /\ fst (admin_devices adminParse adminEnv adminNet idle) = Ok (c_json pendingList 200).
Proof.
  destruct (X16_admin_devices adminParse adminEnv relayConfig adminNet idle eq_refl)
    as (resp & E & _ & _ & _ & Hj & _).
  split; [reflexivity|]. rewrite E. cbn [fst].
  rewrite (Hj [("stdout", JStr "connecting {devices} done"); ("stderr", JStr "");
               ("exitCode", JNum 0)] "connecting " "devices" " done"
              eq_refl eq_refl eq_refl eq_refl).
  reflexivity.
Defined.

Lemma X17_witness :
  buildSelfHostedConfig adminEnv = Ok (Some relayConfig)
  /\ exists resp,
       fst (admin_approve adminParse adminEnv (Some "r1") approvingNet idle) = Ok resp
       /\ map f_body (fetched (snd (admin_approve adminParse adminEnv (Some "r1")
                                                  approvingNet idle)))
          = [Some (Json.stringify
                     (JObj [("command",
                             JStr "clawdbot devices approve r1 --url ws://localhost:18789");
                            ("timeout", JNum 20000)]))].
Proof.
  assert (Hne : "r1" <> "") by discriminate.
  destruct (X17_admin_approve adminParse adminEnv relayConfig (Some "r1") approvingNet idle
              eq_refl) as (_ & H).
  destruct (H "r1" eq_refl Hne) as (resp & E & Hf & _).
  split; [reflexivity|]. exists resp. rewrite E. cbn [fst snd]. split; [reflexivity|].
  rewrite Hf. reflexivity.
Defined.

Lemma X18_witness :
  buildSelfHostedConfig adminEnv = Ok (Some relayConfig)
  /\ exists resp st',
       admin_approve_all adminParse adminEnv adminNet idle = (Ok resp, st')
       /\ map f_url (fetched st')
          = ["https://x.example.com/api/internal/exec";
             "https://x.example.com/api/internal/exec";
             "https://x.example.com/api/internal/exec"]
       /\ exists results,
            resp = approvalSummary results
                                   (JArr [JObj [("requestId", JStr "r1")];
                                          JObj [("requestId", JStr "r2")]])
            /\ map requestId results = [Some (JStr "r1"); Some (JStr "r2")].
Proof.
  destruct (X18_admin_approve_all adminParse adminEnv relayConfig adminNet idle eq_refl)
    as (resp & st' & E & _ & H).
  destruct (H [("stdout", JStr "connecting {devices} done"); ("stderr", JStr "");
               ("exitCode", JNum 0)] "connecting {devices} done" "{devices}"
              eq_refl eq_refl eq_refl) as (_ & Hd).
  destruct (Hd [("pending", JArr [JObj [("requestId", JStr "r1")];
                                  JObj [("requestId", JStr "r2")]]);
                ("paired", JArr [])]
               [JObj [("requestId", JStr "r1")]; JObj [("requestId", JStr "r2")]]
               eq_refl eq_refl) as (_ & Hsome & _).
  assert (Hne : [JObj [("requestId", JStr "r1")]; JObj [("requestId", JStr "r2")]] <> [])
    by discriminate.
  destruct (Hsome Hne eq_refl) as (results & Hr & Hm & Hf & _).
  split; [reflexivity|]. exists resp, st'. split; [exact E|]. split.
  - rewrite Hf. reflexivity.
  - exists results. split; [exact Hr|exact Hm].
Defined.

Lemma X19_witness :
  buildSelfHostedConfig adminEnv = Ok (Some relayConfig)
  /\ exists fields,
       fst (admin_storage adminParse adminEnv fullStorageEnv refusingNet idle)
       = Ok (c_json (JObj fields) 200)
       /\ Json.lookup "configured" fields = Some (JBool true)
       /\ Json.lookup "lastSync" fields = Some JNull.
Proof.
  destruct (X19_admin_storage adminParse adminEnv fullStorageEnv relayConfig refusingNet idle
              eq_refl) as (fields & lastSync & st' & E & Hc & Hl & _ & _ & Hyes).
  destruct (Hyes eq_refl) as (_ & _ & _ & _ & Hthrew & _).
  split; [reflexivity|]. exists fields. rewrite E. cbn [fst]. split; [reflexivity|].
  split; [exact Hc|].
  rewrite Hl. rewrite (Hthrew (mkExn "TypeError" "connection refused") eq_refl).
  reflexivity.
Defined.

Lemma X20_witness :
  buildSelfHostedConfig adminEnv = Ok (Some relayConfig)
  /\ fst (admin_storage_sync adminParse adminEnv refusingNet idle)
     = Ok (c_json (JObj [("success", JBool false);
                         ("error", JStr "connection refused")]) 500).
Proof.
  destruct (X20_admin_storage_sync adminParse adminEnv relayConfig refusingNet idle eq_refl)
    as (_ & _ & _ & _ & _ & _ & H & _).
  split; [reflexivity|]. apply (H "connection refused" eq_refl).
Defined.

Lemma X21_witness :
  buildSelfHostedConfig adminEnv = Ok (Some relayConfig)
  /\ fst (admin_gateway_restart adminParse adminEnv refusingNet idle)
     = Ok (serverError (mkExn "TypeError" "connection refused")).
Proof.
  destruct (X21_admin_gateway_restart adminParse adminEnv relayConfig refusingNet idle
              eq_refl) as (_ & _ & _ & _ & _ & _ & H & _).
  split; [reflexivity|]. apply (H "connection refused" eq_refl).
Defined.

Lemma X22_witness :
  buildSelfHostedConfig adminEnv = Ok (Some relayConfig)
  /\ fst (admin_server_status adminParse adminEnv plainNet idle)
     = Ok (c_json (JObj [("healthy", JBool false); ("gateway", JStr "error");
                         ("error", JStr (exn_message SyntaxError));
                         ("url", JStr "https://x.example.com")]) 200).
Proof.
  destruct (X22_admin_server_status adminParse adminEnv relayConfig plainNet idle eq_refl)
    as (healthy & st1 & _ & _ & _ & _ & _ & _ & _ & _ & H & _).
  split; [reflexivity|]. apply (H 5%Z (statusOnly 200) eq_refl eq_refl eq_refl).
Defined.

(** ** The CDP routes *)

Lemma replace_first_absent (s pat rep : string) :
  JS.includes s pat = false -> JS.replace_first s pat rep = s.
Proof.
  induction s as [|c t IH].
  - destruct pat; [discriminate|reflexivity].
  - cbn [JS.includes JS.replace_first].
    destruct (String.prefix pat (String c t)); [discriminate|].
    intros H. rewrite (IH H). reflexivity.
Qed.

Lemma prefix_nil (s : string) : String.prefix "" s = true.
Proof. destruct s; reflexivity. Qed.

Lemma prefix_app (p s : string) : String.prefix p (p ++ s) = true.
Proof.
  induction p as [|c p IH]; [apply prefix_nil|].
  simpl. destruct (Ascii.ascii_dec c c) as [_|N]; [exact IH|contradiction].
Qed.

Lemma drop_app (p s : string) : JS.drop (String.length p) (p ++ s) = s.
Proof. induction p as [|c p IH]; simpl; [destruct s; reflexivity|exact IH]. Qed.

(** A pattern at the start of the text is the first occurrence. *)
Lemma replace_literal_prefix (pat rep s : string) :
  JS.replace_first (pat ++ s) pat rep = rep ++ s.
Proof.
  assert (E : forall t, JS.replace_first t pat rep
                        = if String.prefix pat t then rep ++ JS.drop (String.length pat) t
                          else match t with
                               | EmptyString => EmptyString
                               | String c t' => String c (JS.replace_first t' pat rep)
                               end)
    by (intros t; destruct t; reflexivity).
  rewrite E, prefix_app, drop_app. reflexivity.
Qed.

Lemma truthy_some (s : string) : s <> "" -> JS.truthy (Some s) = true.
Proof.
  intros H. unfold JS.truthy. destruct (s =? "") eqn:E; [|reflexivity].
  apply String.eqb_eq in E. contradiction.
Qed.

(** X23.  The two CDP proxies, [GET /cdp/json/version] and
    [GET /cdp/json], need only [SELFHOSTED_URL]: without it they answer
    503 and call nothing.  With it they send one GET without headers and
    without deadline to the backend URL, with port 18789 replaced by
    3000 when the URL holds it and as it is otherwise, so they stay
    pending exactly when that call is never answered.  They never throw:
    a refused connection or a body that is not JSON gives 502 with the
    message as [details], and a JSON body is passed on with status 200
    whatever the status of the upstream answer. *)
Theorem X23_cdp_proxies
        (JSON_parse : string -> option Json.t) (env : MoltbotEnv)
        (net : Network) (st : St) :
  let failed (what : string) (hint : list (string * Json.t)) (e : Exn) :=
    c_json (JObj ([("error", JStr what); ("details", JStr (exn_message e))] ++ hint)) 502 in
  let versionHint :=
    [("hint", JStr "Ensure Chrome container is running and tunnel is configured for port 3000")] in
  (JS.truthy (SELFHOSTED_URL env) = false ->
   cdp_json_version JSON_parse env net st = (Ok urlNotConfigured, st)
   /\ cdp_json_list JSON_parse env net st = (Ok urlNotConfigured, st)
   /\ Response.status urlNotConfigured = 503%Z)
  /\ (forall url, SELFHOSTED_URL env = Some url -> url <> "" ->
      (JS.includes url ":18789" = false -> chromeUrl url = url)
      /\ forall (route : MoltbotEnv -> M Response.t) (path what : string)
                (hint : list (string * Json.t)),
           (route = cdp_json_version JSON_parse /\ path = "/json/version"
            /\ what = "Failed to get Chrome version" /\ hint = versionHint)
           \/ (route = cdp_json_list JSON_parse /\ path = "/json"
               /\ what = "Failed to list targets" /\ hint = []) ->
           let get := plainGet (chromeUrl url ++ path) in
           let answer := net (List.length (fetched st)) get in
           let run := route env net st in
           f_headers get = [] /\ f_signal get = None
           /\ fetched (snd run) = (fetched st ++ [get])%list
           /\ (fst run = Pending <-> answer = Silent)
           /\ (forall e, fst run <> Threw e)
           /\ (forall reason, answer = Refuses reason ->
                 fst run = Ok (failed what hint (mkExn "TypeError" reason)))
           /\ (forall delay r, answer = Replies delay r ->
                 fst run = match JSON_parse (Response.text r) with
                           | Some data => Ok (c_json data 200)
                           | None => Ok (failed what hint SyntaxError)
                           end)).
Proof.
  cbv zeta. split.
  - intros Hu. unfold cdp_json_version, cdp_json_list. rewrite Hu. repeat split.
  - intros url Hu Hne. split; [apply replace_first_absent|].
    pose proof (truthy_some url Hne) as Ht.
    intros route path what hint
           [(-> & -> & -> & ->) | (-> & -> & -> & ->)];
      unfold cdp_json_version, cdp_json_list; rewrite Hu, Ht; cbn [negb value];
      unfold try_catch, bind, fetch; cbn [f_signal plainGet];
      (destruct (net _ _) as [reason|delay r|] eqn:Hn;
       [ unfold ret; cbn; repeat split; try discriminate; try (intros; discriminate);
         intros reason' H; injection H as <-; reflexivity
       | unfold response_json;
         destruct (JSON_parse (Response.text r)) as [j|] eqn:Hj;
         unfold throw, ret; cbn;
         (repeat split; try discriminate; try (intros; discriminate);
          intros d r' H; injection H as <- <-; rewrite Hj; reflexivity)
       | cbn; repeat split; try discriminate; try (intros; discriminate) ]).
Qed.

(** X24.  [GET /cdp] answers 200 with the endpoints of the Chrome
    container, built from [SELFHOSTED_URL] as it is (the deployment mode
    plays no part and a trailing slash is kept), or from
    [http://localhost:3000] when it is absent or empty.  The WebSocket
    endpoint of an [https://] URL starts with [wss://] and that of an
    [http://] URL with [ws://], the rest of the URL being unchanged when
    it holds no further scheme prefix. *)
Theorem X24_cdp_info (env : MoltbotEnv) :
  let url := if JS.truthy (SELFHOSTED_URL env) then value (SELFHOSTED_URL env)
             else "http://localhost:3000" in
  exists fields endpoints websocket,
    cdp_info env = c_json (JObj fields) 200
    /\ Json.lookup "endpoints" fields = Some (JObj endpoints)
    /\ Json.lookup "json_version" endpoints = Some (JStr (url ++ "/json/version"))
    /\ Json.lookup "json_list" endpoints = Some (JStr (url ++ "/json"))
    /\ Json.lookup "json_new" endpoints = Some (JStr (url ++ "/json/new?about:blank"))
    /\ Json.lookup "websocket" endpoints = Some (JStr websocket)
    /\ (JS.truthy (SELFHOSTED_URL env) = false -> websocket = "ws://localhost:3000/")
    /\ (forall rest, url = "https://" ++ rest -> JS.includes rest "http://" = false ->
          websocket = "wss://" ++ rest ++ "/")
    /\ (forall rest, url = "http://" ++ rest -> JS.includes rest "https://" = false ->
          websocket = "ws://" ++ rest ++ "/").
Proof.
  cbv zeta. unfold cdp_info.
  set (url := if JS.truthy (SELFHOSTED_URL env) then value (SELFHOSTED_URL env)
              else "http://localhost:3000").
  eexists _, _, _. split; [reflexivity|].
  split; [reflexivity|]. split; [reflexivity|]. split; [reflexivity|].
  split; [reflexivity|]. split; [reflexivity|]. split; [|split].
  - intros Hf. subst url. rewrite Hf. reflexivity.
  - intros rest Hu Hr. rewrite Hu.
    rewrite (replace_literal_prefix "https://" "wss://" rest).
    assert (H : JS.includes ("wss://" ++ rest) "http://" = false) by (simpl; exact Hr).
    rewrite (replace_first_absent _ _ _ H). reflexivity.
  - intros rest Hu Hr. rewrite Hu.
    assert (H : JS.includes ("http://" ++ rest) "https://" = false) by (simpl; exact Hr).
    rewrite (replace_first_absent _ _ _ H).
    rewrite (replace_literal_prefix "http://" "ws://" rest). reflexivity.
Qed.

(** ** The time of the last sync *)

Lemma trim_start_spec (s : string) :
  exists l, s = l ++ trim_start s
            /\ JS.forallb_str is_space l = true
            /\ forall c t, trim_start s = String c t -> is_space c = false.
Proof.
  induction s as [|a s IH].
  - exists "". repeat split. intros c t H. discriminate.
  - cbn [trim_start]. destruct (is_space a) eqn:Ea.
    + destruct IH as (l & E & Hl & Hc). exists (String a l). simpl.
      rewrite Ea, Hl, <- E. repeat split. exact Hc.
    + exists "". repeat split. intros c t H. injection H as <- <-. exact Ea.
Qed.

Lemma trim_end_spec (s : string) :
  exists r, s = trim_end s ++ r
            /\ JS.forallb_str is_space r = true
            /\ forall c, last_char (trim_end s) = Some c -> is_space c = false.
Proof.
  induction s as [|a s IH].
  - exists "". repeat split. intros c H. discriminate.
  - destruct IH as (r & E & Hr & Hc). cbn [trim_end].
    destruct (trim_end s) as [|b u] eqn:Et.
    + simpl in E. subst r. destruct (is_space a) eqn:Ea.
      * exists (String a s). simpl. rewrite Ea, Hr. repeat split.
        intros c H. discriminate.
      * exists s. repeat split; [exact Hr|].
        intros c H. injection H as <-. exact Ea.
    + exists r. simpl. rewrite E at 1. repeat split; [exact Hr|].
      intros c H. apply Hc. exact H.
Qed.

Lemma trim_end_keeps_first (c : ascii) (t : string) :
  is_space c = false -> exists t', trim_end (String c t) = String c t'.
Proof.
  intros Hc. cbn [trim_end]. rewrite Hc. destruct (trim_end t); eauto.
Qed.

(** X25.  What [GET /api/admin/storage] reports as [lastSync] is
    [null] or a string that is not empty and has no white space at
    either end: the output of the backend without the white space around
    it.  Output that is all white space, or absent, is reported as
    [null]. *)
Theorem X25_lastSync_is_trimmed (result j : Json.t) :
  lastSyncOf result = Ok j ->
  j = JNull
  \/ exists s l t r,
       member result "stdout" = Ok (Some (JStr s))
       /\ j = JStr t
       /\ s = l ++ t ++ r
       /\ JS.forallb_str is_space l = true /\ JS.forallb_str is_space r = true
       /\ t <> ""
       /\ (forall c t', t = String c t' -> is_space c = false)
       /\ (forall c, last_char t = Some c -> is_space c = false).
Proof.
  unfold lastSyncOf, res_bind.
  destruct (member result "stdout") as [[[| | |s| |]|]|e|] eqn:Em; try discriminate;
    intros H; injection H as <-; auto.
  destruct (trim s =? "") eqn:Ee; [auto|]. right.
  apply String.eqb_neq in Ee.
  destruct (trim_start_spec s) as (l & El & Hl & Hfirst).
  destruct (trim_end_spec (trim_start s)) as (r & Er & Hr & Hlast).
  exists s, l, (trim s), r. unfold trim in *.
  repeat split; auto.
  - rewrite <- Er. exact El.
  - intros c t' Ht. destruct (trim_start s) as [|a u] eqn:Es; [discriminate|].
    pose proof (Hfirst a u eq_refl) as Ha.
    destruct (trim_end_keeps_first a u Ha) as (u' & Eu). rewrite Eu in Ht.
    injection Ht as <- <-. exact Ha.
Qed.

(** X25 on the sample answer of the backend. *)
Lemma X25_witness :
  lastSyncOf echoResult = Ok (JStr "hi")
  /\ exists l r, "hi" ++ String (ascii_of_nat 10) "" = l ++ "hi" ++ r.
Proof.
  destruct (X25_lastSync_is_trimmed echoResult (JStr "hi") eq_refl)
    as [H | (s & l & t & r & Hm & Hj & Hs & _)]; [discriminate|].
  split; [reflexivity|].
  injection Hm as <-. injection Hj as <-. exists l, r. exact Hs.
Defined.

(** ** The catch-all route, end to end *)


